(** * flow_service: the four-stage order pipeline and its bundle merge

    A shallow embedding of [flow_service.py]: the in-memory order store
    ([ORDERS_DB], [BUNDLES_STORAGE], [ORDER_COUNTER]), the business helpers
    ([get_order], [get_order_decrypted], [get_all_orders], [create_order]) and
    the four LangGraph nodes ([process_input], [determine_action],
    [execute_action], [format_response]) with the linear workflow that chains
    them.

    Python values are JSON values; Python dictionaries are insertion-ordered
    association lists; exceptions are an explicit error type; the process-wide
    globals and the outbound HTTP traffic live in a [world] record threaded
    through a state-and-exception monad.  The remote collaborators (the Cryptor
    HTTP service, the language model) and the [json] codec are variables of the
    section that holds the nodes. *)

From Stdlib Require Import ZArith List String Ascii Bool Lia.
From Stdlib Require Import QArith_base Qreduction.
From Stdlib Require Import Decimal DecimalFacts DecimalN DecimalZ DecimalString.
Import ListNotations.

Close Scope Q_scope.
Open Scope string_scope.
Open Scope Z_scope.
Open Scope list_scope.

Set Implicit Arguments.
Set Warnings "-register-all".

(* ================================================================== *)
(** * Python values *)

(** Every value the service handles comes out of [json.loads] /
    [resp.json()] or is built from literals, so a Python value is a JSON
    value.  [None] is [JNull].  A float is kept as the exact rational it
    denotes (non-finite floats are outside the model); a dictionary keeps its
    entries in insertion order. *)
Inductive json : Type :=
| JNull
| JBool (b : bool)
| JInt (n : Z)
| JFloat (q : Q)
| JStr (s : string)
| JList (l : list json)
| JDict (d : list (string * json)).

(** Python truthiness ([if not x], [if x]). *)
Definition truthy (v : json) : bool :=
  match v with
  | JNull => false
  | JBool b => b
  | JInt n => negb (n =? 0)
  | JFloat q => negb (Qnum q =? 0)
  | JStr s => negb (String.eqb s "")
  | JList l => match l with [] => false | _ => true end
  | JDict d => match d with [] => false | _ => true end
  end.

(* ================================================================== *)
(** * Exceptions *)

Inductive exn : Type :=
| RuntimeError (msg : string)
| TypeError (msg : string)
| KeyError (key : string)
| AttributeError (msg : string)
| JSONDecodeError (msg : string)
| HTTPError (msg : string)
| OtherError (name msg : string).

(** [str(e)].  The message carried by an error raised by the interpreter or
    a library stands for the text Python gives it; no theorem below depends on
    its wording.  A [KeyError] prints the repr of its key. *)
Definition str_exn (e : exn) : string :=
  match e with
  | RuntimeError m | TypeError m | AttributeError m
  | JSONDecodeError m | HTTPError m | OtherError _ m => m
  | KeyError k => "'" ++ k ++ "'"
  end.

Inductive result (A : Type) : Type :=
| Ok (a : A)
| Raise (e : exn).
Arguments Ok {A} a.
Arguments Raise {A} e.

(* ================================================================== *)
(** * Insertion-ordered dictionaries *)

(** Keys compared with a boolean equality that decides Leibniz equality. *)
Class EqKey (K : Type) : Type := {
  keqb : K -> K -> bool;
  keqb_eq : forall x y, keqb x y = true <-> x = y
}.

#[export] Instance EqKey_string : EqKey string :=
  {| keqb := String.eqb; keqb_eq := String.eqb_eq |}.

Section PyDict.
Context {K V : Type} `{EqKey K}.

Definition pydict := list (K * V).

(** [d.get(k)] *)
Fixpoint dict_get (d : pydict) (k : K) : option V :=
  match d with
  | [] => None
  | (k', v) :: rest => if keqb k' k then Some v else dict_get rest k
  end.

(** [d[k] = v]: an existing key keeps its position, a new key goes last. *)
Fixpoint dict_set (d : pydict) (k : K) (v : V) : pydict :=
  match d with
  | [] => [(k, v)]
  | (k', v') :: rest =>
      if keqb k' k then (k', v) :: rest else (k', v') :: dict_set rest k v
  end.

Definition dict_keys (d : pydict) : list K := map fst d.
Definition dict_values (d : pydict) : list V := map snd d.

(** [k in d] *)
Definition dict_mem (d : pydict) (k : K) : bool :=
  match dict_get d k with Some _ => true | None => false end.

(** [{**d, k1: v1, ...}] and [d.update(items)]: the listed items are
    assigned in order. *)
Definition dict_update (d : pydict) (items : list (K * V)) : pydict :=
  fold_left (fun acc kv => dict_set acc (fst kv) (snd kv)) items d.

(** Membership in a list of keys. *)
Definition key_in (ks : list K) (k : K) : bool := existsb (keqb k) ks.

(** A list of keys, each kept at its first occurrence only. *)
Fixpoint firsts (ks : list K) : list K :=
  match ks with
  | [] => []
  | k :: rest => k :: filter (fun k' => negb (keqb k k')) (firsts rest)
  end.

(** The value of the last item listed under [k]. *)
Fixpoint last_item (k : K) (items : list (K * V)) : option V :=
  match items with
  | [] => None
  | (k0, v0) :: rest =>
      match last_item k rest with
      | Some v => Some v
      | None => if keqb k0 k then Some v0 else None
      end
  end.
End PyDict.
Arguments pydict : clear implicits.

(* ================================================================== *)
(** * Hashable keys *)

(** What a Python dictionary compares when a JSON value is used as a key:
    strings by content, numbers by value ([True == 1 == 1.0]), [None] alone.
    Lists and dictionaries are unhashable. *)
Inductive hkey : Type :=
| HNone
| HStr (s : string)
| HNum (num : Z) (den : positive).

Definition hkey_eqb (a b : hkey) : bool :=
  match a, b with
  | HNone, HNone => true
  | HStr s, HStr t => String.eqb s t
  | HNum n d, HNum m e => (n =? m) && (d =? e)%positive
  | _, _ => false
  end.

Lemma hkey_eqb_eq (a b : hkey) : hkey_eqb a b = true <-> a = b.
Proof.
  destruct a, b; simpl; split; intro E; try discriminate; try reflexivity.
  - apply String.eqb_eq in E. now subst.
  - injection E as ->. apply String.eqb_refl.
  - apply andb_true_iff in E as [E1 E2].
    apply Z.eqb_eq in E1. apply Pos.eqb_eq in E2. now subst.
  - injection E as -> ->. now rewrite Z.eqb_refl, Pos.eqb_refl.
Qed.

#[export] Instance EqKey_hkey : EqKey hkey :=
  {| keqb := hkey_eqb; keqb_eq := hkey_eqb_eq |}.

Definition hnum_of_Q (q : Q) : hkey :=
  let r := Qred q in HNum (Qnum r) (Qden r).

(** [hash(v)] succeeds: the dictionary key a value stands for. *)
Definition py_hash (v : json) : result hkey :=
  match v with
  | JNull => Ok HNone
  | JBool b => Ok (HNum (if b then 1 else 0) 1)
  | JInt n => Ok (HNum n 1)
  | JFloat q => Ok (hnum_of_Q q)
  | JStr s => Ok (HStr s)
  | JList _ => Raise (TypeError "unhashable type: 'list'")
  | JDict _ => Raise (TypeError "unhashable type: 'dict'")
  end.

(* ================================================================== *)
(** * Dynamic operations on values *)

(** [len(v)] *)
Definition py_len (v : json) : result Z :=
  match v with
  | JStr s => Ok (Z.of_nat (String.length s))
  | JList l => Ok (Z.of_nat (List.length l))
  | JDict d => Ok (Z.of_nat (List.length d))
  | _ => Raise (TypeError "object has no len()")
  end.

Fixpoint chars_of (s : string) : list json :=
  match s with
  | EmptyString => []
  | String c rest => JStr (String c EmptyString) :: chars_of rest
  end.

(** The items [list.extend(v)] appends: elements of a list, characters of a
    string, keys of a dictionary. *)
Definition py_iter (v : json) : result (list json) :=
  match v with
  | JList l => Ok l
  | JStr s => Ok (chars_of s)
  | JDict d => Ok (map (fun kv => JStr (fst kv)) d)
  | _ => Raise (TypeError "object is not iterable")
  end.

(** [v[k]] for a string key [k]. *)
Definition py_getitem (v : json) (k : string) : result json :=
  match v with
  | JDict d =>
      match dict_get d k with
      | Some x => Ok x
      | None => Raise (KeyError k)
      end
  | _ => Raise (TypeError "object is not subscriptable by str")
  end.

(** [v.get(k, default)]: only dictionaries have [get]. *)
Definition py_get (v : json) (k : string) (default : json) : result json :=
  match v with
  | JDict d =>
      match dict_get d k with
      | Some x => Ok x
      | None => Ok default
      end
  | _ => Raise (AttributeError "object has no attribute 'get'")
  end.

(** [{**v, k1: v1, ...}]: [v] must be a mapping. *)
Definition py_spread (v : json) (items : list (string * json)) : result json :=
  match v with
  | JDict d => Ok (JDict (dict_update d items))
  | _ => Raise (TypeError "object is not a mapping")
  end.

(** [store.get(k)] on a dictionary whose keys are all strings, for an
    arbitrary value [k]: a string looks itself up, any other hashable value
    matches no key, an unhashable one raises. *)
Definition store_get (store : pydict string json) (k : json)
  : result (option json) :=
  match k with
  | JStr s => Ok (dict_get store s)
  | JList _ | JDict _ =>
      match py_hash k with Raise e => Raise e | Ok _ => Ok None end
  | _ => Ok None
  end.

(* ================================================================== *)
(** * Strings: [strip], [find], [rfind], slices, and [:03d] *)

(** [str.isspace] on the characters the model has (code points below 256). *)
Definition is_space (c : ascii) : bool :=
  let n := nat_of_ascii c in
  ((9 <=? n) && (n <=? 13) || (28 <=? n) && (n <=? 32)
   || (n =? 133) || (n =? 160))%nat.

Fixpoint lstrip (s : string) : string :=
  match s with
  | String c rest => if is_space c then lstrip rest else s
  | EmptyString => EmptyString
  end.

Fixpoint rstrip (s : string) : string :=
  match s with
  | EmptyString => EmptyString
  | String c rest =>
      match rstrip rest with
      | EmptyString => if is_space c then EmptyString else String c EmptyString
      | kept => String c kept
      end
  end.

(** [s.strip()] *)
Definition strip (s : string) : string := rstrip (lstrip s).

Fixpoint find_from (c : ascii) (s : string) (i : Z) : Z :=
  match s with
  | EmptyString => -1
  | String c' rest => if Ascii.eqb c' c then i else find_from c rest (i + 1)
  end.

(** [s.find(c)] for a one-character needle: first index or -1. *)
Definition str_find (c : ascii) (s : string) : Z := find_from c s 0.

Fixpoint rfind_from (c : ascii) (s : string) (i : Z) (last : Z) : Z :=
  match s with
  | EmptyString => last
  | String c' rest =>
      rfind_from c rest (i + 1) (if Ascii.eqb c' c then i else last)
  end.

(** [s.rfind(c)]: last index or -1. *)
Definition str_rfind (c : ascii) (s : string) : Z := rfind_from c s 0 (-1).

(** How a slice bound is read: a negative bound counts from the end, and
    every bound is clamped into [0, len]. *)
Definition slice_bound (len i : Z) : Z :=
  if i <? 0 then Z.max 0 (len + i) else Z.min i len.

(** [s[start:stop]] *)
Definition slice (s : string) (start stop : Z) : string :=
  let len := Z.of_nat (String.length s) in
  let a := slice_bound len start in
  let b := slice_bound len stop in
  String.substring (Z.to_nat a) (Z.to_nat (b - a)) s.

(** Zero-fill on the left up to [width] digits. *)
Definition zero_pad (width : nat) (d : uint) : uint :=
  Nat.iter (width - nb_digits d) D0 d.

(** [f"{n:03d}"]: decimal digits, zero-filled to a minimum width of three
    characters, the sign counted in the width. *)
Definition format_03d (n : Z) : string :=
  match n with
  | Zneg p => "-" ++ NilEmpty.string_of_uint (zero_pad 2 (Pos.to_uint p))
  | _ => NilEmpty.string_of_uint (zero_pad 3 (N.to_uint (Z.to_N n)))
  end.

(** The identifier [create_order] builds from the counter. *)
Definition order_id_of (counter : Z) : string := "ORD-" ++ format_03d counter.

(* ================================================================== *)
(** * The world and the monad *)

(** An HTTP response as the code reads it: its status (for
    [raise_for_status]) and the outcome of [resp.json()]. *)
Record response : Type := {
  status_code : Z;
  resp_json : result json
}.

(** [resp.raise_for_status()]: 4xx and 5xx raise. *)
Definition raise_for_status (r : response) : result unit :=
  if (400 <=? status_code r) && (status_code r <? 600)
  then Raise (HTTPError "HTTP error status")
  else Ok tt.

(** The module globals, the two files they are saved to, every request sent
    with [requests.post], and how many times the clock was read. *)
Record world : Type := {
  ORDERS_DB : pydict string json;
  BUNDLES_STORAGE : pydict string json;
  ORDER_COUNTER : Z;
  db_file : option json;
  bundles_file : option json;
  http_log : list (string * json);
  clock_reads : nat
}.

(** The world once a request to [url] with body [payload] has been sent. *)
Definition log_request (w : world) (url : string) (payload : json) : world :=
  {| ORDERS_DB := ORDERS_DB w; BUNDLES_STORAGE := BUNDLES_STORAGE w;
     ORDER_COUNTER := ORDER_COUNTER w; db_file := db_file w;
     bundles_file := bundles_file w;
     http_log := http_log w ++ [(url, payload)];
     clock_reads := clock_reads w |}.

(** The globals as the module initialises them, nothing on disk. *)
Definition fresh_world : world :=
  {| ORDERS_DB := []; BUNDLES_STORAGE := []; ORDER_COUNTER := 1;
     db_file := None; bundles_file := None; http_log := []; clock_reads := 0 |}.

Definition M (A : Type) : Type := world -> result A * world.

Class Monad (m : Type -> Type) : Type := {
  ret : forall {A}, A -> m A;
  bind : forall {A B}, m A -> (A -> m B) -> m B
}.

#[export] Instance Monad_result : Monad result := {|
  ret := fun A a => Ok a;
  bind := fun A B r k => match r with Ok a => k a | Raise e => Raise e end
|}.

#[export] Instance Monad_M : Monad M := {|
  ret := fun A a w => (Ok a, w);
  bind := fun A B c k w =>
    match c w with
    | (Ok a, w') => k a w'
    | (Raise e, w') => (Raise e, w')
    end
|}.

Declare Scope monad_scope.
Notation "x <- c ;; k" := (bind c (fun x => k))
  (at level 61, c at next level, right associativity) : monad_scope.
Notation "c ;;; k" := (bind c (fun _ => k))
  (at level 61, right associativity) : monad_scope.
Open Scope monad_scope.

(** A pure computation run in the world. *)
Definition lift {A} (r : result A) : M A := fun w => (r, w).

Definition raise {A} (e : exn) : M A := fun w => (Raise e, w).

Definition gets {A} (f : world -> A) : M A := fun w => (Ok (f w), w).

Definition modify (f : world -> world) : M unit := fun w => (Ok tt, f w).

(** [try: body except Exception as e: handler(e)]; what the body did to the
    world before it raised stays done. *)
Definition try_except {A} (body : M A) (handler : exn -> M A) : M A :=
  fun w =>
    match body w with
    | (Ok a, w') => (Ok a, w')
    | (Raise e, w') => handler e w'
    end.

(** [for x in l: body(acc, x)] with the loop-carried value [acc]. *)
Fixpoint for_each {m} `{Monad m} {A B} (l : list A) (acc : B)
  (body : B -> A -> m B) : m B :=
  match l with
  | [] => ret acc
  | x :: rest => acc' <- body acc x ;; for_each rest acc' body
  end.

(* ================================================================== *)
(** * The pipeline state *)

(** [ServiceState].  An unset optional field is [JNull]. *)
Record ServiceState : Type := {
  user_input : string;
  encrypted_input : json;
  bundles : json;
  tenant_id : json;
  action : json;
  tool_result : json;
  agent_response : json;
  final_response : json
}.

(** [{**state, "encrypted_input": e, "bundles": b, "tenant_id": t}] *)
Definition with_detected (state : ServiceState) (e b t : json) : ServiceState :=
  {| user_input := user_input state; encrypted_input := e; bundles := b;
     tenant_id := t; action := action state;
     tool_result := tool_result state;
     agent_response := agent_response state;
     final_response := final_response state |}.

(** [{**state, "action": a}] *)
Definition with_action (state : ServiceState) (a : json) : ServiceState :=
  {| user_input := user_input state;
     encrypted_input := encrypted_input state; bundles := bundles state;
     tenant_id := tenant_id state; action := a;
     tool_result := tool_result state;
     agent_response := agent_response state;
     final_response := final_response state |}.

(** [{**state, "tool_result": r, "bundles": b}] *)
Definition with_result (state : ServiceState) (r b : json) : ServiceState :=
  {| user_input := user_input state;
     encrypted_input := encrypted_input state; bundles := b;
     tenant_id := tenant_id state; action := action state;
     tool_result := r;
     agent_response := agent_response state;
     final_response := final_response state |}.

(** [{**state, "agent_response": a, "final_response": f}] *)
Definition with_reply (state : ServiceState) (a f : json) : ServiceState :=
  {| user_input := user_input state;
     encrypted_input := encrypted_input state; bundles := bundles state;
     tenant_id := tenant_id state; action := action state;
     tool_result := tool_result state;
     agent_response := a; final_response := f |}.

(** What the language model is asked: the two prompts are fixed templates
    around these fields. *)
Inductive prompt : Type :=
| ActionPrompt (request : json)
| ReplyPrompt (request : json) (operation_result : json).

(** [v == s] for a string literal [s]. *)
Definition is_str (v : json) (s : string) : bool :=
  match v with JStr t => String.eqb t s | _ => false end.

(* ================================================================== *)
(** * Bundle merge and dedup (the block inside [execute_action]) *)

(** [bundle_key]: [None] for a non-dictionary, the ['placeholder'] entry when
    the key is there, [bundle.get("id")] otherwise. *)
Definition bundle_key (bundle : json) : json :=
  match bundle with
  | JDict d =>
      match dict_get d "placeholder" with
      | Some p => p
      | None =>
          match dict_get d "id" with
          | Some i => i
          | None => JNull
          end
      end
  | _ => JNull
  end.

(** The loop filling [unique_bundles_dict]. *)
Definition unique_bundles_loop (combined_bundles : list json)
  : result (pydict hkey json) :=
  for_each combined_bundles ([] : pydict hkey json)
    (fun unique_bundles_dict bundle =>
       let key := bundle_key bundle in
       if negb (truthy key) then ret unique_bundles_dict
       else
         k <- py_hash key ;;
         ret (dict_set unique_bundles_dict k bundle)).

(** From [combined_bundles = state["bundles"] + new_bundles] to
    [final_bundles], with both operands already lists. *)
Definition merge_bundles (state_bundles new_bundles : list json)
  : result (list json) :=
  let combined_bundles := state_bundles ++ new_bundles in
  unique_bundles_dict <- unique_bundles_loop combined_bundles ;;
  ret (dict_values unique_bundles_dict).

(* ================================================================== *)
(** * The merge as the specification words it *)

(** The identity key of a bundle that can take part in a merge: the value of
    [placeholder] when the field is present, otherwise the value of [id], when
    that value is truthy and can key a mapping. *)
Definition identity_key (bundle : json) : option hkey :=
  if truthy (bundle_key bundle) then
    match py_hash (bundle_key bundle) with
    | Ok k => Some k
    | Raise _ => None
    end
  else None.

(** A bundle whose key the mapping can take or skip: its key is falsy, or it
    hashes. *)
Definition key_usable (bundle : json) : bool :=
  negb (truthy (bundle_key bundle))
  || match py_hash (bundle_key bundle) with Ok _ => true | Raise _ => false end.

Definition has_key (k : hkey) (bundle : json) : bool :=
  match identity_key bundle with
  | Some k' => keqb k' k
  | None => false
  end.

(** The identity keys of a collection, each at its first occurrence. *)
Fixpoint first_keys (l : list json) : list hkey :=
  match l with
  | [] => []
  | b :: rest =>
      match identity_key b with
      | Some k => k :: filter (fun k' => negb (keqb k k')) (first_keys rest)
      | None => first_keys rest
      end
  end.

(** The last bundle of a collection that carries key [k]. *)
Fixpoint last_with_key (k : hkey) (l : list json) : option json :=
  match l with
  | [] => None
  | b :: rest =>
      match last_with_key k rest with
      | Some b' => Some b'
      | None => if has_key k b then Some b else None
      end
  end.

(** Last write wins, in order of first insertion. *)
Definition merge_spec (combined : list json) : list json :=
  flat_map (fun k => match last_with_key k combined with
                     | Some b => [b]
                     | None => []
                     end)
           (first_keys combined).

(** A bundle that has neither field, or is not a record at all. *)
Definition unresolvable (bundle : json) : bool :=
  match bundle with
  | JDict d => negb (dict_mem d "placeholder") && negb (dict_mem d "id")
  | _ => true
  end.

(** ** Two views of the loop used in the proofs *)

(** The items the loop assigns, in order, or the error it stops at. *)
Fixpoint keyed (l : list json) : result (list (hkey * json)) :=
  match l with
  | [] => Ok []
  | bundle :: rest =>
      let key := bundle_key bundle in
      if negb (truthy key) then keyed rest
      else
        k <- py_hash key ;;
        items <- keyed rest ;;
        ret ((k, bundle) :: items)
  end.

(** The same items when no key fails to hash. *)
Definition keyed_pairs (l : list json) : list (hkey * json) :=
  flat_map (fun b => match identity_key b with
                     | Some k => [(k, b)]
                     | None => []
                     end) l.

(* ================================================================== *)
(** * Orders *)

(** The record [create_order] stores. *)
Definition order_record (customer email phone address items : json)
           (created_at : string) : json :=
  JDict [("customer", customer); ("email", email);
         ("phone", phone); ("address", address);
         ("items", items); ("status", JStr "processing");
         ("created_at", JStr created_at)].

(** The acknowledgement of the order numbered [k]. *)
Definition created (k : Z) : json :=
  JDict [("order_id", JStr (order_id_of k)); ("status", JStr "created")].

(** The arguments of one [create_order] call. *)
Record order_request : Type := {
  req_customer : json;
  req_email : json;
  req_phone : json;
  req_address : json;
  req_items : json;
  req_bundles : json
}.

(* ================================================================== *)
(** * A sample deployment *)

(** Concrete collaborators and stores on which the statements below are
    exercised: a Cryptor stub that answers detect-encrypt and refuses
    decrypt, a language model stub keyed on the request, and a codec that is
    [json.dumps] / [json.loads] on the values and texts that occur. *)
Module Demo.
Local Open Scope string_scope.

Definition quote : string := String (ascii_of_nat 34) EmptyString.
Definition quoted (s : string) : string := quote ++ s ++ quote.

Definition CRYPTOR_SERVICE_URL : string := "https://cryptor.example".
Definition TENANT : string := "ai_private_demo".

(** [json.dumps] with its default separators.  Exact on null, booleans,
    integers, strings that need no escaping, and lists and objects of these;
    a float is written as its numerator with [.0], right for whole numbers
    only, and no float is serialised below. *)
Fixpoint json_dumps (v : json) : string :=
  match v with
  | JNull => "null"
  | JBool true => "true"
  | JBool false => "false"
  | JInt n => NilZero.string_of_int (Z.to_int n)
  | JFloat q => NilZero.string_of_int (Z.to_int (Qnum q)) ++ ".0"
  | JStr s => quoted s
  | JList l =>
      "[" ++ (fix items (l : list json) : string :=
                match l with
                | [] => ""
                | [x] => json_dumps x
                | x :: rest => json_dumps x ++ ", " ++ items rest
                end) l ++ "]"
  | JDict d =>
      "{" ++ (fix items (d : list (string * json)) : string :=
                match d with
                | [] => ""
                | [(k, x)] => quoted k ++ ": " ++ json_dumps x
                | (k, x) :: rest =>
                    quoted k ++ ": " ++ json_dumps x ++ ", " ++ items rest
                end) d ++ "}"
  end.

Definition list_action : json := JDict [("action", JStr "get_all_orders")].
Definition delete_action : json := JDict [("action", JStr "delete_order")].
Definition lookup_action : json :=
  JDict [("action", JStr "get_order"); ("order_id", JStr "ORD-999")].
Definition create_action : json :=
  JDict [("action", JStr "create_order"); ("customer", JStr "[PERSON_1]");
         ("email", JStr "[EMAIL_1]"); ("phone", JStr "[PHONE_1]");
         ("address", JStr "[LOCATION_1]"); ("items", JStr "20 roses")].

(** [json.loads] on the four action texts; any other text is taken not to
    parse. *)
Definition json_loads (s : string) : result json :=
  if String.eqb s (json_dumps list_action) then Ok list_action
  else if String.eqb s (json_dumps delete_action) then Ok delete_action
  else if String.eqb s (json_dumps lookup_action) then Ok lookup_action
  else if String.eqb s (json_dumps create_action) then Ok create_action
  else Raise (JSONDecodeError "Expecting value: line 1 column 1 (char 0)").

(** The model answers with prose around the object, or with no object. *)
Definition generate_content (p : prompt) : result string :=
  match p with
  | ActionPrompt (JStr "List my orders") =>
      Ok ("Sure. " ++ json_dumps list_action ++ " Done.")
  | ActionPrompt (JStr "Delete order ORD-001") =>
      Ok (json_dumps delete_action)
  | ActionPrompt (JStr "Show order ORD-999") =>
      Ok (json_dumps lookup_action)
  | ActionPrompt _ => Ok "I cannot help with that."
  | ReplyPrompt _ _ => Ok "Here is what I found for [PERSON_1]."
  end.

(** detect-encrypt echoes the text with no PII found; decrypt is down. *)
Definition requests_post (url : string) (payload : json) : result response :=
  if String.eqb url (CRYPTOR_SERVICE_URL ++ "/v1/detect-encrypt") then
    Ok {| status_code := 200;
          resp_json :=
            Ok (JDict [("text_with_placeholders",
                        match payload with
                        | JDict d =>
                            match dict_get d "text" with
                            | Some t => t
                            | None => JNull
                            end
                        | _ => JNull
                        end);
                       ("bundles", JList []);
                       ("tenant_id", JStr TENANT)]) |}
  else
    Ok {| status_code := 503;
          resp_json := Raise (JSONDecodeError "Expecting value") |}.

Definition datetime_now (n : nat) : string := "2025-03-01 09:30".

(** [str] of a value that is not a string; exact on [None], booleans and
    integers. *)
Definition py_repr (v : json) : string :=
  match v with
  | JNull => "None"
  | JBool true => "True"
  | JBool false => "False"
  | other => json_dumps other
  end.

(** Bundles. *)
Definition person_v1 : json :=
  JDict [("placeholder", JStr "[PERSON_1]"); ("ciphertext", JStr "a1")].
Definition person_v2 : json :=
  JDict [("placeholder", JStr "[PERSON_1]"); ("ciphertext", JStr "b2")].
Definition stored_email : json :=
  JDict [("id", JStr "[EMAIL_1]"); ("ciphertext", JStr "c3")].
Definition no_key : json := JDict [("ciphertext", JStr "d4")].
Definition empty_placeholder : json :=
  JDict [("placeholder", JStr ""); ("id", JStr "[PHONE_1]")].

(** An order as [create_order] stores it. *)
Definition order_fields : list (string * json) :=
  [("customer", JStr "[PERSON_1]"); ("email", JStr "[EMAIL_1]");
   ("phone", JStr "[PHONE_1]"); ("address", JStr "[LOCATION_1]");
   ("items", JStr "20 roses"); ("status", JStr "processing");
   ("created_at", JStr "2025-03-01 09:30")].

Definition world_with (orders storage : pydict string json) : world :=
  {| ORDERS_DB := orders; BUNDLES_STORAGE := storage; ORDER_COUNTER := 2;
     db_file := None; bundles_file := None; http_log := [];
     clock_reads := 0 |}.

(** ORD-001 stored without its bundle set. *)
Definition degraded_world : world :=
  world_with [("ORD-001", JDict order_fields)] [].

(** ORD-001 stored with a bundle set. *)
Definition stocked_world : world :=
  world_with [("ORD-001", JDict order_fields)]
             [("ORD-001", JList [person_v1; stored_email])].

(** The bundles file was loaded, the orders file was not. *)
Definition orphan_world : world :=
  world_with [] [("ORD-999", JList [stored_email])].

(** A state as it leaves step 2. *)
Definition classified (request : string) (action_data : json)
  : ServiceState :=
  {| user_input := request; encrypted_input := JStr request;
     bundles := JList [person_v1]; tenant_id := JStr TENANT;
     action := JStr (json_dumps action_data); tool_result := JNull;
     agent_response := JNull; final_response := JNull |}.

(** A state as it leaves step 1. *)
Definition detected (request : string) : ServiceState :=
  {| user_input := request; encrypted_input := JStr request;
     bundles := JList [person_v1]; tenant_id := JStr TENANT;
     action := JNull; tool_result := JNull;
     agent_response := JNull; final_response := JNull |}.

End Demo.

(* ================================================================== *)
(** * The service *)

Section Service.

(** Configuration read from the environment. *)
Variable CRYPTOR_SERVICE_URL : string.
Variable TENANT : string.

(** [json.loads] and [json.dumps]. *)
Variable json_loads : string -> result json.
Variable json_dumps : json -> string.

(** [requests.post(url, json=payload, headers=HEADERS)]: the response, or
    the transport error it raises. *)
Variable requests_post : string -> json -> result response.

(** [SERVICE_MODEL.generate_content(prompt).text] *)
Variable generate_content : prompt -> result string.

(** [datetime.now().strftime("%Y-%m-%d %H:%M")] at the n-th reading. *)
Variable datetime_now : nat -> string.

(** How an f-string prints a value that is not a string. *)
Variable py_repr : json -> string.

Definition py_str (v : json) : string :=
  match v with JStr s => s | _ => py_repr v end.

(** [json.loads(v)]: the argument must be a string. *)
Definition py_json_loads (v : json) : result json :=
  match v with
  | JStr s => json_loads s
  | _ => Raise (TypeError "the JSON object must be str, bytes or bytearray")
  end.

(** A request goes out and is logged, whatever comes back. *)
Definition post (url : string) (payload : json) : M response :=
  fun w => (requests_post url payload, log_request w url payload).

(** One reading of the clock. *)
Definition read_clock : M string :=
  fun w =>
    (Ok (datetime_now (clock_reads w)),
     {| ORDERS_DB := ORDERS_DB w; BUNDLES_STORAGE := BUNDLES_STORAGE w;
        ORDER_COUNTER := ORDER_COUNTER w; db_file := db_file w;
        bundles_file := bundles_file w; http_log := http_log w;
        clock_reads := S (clock_reads w) |}).

(** ** Database helpers *)

(** [save_db]: the orders file now holds the orders and the counter.  The
    write itself always goes through in the model. *)
Definition save_db : M unit :=
  modify (fun w =>
    {| ORDERS_DB := ORDERS_DB w; BUNDLES_STORAGE := BUNDLES_STORAGE w;
       ORDER_COUNTER := ORDER_COUNTER w;
       db_file := Some (JDict [("orders", JDict (ORDERS_DB w));
                               ("counter", JInt (ORDER_COUNTER w))]);
       bundles_file := bundles_file w; http_log := http_log w;
       clock_reads := clock_reads w |}).

(** [save_bundles] *)
Definition save_bundles (order_id : string) (bundles : json) : M unit :=
  modify (fun w =>
    let storage := dict_set (BUNDLES_STORAGE w) order_id bundles in
    {| ORDERS_DB := ORDERS_DB w; BUNDLES_STORAGE := storage;
       ORDER_COUNTER := ORDER_COUNTER w; db_file := db_file w;
       bundles_file := Some (JDict storage); http_log := http_log w;
       clock_reads := clock_reads w |}).

(** [get_bundles]; the log line takes [len(bundles)]. *)
Definition get_bundles (order_id : json) : M json :=
  storage <- gets BUNDLES_STORAGE ;;
  found <- lift (store_get storage order_id) ;;
  let bundles := match found with Some b => b | None => JList [] end in
  _ <- lift (py_len bundles) ;;
  ret bundles.

(** ** Business logic helpers *)

(** [ORDERS_DB.get(order_id)] *)
Definition lookup_order (order_id : json) : M json :=
  db <- gets ORDERS_DB ;;
  found <- lift (store_get db order_id) ;;
  ret (match found with Some o => o | None => JNull end).

(** [get_order] *)
Definition get_order (order_id : json) : M json :=
  order <- lookup_order order_id ;;
  if negb (truthy order) then
    ret (JDict [("error", JStr "Order not found")])
  else lift (py_spread order [("order_id", order_id)]).

(** [get_order_decrypted] *)
Definition get_order_decrypted (order_id : json) : M json :=
  order <- lookup_order order_id ;;
  if negb (truthy order) then
    ret (JDict [("error", JStr "Order not found")])
  else
    bundles <- get_bundles order_id ;;
    if negb (truthy bundles) then
      lift (py_spread order
              [("order_id", order_id);
               ("note", JStr "Bundles not found for decryption")])
    else
      let order_text := json_dumps order in
      let decrypt_payload :=
        JDict [("tenant_id", JStr TENANT);
               ("text_with_placeholders", JStr order_text);
               ("bundles", bundles)] in
      try_except
        (resp <- post (CRYPTOR_SERVICE_URL ++ "/v1/decrypt") decrypt_payload ;;
         lift (raise_for_status resp) ;;;
         data <- lift (resp_json resp) ;;
         decrypted_text <- lift (py_getitem data "text") ;;
         decrypted_order <- lift (py_json_loads decrypted_text) ;;
         lift (py_spread decrypted_order [("order_id", order_id)]))
        (fun e =>
           lift (py_spread order
                   [("order_id", order_id);
                    ("decrypt_error",
                     JStr ("Cryptor service error: " ++ str_exn e))])).

(** [get_all_orders] *)
Definition get_all_orders : M json :=
  db <- gets ORDERS_DB ;;
  orders_list <-
    lift (for_each db ([] : list json)
            (fun acc entry =>
               o <- py_spread (snd entry) [("order_id", JStr (fst entry))] ;;
               ret (acc ++ [o]))) ;;
  ret (JDict [("orders", JList orders_list);
              ("total", JInt (Z.of_nat (List.length orders_list)))]).

(** [create_order] *)
Definition create_order (customer email phone address items bundles : json)
  : M json :=
  counter <- gets ORDER_COUNTER ;;
  let order_id := order_id_of counter in
  modify (fun w =>
    {| ORDERS_DB := ORDERS_DB w; BUNDLES_STORAGE := BUNDLES_STORAGE w;
       ORDER_COUNTER := ORDER_COUNTER w + 1; db_file := db_file w;
       bundles_file := bundles_file w; http_log := http_log w;
       clock_reads := clock_reads w |}) ;;;
  created_at <- read_clock ;;
  modify (fun w =>
    {| ORDERS_DB :=
         dict_set (ORDERS_DB w) order_id
           (order_record customer email phone address items created_at);
       BUNDLES_STORAGE := BUNDLES_STORAGE w;
       ORDER_COUNTER := ORDER_COUNTER w; db_file := db_file w;
       bundles_file := bundles_file w; http_log := http_log w;
       clock_reads := clock_reads w |}) ;;;
  save_db ;;;
  save_bundles order_id bundles ;;;
  ret (JDict [("order_id", JStr order_id); ("status", JStr "created")]).

(** One [create_order] call after another; the results in call order. *)
Fixpoint create_orders (requests : list order_request) : M (list json) :=
  match requests with
  | [] => ret []
  | r :: rest =>
      created <- create_order (req_customer r) (req_email r) (req_phone r)
                   (req_address r) (req_items r) (req_bundles r) ;;
      others <- create_orders rest ;;
      ret (created :: others)
  end.

(** The world after one [create_order] call. *)
Definition created_world (w : world) (r : order_request) : world :=
  let order_id := order_id_of (ORDER_COUNTER w) in
  let orders :=
    dict_set (ORDERS_DB w) order_id
      (order_record (req_customer r) (req_email r) (req_phone r)
                    (req_address r) (req_items r)
                    (datetime_now (clock_reads w))) in
  let storage := dict_set (BUNDLES_STORAGE w) order_id (req_bundles r) in
  {| ORDERS_DB := orders;
     BUNDLES_STORAGE := storage;
     ORDER_COUNTER := ORDER_COUNTER w + 1;
     db_file := Some (JDict [("orders", JDict orders);
                             ("counter", JInt (ORDER_COUNTER w + 1))]);
     bundles_file := Some (JDict storage);
     http_log := http_log w;
     clock_reads := S (clock_reads w) |}.

(** ** LangGraph nodes *)

(** [process_input] (step 1) *)
Definition process_input (state : ServiceState) : M ServiceState :=
  let payload :=
    JDict [("tenant_id", JStr TENANT);
           ("text", JStr (user_input state));
           ("threshold", JFloat (Qmake 35 100));
           ("schema", JStr "v1")] in
  try_except
    (resp <- post (CRYPTOR_SERVICE_URL ++ "/v1/detect-encrypt") payload ;;
     lift (raise_for_status resp) ;;;
     data <- lift (resp_json resp) ;;
     logged <- lift (py_getitem data "bundles") ;;
     _ <- lift (py_len logged) ;;
     text_with_placeholders <- lift (py_getitem data "text_with_placeholders") ;;
     new_bundles <- lift (py_getitem data "bundles") ;;
     new_tenant <- lift (py_getitem data "tenant_id") ;;
     ret (with_detected state text_with_placeholders new_bundles new_tenant))
    (fun e =>
       raise (RuntimeError ("Cryptor detect-encrypt failure: " ++ str_exn e))).

(** The span [response_text[start:end]] that [determine_action] parses. *)
Definition json_span (response_text : string) : string :=
  let start := str_find "{"%char response_text in
  let stop := str_rfind "}"%char response_text + 1 in
  slice response_text start stop.

(** [determine_action] (step 2); the log line reads [action_data['action']]. *)
Definition determine_action (state : ServiceState) : M ServiceState :=
  try_except
    (text <- lift (generate_content (ActionPrompt (encrypted_input state))) ;;
     let response_text := strip text in
     action_data <- lift (json_loads (json_span response_text)) ;;
     _ <- lift (py_getitem action_data "action") ;;
     ret (with_action state (JStr (json_dumps action_data))))
    (fun e =>
       raise (RuntimeError ("Language model action failure: " ++ str_exn e))).

(** The bundle merge and dedup block, from [state["bundles"]] and
    [new_bundles] to [final_bundles]. *)
Definition merge_step (state_bundles : json) (new_bundles : list json)
  : result (list json) :=
  match state_bundles with
  | JList l => merge_bundles l new_bundles
  | _ => Raise (TypeError "unsupported operand type(s) for +")
  end.

(** The three branches and the fallback of [execute_action]: the result of
    the operation and the bundles it contributes. *)
Definition run_action (state : ServiceState) (action_data action_type : json)
  : M (json * list json) :=
  if is_str action_type "get_order" then
    order_id <- lift (py_get action_data "order_id" (JStr "")) ;;
    result <- get_order order_id ;;
    order_bundles <- get_bundles order_id ;;
    extended <- lift (py_iter order_bundles) ;;
    ret (result, extended)
  else if is_str action_type "get_all_orders" then
    result <- get_all_orders ;;
    order_list <- lift (py_get result "orders" (JList [])) ;;
    orders <- lift (py_iter order_list) ;;
    new_bundles <-
      for_each orders ([] : list json)
        (fun new_bundles order =>
           order_id <- lift (py_get order "order_id" JNull) ;;
           if truthy order_id then
             order_bundles <- get_bundles order_id ;;
             extended <- lift (py_iter order_bundles) ;;
             ret (new_bundles ++ extended)
           else ret new_bundles) ;;
    ret (result, new_bundles)
  else if is_str action_type "create_order" then
    customer <- lift (py_get action_data "customer" (JStr "")) ;;
    email <- lift (py_get action_data "email" (JStr "")) ;;
    phone <- lift (py_get action_data "phone" (JStr "")) ;;
    address <- lift (py_get action_data "address" (JStr "")) ;;
    items <- lift (py_get action_data "items" (JStr "")) ;;
    result <- create_order customer email phone address items (bundles state) ;;
    ret (result, [])
  else
    ret (JDict [("error", JStr ("Unknown action: " ++ py_str action_type))],
         []).

(** [execute_action] (step 3); parsing the action and reading its kind
    happen before the [try]. *)
Definition execute_action (state : ServiceState) : M ServiceState :=
  action_data <- lift (py_json_loads (action state)) ;;
  action_type <- lift (py_get action_data "action" JNull) ;;
  try_except
    (outcome <- run_action state action_data action_type ;;
     final_bundles <- lift (merge_step (bundles state) (snd outcome)) ;;
     ret (with_result state (JStr (json_dumps (fst outcome)))
                      (JList final_bundles)))
    (fun e =>
       raise (RuntimeError ("Business logic failure: " ++ str_exn e))).

(** The final decrypt call of [format_response] (its inner [try] body). *)
Definition final_decrypt (state : ServiceState) (agent_text : string)
  : M ServiceState :=
  let decrypt_payload :=
    JDict [("tenant_id", tenant_id state);
           ("text_with_placeholders", JStr agent_text);
           ("bundles", bundles state)] in
  resp <- post (CRYPTOR_SERVICE_URL ++ "/v1/decrypt") decrypt_payload ;;
  lift (raise_for_status resp) ;;;
  data <- lift (resp_json resp) ;;
  final_text <- lift (py_getitem data "text") ;;
  ret (with_reply state (JStr agent_text) final_text).

(** [format_response] (step 4); the request log line takes
    [len(state['bundles'])]. *)
Definition format_response (state : ServiceState) : M ServiceState :=
  try_except
    (agent_text <-
       lift (generate_content
               (ReplyPrompt (encrypted_input state) (tool_result state))) ;;
     _ <- lift (py_len (bundles state)) ;;
     try_except
       (final_decrypt state agent_text)
       (fun decrypt_error =>
          raise (RuntimeError ("Final response decrypt failed: "
                               ++ str_exn decrypt_error))))
    (fun e =>
       raise (RuntimeError ("Response generation failed: " ++ str_exn e))).

(** ** The workflow *)

(** The state [app.invoke({"user_input": text})] starts from. *)
Definition initial_state (text : string) : ServiceState :=
  {| user_input := text; encrypted_input := JNull; bundles := JNull;
     tenant_id := JNull; action := JNull; tool_result := JNull;
     agent_response := JNull; final_response := JNull |}.

(** [create_workflow]: process_input, determine_action, execute_action,
    format_response, in this order, then END. *)
Definition invoke (text : string) : M ServiceState :=
  s1 <- process_input (initial_state text) ;;
  s2 <- determine_action s1 ;;
  s3 <- execute_action s2 ;;
  format_response s3.


(** ** Vocabulary for what a computation leaves alone *)

(** [c] takes every world to one related to it by [R], whether it returns
    or raises. *)
Definition keeps {A} (R : world -> world -> Prop) (c : M A) : Prop :=
  forall w, R w (snd (c w)).

(** The in-memory store and the two files are the same. *)
Definition same_store (w w' : world) : Prop :=
  ORDERS_DB w' = ORDERS_DB w
  /\ BUNDLES_STORAGE w' = BUNDLES_STORAGE w
  /\ ORDER_COUNTER w' = ORDER_COUNTER w
  /\ db_file w' = db_file w
  /\ bundles_file w' = bundles_file w.

(** No request was sent. *)
Definition same_log (w w' : world) : Prop := http_log w' = http_log w.

(** The kind of action [execute_action] reads from the state, before its
    [try]. *)
Definition requested_action (state : ServiceState) : result json :=
  action_data <- py_json_loads (action state) ;;
  py_get action_data "action" JNull.

(** The request [process_input] sends for a customer text. *)
Definition detect_payload (text : string) : json :=
  JDict [("tenant_id", JStr TENANT);
         ("text", JStr text);
         ("threshold", JFloat (Qmake 35 100));
         ("schema", JStr "v1")].

(** The request [format_response] sends for a draft. *)
Definition reveal_payload (state : ServiceState) (agent_text : string) : json :=
  JDict [("tenant_id", tenant_id state);
         ("text_with_placeholders", JStr agent_text);
         ("bundles", bundles state)].

(** An order as [get_all_orders] lists it: its fields and its identifier. *)
Definition listed_order (entry : string * json) : json :=
  match snd entry with
  | JDict fields => JDict (dict_update fields [("order_id", JStr (fst entry))])
  | other => other
  end.

(** The bundles the [get_all_orders] branch collects for one order: the
    stored list, nothing for an empty identifier or a missing set. *)
Definition collected_for (w : world) (entry : string * json) : list json :=
  if String.eqb (fst entry) "" then []
  else match dict_get (BUNDLES_STORAGE w) (fst entry) with
       | Some (JList l) => l
       | _ => []
       end.

(** ** Start-up *)

(** Both files hold what is in memory. *)
Definition files_in_step (w : world) : Prop :=
  db_file w = Some (JDict [("orders", JDict (ORDERS_DB w));
                           ("counter", JInt (ORDER_COUNTER w))])
  /\ bundles_file w = Some (JDict (BUNDLES_STORAGE w)).

(** A new process over the same files: the globals as the module
    initialises them (empty stores, counter 1). *)
Definition restart (w : world) : world :=
  {| ORDERS_DB := []; BUNDLES_STORAGE := []; ORDER_COUNTER := 1;
     db_file := db_file w; bundles_file := bundles_file w;
     http_log := []; clock_reads := 0 |}.

(** [load_db], on files that hold JSON (absent when [None]).  The orders
    file gives [data.get("orders", {})] and [data.get("counter", 1)]; a top
    level that is no object makes [data.get] raise, which is caught and
    leaves both globals alone.  The bundles file replaces the bundle store.
    The result is [None] when a loaded value is not of the store's types (an
    [orders] value or a bundles file that is no object, a counter that is no
    integer): the globals then hold what the [world] record cannot. *)
Definition load_db (w : world) : option world :=
  let orders_part :=
    match db_file w with
    | None => Some (ORDERS_DB w, ORDER_COUNTER w)
    | Some (JDict data) =>
        let orders := match dict_get data "orders" with
                      | Some v => v
                      | None => JDict []
                      end in
        let counter := match dict_get data "counter" with
                       | Some v => v
                       | None => JInt 1
                       end in
        match orders, counter with
        | JDict o, JInt c => Some (o, c)
        | _, _ => None
        end
    | Some _ => Some (ORDERS_DB w, ORDER_COUNTER w)
    end in
  let bundles_part :=
    match bundles_file w with
    | None => Some (BUNDLES_STORAGE w)
    | Some (JDict storage) => Some storage
    | Some _ => None
    end in
  match orders_part, bundles_part with
  | Some (orders, counter), Some storage =>
      Some {| ORDERS_DB := orders; BUNDLES_STORAGE := storage;
              ORDER_COUNTER := counter; db_file := db_file w;
              bundles_file := bundles_file w; http_log := http_log w;
              clock_reads := clock_reads w |}
  | _, _ => None
  end.

(** ** Vocabulary for texts *)

(** The character [c] occurs in [s]. *)
Fixpoint occurs (c : ascii) (s : string) : bool :=
  match s with
  | EmptyString => false
  | String x rest => Ascii.eqb x c || occurs c rest
  end.

(* ================================================================== *)
(** * The command line (cli.py) *)

(** [c.lower()] on the characters the model has: the letters A-Z and the
    Latin-1 capitals, which are 192 to 222 without the multiplication sign. *)
Definition lower_char (c : ascii) : ascii :=
  let n := nat_of_ascii c in
  if ((65 <=? n) && (n <=? 90)
      || (192 <=? n) && (n <=? 222) && negb (n =? 215))%nat
  then ascii_of_nat (n + 32) else c.

(** [s.lower()] *)
Fixpoint lower (s : string) : string :=
  match s with
  | EmptyString => EmptyString
  | String c rest => String (lower_char c) (lower rest)
  end.

(** [s.startswith(p)] *)
Definition startswith (s p : string) : bool := String.prefix p s.

Fixpoint split_from (s word : string) : list string :=
  match s with
  | EmptyString => if String.eqb word "" then [] else [word]
  | String c rest =>
      if is_space c then
        if String.eqb word "" then split_from rest ""
        else word :: split_from rest ""
      else split_from rest (word ++ String c "")%string
  end.

(** [s.split()]: the maximal runs of characters that are not white space. *)
Definition split (s : string) : list string := split_from s "".

(** [needle in s] for two strings *)
Fixpoint contains (needle s : string) : bool :=
  String.prefix needle s
  || match s with
     | EmptyString => false
     | String _ rest => contains needle rest
     end.

(** [k in v] for a string [k]: a key of a dictionary, an element of a list,
    a part of a string. *)
Definition py_in (k : string) (v : json) : result bool :=
  match v with
  | JDict d => Ok (dict_mem d k)
  | JList l => Ok (existsb (fun x => is_str x k) l)
  | JStr s => Ok (contains k s)
  | _ => Raise (TypeError "argument is not iterable")
  end.

(** [v.items()] *)
Definition py_items (v : json) : result (list (string * json)) :=
  match v with
  | JDict d => Ok d
  | _ => Raise (AttributeError "object has no attribute 'items'")
  end.

(** [type(e).__name__]; [OtherError] stands for an exception class outside
    [RuntimeError] and its subclasses. *)
Definition type_name (e : exn) : string :=
  match e with
  | RuntimeError _ => "RuntimeError"
  | TypeError _ => "TypeError"
  | KeyError _ => "KeyError"
  | AttributeError _ => "AttributeError"
  | JSONDecodeError _ => "JSONDecodeError"
  | HTTPError _ => "HTTPError"
  | OtherError name _ => name
  end.

(** [json.dumps(v, indent=2, ensure_ascii=False)] *)
Variable json_dumps_indent : json -> string.

(** What the session holds besides the service's globals: the list
    [history] of the main block and the texts handed to [print], one entry
    for each call.  The prompt that [input] writes and the log lines are not
    recorded.  [ORDERS_DB] and [BUNDLES_STORAGE] of cli.py are the
    dictionaries of flow_service.py themselves: they are bound when the
    module has been loaded, after its [load_db()], and the service only
    mutates them afterwards. *)
Record session : Type := {
  history : list (string * json);
  printed : list string
}.

Definition prints (texts : list string) (s : session) : session :=
  {| history := history s; printed := printed s ++ texts |}.

Definition newline : string := String (ascii_of_nat 10) EmptyString.

(** [c * 80] *)
Definition rule (c : ascii) : string := string_of_list_ascii (repeat c 80).

(** [f"{i}"] for a count *)
Definition decimal (i : nat) : string := NilZero.string_of_uint (Nat.to_uint i).

(** The five lines [show_all_orders] prints for one order. *)
Definition order_lines (entry : string * json) : result (list string) :=
  let order_id := fst entry in
  let order := snd entry in
  customer <- py_get order "customer" (JStr "N/A") ;;
  items <- py_get order "items" (JStr "N/A") ;;
  status <- py_get order "status" (JStr "Unknown") ;;
  ret [("ID: " ++ order_id)%string;
       ("  Customer (PII): " ++ py_str customer)%string;
       ("  Items: " ++ py_str items)%string;
       ("  Status: " ++ py_str status)%string;
       rule "-"].

(** [show_all_orders]; what was printed before an uncaught exception is not
    kept, here and below. *)
Definition show_all_orders (s : session) : M session :=
  db <- gets ORDERS_DB ;;
  match db with
  | [] =>
      ret (prints [(newline ++ "[Storage] No orders stored yet."
                    ++ newline)%string] s)
  | _ =>
      body <- lift (for_each db ([] : list string)
                      (fun shown entry =>
                         lines <- order_lines entry ;; ret (shown ++ lines))) ;;
      ret (prints ([(newline
                      ++ "[Storage] ALL ORDERS (encrypted view):")%string;
                    rule "="] ++ body ++ [""]) s)
  end.

(** [f"{key}: {value}"] *)
Definition item_line (entry : string * json) : string :=
  (fst entry ++ ": " ++ py_str (snd entry))%string.

(** The lines [show_order_decrypted_cli] prints between its two rules. *)
Definition order_view (order : json) : result (list string) :=
  is_error <- py_in "error" order ;;
  if (is_error : bool) then
    message <- py_getitem order "error" ;;
    ret [("ERROR: " ++ py_str message)%string]
  else
    is_decrypt_error <- py_in "decrypt_error" order ;;
    if (is_decrypt_error : bool) then
      message <- py_getitem order "decrypt_error" ;;
      items <- py_items order ;;
      ret (("DECRYPT ERROR: " ++ py_str message)%string
           :: map item_line items)
    else
      items <- py_items order ;;
      ret (map item_line items).

(** [show_order_decrypted_cli] *)
Definition show_order_decrypted_cli (order_id : string) (s : session)
  : M session :=
  order <- get_order_decrypted (JStr order_id) ;;
  body <- lift (order_view order) ;;
  ret (prints ([(newline ++ "[Decrypt] ORDER " ++ order_id
                 ++ " (plaintext view):")%string;
                rule "="] ++ body ++ [(rule "=" ++ newline)%string]) s).

(** [show_raw_db] *)
Definition show_raw_db (s : session) : M session :=
  orders <- gets ORDERS_DB ;;
  storage <- gets BUNDLES_STORAGE ;;
  ret (prints [(newline ++ "[DEBUG] ORDERS_DB:")%string;
               json_dumps_indent (JDict orders);
               (newline ++ "[DEBUG] BUNDLES_STORAGE:")%string;
               json_dumps_indent (JDict storage);
               ""] s).

(** The lines of [show_history] for the entries from number [i] on. *)
Fixpoint history_lines (i : nat) (entries : list (string * json))
  : list string :=
  match entries with
  | [] => []
  | (q, a) :: rest =>
      [(decimal i ++ ". You: " ++ q)%string;
       ("   Agent: " ++ py_str a)%string; rule "-"]
      ++ history_lines (S i) rest
  end.

(** [show_history] *)
Definition show_history (s : session) : session :=
  match history s with
  | [] =>
      prints [(newline ++ "[History] Conversation is empty"
               ++ newline)%string] s
  | entries =>
      prints ([(newline ++ "[History] CONVERSATION LOG:")%string; rule "="]
              ++ history_lines 1 entries ++ [""]) s
  end.

(** [show_help] *)
Definition show_help (s : session) : session :=
  prints [(newline ++ "[Help] AVAILABLE COMMANDS:")%string;
          rule "=";
          "/orders            - list encrypted orders";
          "/decrypt ID        - decrypt order by ID, e.g. /decrypt ORD-001";
          "/db                - dump raw in-memory DBs";
          "/history           - show previous prompts and answers";
          "/help              - this help screen";
          "/exit              - quit the CLI";
          (newline ++ "SAMPLE PROMPTS:")%string;
          "1. Create: Create an order for John Smith, john@example.com, +1-212-555-0100, Boston, 20 roses";
          "2. Lookup: Show order ORD-001";
          (rule "=" ++ newline)%string] s.

(** [x or default] *)
Definition py_or (x default : json) : json := if truthy x then x else default.

(** The [try] statement of the main loop: one run of the workflow.  Both
    keys read with [result.get] are set by [format_response] in every state
    the workflow returns, so the defaults of [get] are never taken. *)
Definition workflow_turn (user_input : string) (s : session) : M session :=
  try_except
    (result <- invoke user_input ;;
     let agent_answer := agent_response result in
     let final_response_text := final_response result in
     let recorded :=
       {| history := history s ++ [(user_input, final_response_text)];
          printed := printed s |} in
     let placeholder_answer :=
       py_or agent_answer (JStr "(LLM did not return a response)") in
     let decrypted_answer :=
       py_or final_response_text (JStr "(No final response)") in
     ret (prints [(newline ++ rule "=")%string;
                  "[STEP 3] SERVICE RESPONSE BEFORE DECRYPTION:";
                  py_str placeholder_answer;
                  (rule "=" ++ newline)%string;
                  "[STEP 4] CUSTOMER-FACING ANSWER:";
                  py_str decrypted_answer;
                  ""] recorded))
    (fun e =>
       match e with
       | RuntimeError _ =>
           ret (prints [("PROCESSING ERROR: " ++ str_exn e
                         ++ newline)%string] s)
       | _ =>
           ret (prints [("SYSTEM ERROR: Unexpected issue occurred: "
                         ++ type_name e ++ newline)%string] s)
       end).

(** How one pass of the loop ends: [continue] or the end of the body, or
    [break]. *)
Inductive next : Type :=
| Continue (s : session)
| Break (s : session).

Definition session_of (n : next) : session :=
  match n with Continue s | Break s => s end.

(** [print("ERROR: Usage /decrypt ORD-XXX\n")] *)
Definition usage : string := "ERROR: Usage /decrypt ORD-XXX" ++ newline.

(** One pass of [while True] on the line [input] returned. *)
Definition loop_body (line : string) (s : session) : M next :=
  let user_input := strip line in
  if String.eqb (lower user_input) "/exit" then
    ret (Break (prints ["Goodbye!"] s))
  else if String.eqb (lower user_input) "/orders" then
    shown <- show_all_orders s ;; ret (Continue shown)
  else if startswith (lower user_input) "/decrypt" then
    match split user_input with
    | [_; order_id] =>
        if startswith order_id "ORD-" then
          shown <- show_order_decrypted_cli order_id s ;; ret (Continue shown)
        else ret (Continue (prints [usage] s))
    | _ => ret (Continue (prints [usage] s))
    end
  else if String.eqb (lower user_input) "/db" then
    shown <- show_raw_db s ;; ret (Continue shown)
  else if String.eqb (lower user_input) "/history" then
    ret (Continue (show_history s))
  else if String.eqb (lower user_input) "/help" then
    ret (Continue (show_help s))
  else if String.eqb user_input "" then
    ret (Continue s)
  else
    answered <- workflow_turn user_input s ;; ret (Continue answered).

(** The loop over the lines of the standard input; [input] raises
    [EOFError] when they are used up. *)
Fixpoint main_loop (lines : list string) (s : session) : M session :=
  match lines with
  | [] => ret s
  | line :: rest =>
      n <- loop_body line s ;;
      match n with
      | Continue s' => main_loop rest s'
      | Break s' => ret s'
      end
  end.

(** The main block. *)
Definition main (lines : list string) : M session :=
  main_loop lines
    {| history := [];
       printed := [(newline ++ "Flower Shop - Customer Support CLI")%string;
                   ("Type /help to see the list of commands"
                    ++ newline)%string] |}.

(** The line is one of the slash commands or is blank: it does not reach
    the workflow. *)
Definition is_command (line : string) : bool :=
  let user_input := strip line in
  String.eqb (lower user_input) "/exit"
  || String.eqb (lower user_input) "/orders"
  || startswith (lower user_input) "/decrypt"
  || String.eqb (lower user_input) "/db"
  || String.eqb (lower user_input) "/history"
  || String.eqb (lower user_input) "/help"
  || String.eqb user_input "".

(** Every object the model's [json.loads] returns is written by
    [json.dumps] as a text that [json.loads] reads back to the same object. *)
Definition json_round_trip : Prop :=
  forall text data,
    json_loads text = Ok data -> json_loads (json_dumps data) = Ok data.

(** The prefixes under which the four steps raise. *)
Definition step_prefixes : list string :=
  ["Cryptor detect-encrypt failure: ";
   "Language model action failure: ";
   "Business logic failure: ";
   "Response generation failed: "].

(** The store as [create_order] fills it: every order is a dictionary and
    every bundle set has a length. *)
Definition well_formed_store (w : world) : Prop :=
  Forall (fun entry => exists fields, snd entry = JDict fields) (ORDERS_DB w)
  /\ Forall (fun entry => exists n, py_len (snd entry) = Ok n)
            (BUNDLES_STORAGE w).

Definition stays_well_formed (w w' : world) : Prop :=
  well_formed_store w -> well_formed_store w'.

(** No character of [s] is white space. *)
Fixpoint spaceless (s : string) : bool :=
  match s with
  | EmptyString => true
  | String c rest => negb (is_space c) && spaceless rest
  end.

(* ================================================================== *)
(** * Facts about insertion-ordered dictionaries *)

Section PyDictFacts.
Context {K V : Type} `{EqKey K}.
Implicit Types (d : pydict K V) (k : K) (v : V).

Lemma keqb_refl k : keqb k k = true.
Proof. now apply keqb_eq. Qed.

Lemma keqb_neq k k' : k <> k' -> keqb k k' = false.
Proof.
  intro N. destruct (keqb k k') eqn:E; [|reflexivity].
  apply keqb_eq in E. contradiction.
Qed.

Lemma keqb_sym k k' : keqb k k' = keqb k' k.
Proof.
  destruct (keqb k' k) eqn:E.
  - apply keqb_eq in E. subst. apply keqb_refl.
  - destruct (keqb k k') eqn:E'; [|reflexivity].
    apply keqb_eq in E'. subst. now rewrite keqb_refl in E.
Qed.

Lemma dict_get_set_same d k v : dict_get (dict_set d k v) k = Some v.
Proof.
  induction d as [|[k0 v0] d IH]; simpl.
  - now rewrite keqb_refl.
  - destruct (keqb k0 k) eqn:E; simpl; rewrite E; [reflexivity | exact IH].
Qed.

Lemma dict_get_set_other d k k' v :
  k <> k' -> dict_get (dict_set d k v) k' = dict_get d k'.
Proof.
  intro N. induction d as [|[k0 v0] d IH]; simpl.
  - now rewrite keqb_neq.
  - destruct (keqb k0 k) eqn:E; simpl.
    + apply keqb_eq in E. subst k0. now rewrite keqb_neq.
    + now rewrite IH.
Qed.

Lemma key_in_spec ks k : key_in ks k = true <-> In k ks.
Proof.
  unfold key_in. rewrite existsb_exists. split.
  - intros (x & Hx & E). apply keqb_eq in E. now subst.
  - intro Hin. exists k. split; [assumption | apply keqb_refl].
Qed.

Lemma dict_keys_set d k v :
  dict_keys (dict_set d k v) =
  if key_in (dict_keys d) k then dict_keys d else dict_keys d ++ [k].
Proof.
  unfold dict_keys, key_in.
  induction d as [|[k0 v0] d IH]; simpl; [reflexivity|].
  rewrite (keqb_sym k k0). destruct (keqb k0 k) eqn:E; simpl; [reflexivity|].
  rewrite IH. now destruct (existsb (keqb k) (map fst d)).
Qed.

Lemma dict_get_not_in d k : ~ In k (dict_keys d) -> dict_get d k = None.
Proof.
  unfold dict_keys. induction d as [|[k0 v0] d IH]; simpl; intro N; [reflexivity|].
  rewrite keqb_neq by tauto. apply IH. tauto.
Qed.

(** Two dictionaries with the same distinct keys in the same order and the
    same value under every key are the same dictionary. *)
Lemma dict_ext d1 d2 :
  NoDup (dict_keys d1) ->
  dict_keys d1 = dict_keys d2 ->
  (forall k, dict_get d1 k = dict_get d2 k) ->
  d1 = d2.
Proof.
  unfold dict_keys. revert d2.
  induction d1 as [|[k1 v1] d1 IH]; intros [|[k2 v2] d2] ND EK EG;
    simpl in *; try discriminate; [reflexivity|].
  injection EK as -> EK. inversion ND as [|? ? Hnotin ND']; subst.
  pose proof (EG k2) as E2. simpl in E2. rewrite keqb_refl in E2.
  injection E2 as ->. f_equal. apply IH; [assumption | assumption |].
  intro k. specialize (EG k). simpl in EG.
  destruct (keqb k2 k) eqn:E; [|exact EG].
  apply keqb_eq in E. subst k.
  rewrite (dict_get_not_in d1), (dict_get_not_in d2);
    [reflexivity | unfold dict_keys; now rewrite <- EK | assumption].
Qed.

Lemma flat_map_ext_on {A B} (f g : A -> list B) (l : list A) :
  (forall x, In x l -> f x = g x) -> flat_map f l = flat_map g l.
Proof.
  induction l as [|x l IH]; simpl; intro E; [reflexivity|].
  rewrite (E x) by now left. f_equal. apply IH. intros y Hy. apply E. now right.
Qed.

Lemma filter_none {A} (f : A -> bool) (l : list A) :
  (forall x, In x l -> f x = false) -> filter f l = [].
Proof.
  induction l as [|x l IH]; simpl; intro E; [reflexivity|].
  rewrite (E x) by now left. apply IH. intros y Hy. apply E. now right.
Qed.

(** The values of a dictionary, read off its keys. *)
Lemma dict_values_by_keys d :
  NoDup (dict_keys d) ->
  dict_values d =
  flat_map (fun k => match dict_get d k with Some v => [v] | None => [] end)
           (dict_keys d).
Proof.
  unfold dict_values, dict_keys.
  induction d as [|[k0 v0] d IH]; simpl; intro ND; [reflexivity|].
  inversion ND as [|? ? Hnotin ND']; subst.
  rewrite keqb_refl. simpl. f_equal. rewrite IH by assumption.
  apply flat_map_ext_on. intros k Hin.
  rewrite keqb_neq; [reflexivity|]. intros ->. contradiction.
Qed.

Lemma dict_get_update items : forall d k,
  dict_get (dict_update d items) k =
  match last_item k items with
  | Some v => Some v
  | None => dict_get d k
  end.
Proof.
  unfold dict_update.
  induction items as [|[k0 v0] items IH]; intros d k; simpl; [reflexivity|].
  rewrite IH. destruct (last_item k items); [reflexivity|].
  destruct (keqb k0 k) eqn:E.
  - apply keqb_eq in E. subst. apply dict_get_set_same.
  - apply dict_get_set_other. intros ->. now rewrite keqb_refl in E.
Qed.

Lemma filter_twice {A} (f g : A -> bool) (l : list A) :
  filter f (filter g l) = filter (fun x => g x && f x) l.
Proof.
  induction l as [|x l IH]; simpl; [reflexivity|].
  destruct (g x); simpl; [destruct (f x)|]; now rewrite IH.
Qed.

Lemma dict_keys_update items : forall d,
  dict_keys (dict_update d items) =
  dict_keys d ++
  filter (fun k => negb (key_in (dict_keys d) k)) (firsts (map fst items)).
Proof.
  unfold dict_update.
  induction items as [|[k0 v0] items IH]; intro d; simpl.
  - now rewrite List.app_nil_r.
  - rewrite IH, dict_keys_set. destruct (key_in (dict_keys d) k0) eqn:E; simpl.
    + f_equal. rewrite filter_twice. apply filter_ext_in. intros k _.
      destruct (keqb k0 k) eqn:E'; simpl; [|reflexivity].
      apply keqb_eq in E'. subst k. now rewrite E.
    + rewrite <- List.app_assoc. simpl. f_equal. f_equal.
      rewrite filter_twice. apply filter_ext. intro k.
      unfold key_in. rewrite existsb_app. simpl.
      rewrite orb_false_r, negb_orb, (keqb_sym k k0). apply andb_comm.
Qed.

Lemma NoDup_firsts ks : NoDup (firsts ks).
Proof.
  induction ks as [|k ks IH]; simpl; constructor.
  - rewrite filter_In. intros [_ E]. now rewrite keqb_refl in E.
  - now apply NoDup_filter.
Qed.

Lemma last_item_in k (items : list (K * V)) :
  last_item k items = None <-> ~ In k (map fst items).
Proof.
  induction items as [|[k0 v0] items IH]; simpl; [tauto|].
  destruct (last_item k items) eqn:E.
  - split; [discriminate|]. intro N. exfalso.
    assert (Some v = None) as X by (apply IH; tauto). discriminate.
  - destruct (keqb k0 k) eqn:E'.
    + apply keqb_eq in E'. split; [discriminate | tauto].
    + split; [|reflexivity]. intros _ [->|Hin].
      * now rewrite keqb_refl in E'.
      * now apply IH.
Qed.

(** Assigning the same items a second time changes nothing. *)
Lemma dict_update_idem (items : list (K * V)) :
  dict_update (dict_update [] items) items = dict_update [] items.
Proof.
  set (D := dict_update [] items).
  assert (KD : dict_keys D = firsts (map fst items)).
  { unfold D. rewrite dict_keys_update. simpl.
    apply forallb_filter_id. apply forallb_forall. reflexivity. }
  apply dict_ext.
  - rewrite dict_keys_update.
    replace (filter _ _) with (@nil K).
    + rewrite List.app_nil_r, KD. apply NoDup_firsts.
    + symmetry. apply filter_none. intros k Hin.
      apply negb_false_iff, key_in_spec. now rewrite KD.
  - rewrite dict_keys_update.
    replace (filter _ _) with (@nil K); [apply List.app_nil_r|].
    symmetry. apply filter_none. intros k Hin.
    apply negb_false_iff, key_in_spec. now rewrite KD.
  - intro k. rewrite dict_get_update. unfold D at 1 2.
    rewrite dict_get_update. now destruct (last_item k items).
Qed.
End PyDictFacts.

(* ================================================================== *)
(** * The bundle merge *)

(** The loop assigns the keyed items, in order, to the dictionary it
    started from. *)
Lemma loop_keyed (l : list json) : forall d : pydict hkey json,
  for_each l d
    (fun unique_bundles_dict bundle =>
       let key := bundle_key bundle in
       if negb (truthy key) then ret unique_bundles_dict
       else
         k <- py_hash key ;;
         ret (dict_set unique_bundles_dict k bundle))
  = (items <- keyed l ;; ret (dict_update d items)).
Proof.
  induction l as [|b l IH]; intro d; simpl; [reflexivity|].
  destruct (truthy (bundle_key b)); simpl.
  - destruct (py_hash (bundle_key b)) as [k|e]; simpl; [|reflexivity].
    rewrite IH. now destruct (keyed l).
  - apply IH.
Qed.

Lemma unique_bundles_loop_keyed (l : list json) :
  unique_bundles_loop l = (items <- keyed l ;; ret (dict_update [] items)).
Proof. apply loop_keyed. Qed.

Lemma keyed_app (l1 l2 : list json) :
  keyed (l1 ++ l2) =
  (items1 <- keyed l1 ;; items2 <- keyed l2 ;; ret (items1 ++ items2)).
Proof.
  induction l1 as [|b l1 IH]; simpl.
  - now destruct (keyed l2).
  - destruct (truthy (bundle_key b)); simpl; [|exact IH].
    destruct (py_hash (bundle_key b)) as [k|e]; simpl; [|reflexivity].
    rewrite IH. destruct (keyed l1); simpl; [|reflexivity].
    now destruct (keyed l2).
Qed.

Lemma keyed_usable (l : list json) :
  forallb key_usable l = true -> keyed l = Ok (keyed_pairs l).
Proof.
  unfold keyed_pairs.
  induction l as [|b l IH]; simpl; [reflexivity|].
  intro U. apply andb_true_iff in U as [Ub Ul]. rewrite (IH Ul).
  unfold key_usable in Ub. unfold identity_key.
  destruct (truthy (bundle_key b)); simpl in *; [|reflexivity].
  now destruct (py_hash (bundle_key b)).
Qed.

Lemma keyed_items (l : list json) : forall items,
  keyed l = Ok items ->
  forall k b, In (k, b) items -> In b l /\ identity_key b = Some k.
Proof.
  induction l as [|b0 l IH]; simpl; intros items E k b Hin.
  - injection E as <-. contradiction.
  - destruct (truthy (bundle_key b0)) eqn:T; simpl in E.
    + destruct (py_hash (bundle_key b0)) as [k0|e] eqn:Hh; simpl in E;
        [|discriminate].
      destruct (keyed l) as [items'|e]; simpl in E; [|discriminate].
      injection E as <-. destruct Hin as [Heq|Hin].
      * injection Heq as <- <-. split; [now left|].
        unfold identity_key. now rewrite T, Hh.
      * destruct (IH _ eq_refl _ _ Hin). split; [now right | assumption].
    + destruct (IH _ E _ _ Hin). split; [now right | assumption].
Qed.

Lemma first_keys_pairs (l : list json) :
  first_keys l = firsts (map fst (keyed_pairs l)).
Proof.
  unfold keyed_pairs. induction l as [|b l IH]; simpl; [reflexivity|].
  destruct (identity_key b); simpl; now rewrite IH.
Qed.

Lemma last_with_key_pairs (k : hkey) (l : list json) :
  last_with_key k l = last_item k (keyed_pairs l).
Proof.
  unfold keyed_pairs, has_key. induction l as [|b l IH]; simpl; [reflexivity|].
  rewrite IH. unfold has_key. destruct (identity_key b); simpl;
    now destruct (last_item k (flat_map _ l)).
Qed.

Lemma In_values_set {K V} `{EqKey K} (d : pydict K V) k v x :
  In x (dict_values (dict_set d k v)) -> x = v \/ In x (dict_values d).
Proof.
  unfold dict_values. induction d as [|[k0 v0] d IH]; simpl.
  - intros [<-|[]]. now left.
  - destruct (keqb k0 k); simpl.
    + intros [<-|Hin]; [now left | now right; right].
    + intros [<-|Hin]; [now right; left|].
      destruct (IH Hin); [now left | now right; right].
Qed.

Lemma In_values_update {K V} `{EqKey K} (items : list (K * V)) :
  forall (d : pydict K V) x,
    In x (dict_values (dict_update d items)) ->
    In x (map snd items) \/ In x (dict_values d).
Proof.
  unfold dict_update.
  induction items as [|[k v] items IH]; simpl; intros d x Hin; [now right|].
  destruct (IH _ _ Hin) as [Hi|Hd]; [now left; right|].
  destruct (In_values_set _ _ _ _ Hd) as [->|Hd']; [now left; left | now right].
Qed.

(** Whatever the merge returns came in with the input and has a usable
    identity key. *)
Lemma merge_output_sound (state_bundles new_bundles out : list json) :
  merge_bundles state_bundles new_bundles = Ok out ->
  forall b, In b out ->
    In b (state_bundles ++ new_bundles) /\ identity_key b <> None.
Proof.
  unfold merge_bundles. rewrite unique_bundles_loop_keyed.
  destruct (keyed (state_bundles ++ new_bundles)) as [items|e] eqn:E;
    simpl; [|discriminate].
  intros [= <-] b Hin.
  destruct (In_values_update _ _ _ Hin) as [Hi|[]].
  apply in_map_iff in Hi as ([k b'] & <- & Hp).
  destruct (keyed_items _ E _ _ Hp) as [Hl Hk]. simpl.
  split; [assumption | congruence].
Qed.

Lemma unresolvable_key (b : json) :
  unresolvable b = true -> bundle_key b = JNull.
Proof.
  destruct b; simpl; try reflexivity. unfold dict_mem.
  destruct (dict_get d "placeholder"); simpl; [discriminate|].
  destruct (dict_get d "id"); simpl; [discriminate | reflexivity].
Qed.

(** C1: the merge concatenates the two collections in order, keys every
    bundle by its identity key, lets a later bundle overwrite an earlier one
    under the same key, and returns the survivors in order of first insertion
    of their keys.  Two bundles sharing a key: the later one survives,
    whichever it is. *)
Theorem merge_last_write_wins (state_bundles new_bundles : list json) :
  forallb key_usable (state_bundles ++ new_bundles) = true ->
  merge_bundles state_bundles new_bundles
    = Ok (merge_spec (state_bundles ++ new_bundles))
  /\ (forall b1 b2 k,
        identity_key b1 = Some k -> identity_key b2 = Some k ->
        merge_bundles [b1; b2] [] = Ok [b2]
        /\ merge_bundles [b1] [b2] = Ok [b2]
        /\ merge_bundles [b2; b1] [] = Ok [b1]
        /\ merge_bundles [b2] [b1] = Ok [b1]).
Proof.
  intro U. split.
  - unfold merge_bundles, merge_spec.
    rewrite unique_bundles_loop_keyed, (keyed_usable _ U). simpl.
    set (items := keyed_pairs (state_bundles ++ new_bundles)).
    assert (KD : dict_keys (dict_update [] items) = firsts (map fst items)).
    { rewrite dict_keys_update. simpl.
      apply forallb_filter_id, forallb_forall. reflexivity. }
    rewrite dict_values_by_keys by (rewrite KD; apply NoDup_firsts).
    rewrite KD, first_keys_pairs. f_equal. apply flat_map_ext_on.
    intros k _. rewrite dict_get_update, last_with_key_pairs. fold items.
    now destruct (last_item k items).
  - intros b1 b2 k K1 K2.
    assert (forall x y, identity_key x = Some k -> identity_key y = Some k ->
                        merge_bundles [x; y] [] = Ok [y]) as two.
    { intros x y Kx Ky. unfold merge_bundles, unique_bundles_loop.
      unfold identity_key in Kx, Ky. simpl.
      destruct (truthy (bundle_key x)); [|discriminate].
      destruct (truthy (bundle_key y)); [|discriminate].
      destruct (py_hash (bundle_key x)) as [kx|]; [|discriminate].
      destruct (py_hash (bundle_key y)) as [ky|]; [|discriminate].
      injection Kx as ->. injection Ky as ->. simpl.
      now rewrite (proj2 (hkey_eqb_eq k k) eq_refl). }
    repeat split; try (apply two; assumption);
      change (merge_bundles [?x] [?y]) with (merge_bundles [x; y] []);
      apply two; assumption.
Qed.

(** C5: merging a collection with itself gives what merging it with the
    empty collection gives: the same bundles in the same order (and the same
    error when a key cannot be hashed). *)
Theorem merge_idempotent (B : list json) :
  merge_bundles B B = merge_bundles B [].
Proof.
  unfold merge_bundles. rewrite !unique_bundles_loop_keyed, keyed_app.
  rewrite List.app_nil_r. destruct (keyed B) as [items|e]; simpl; [|reflexivity].
  unfold dict_update at 1. rewrite fold_left_app.
  fold (dict_update (@nil (hkey * json)) items).
  fold (dict_update (dict_update [] items) items).
  now rewrite dict_update_idem.
Qed.

(** C6: a bundle with neither [placeholder] nor [id], or one that is not a
    record, is in no merge output, wherever it stood in either collection. *)
Theorem unresolvable_bundles_dropped
        (state_bundles new_bundles out : list json) (b : json) :
  merge_bundles state_bundles new_bundles = Ok out ->
  unresolvable b = true ->
  ~ In b out.
Proof.
  intros E U Hin.
  destruct (merge_output_sound _ _ E _ Hin) as [_ N]. apply N.
  unfold identity_key. now rewrite (unresolvable_key _ U).
Qed.

(** C10: once the [placeholder] field exists its value is the key, with no
    fallback to [id]; when that value is falsy the bundle is skipped, whatever
    [id] it carries; and so is every bundle whose key is falsy. *)
Theorem falsy_placeholder_dropped
        (state_bundles new_bundles out : list json)
        (d : list (string * json)) (p : json) :
  dict_get d "placeholder" = Some p ->
  truthy p = false ->
  merge_bundles state_bundles new_bundles = Ok out ->
  bundle_key (JDict d) = p
  /\ ~ In (JDict d) out
  /\ (forall b, truthy (bundle_key b) = false -> ~ In b out).
Proof.
  intros P F E.
  assert (K : bundle_key (JDict d) = p) by (simpl; now rewrite P).
  assert (G : forall b, truthy (bundle_key b) = false -> ~ In b out).
  { intros b Fb Hin.
    destruct (merge_output_sound _ _ E _ Hin) as [_ N]. apply N.
    unfold identity_key. now rewrite Fb. }
  split; [exact K|]. split; [|exact G].
  apply G. now rewrite K.
Qed.

(* ---------------------------------------------------------------- *)
(** ** Properties of the helpers and nodes *)

Lemma bind_ok {A B} (c : M A) (k : A -> M B) (w w' : world) (a : A) :
  c w = (Ok a, w') -> (x <- c ;; k x) w = k a w'.
Proof. intro E. simpl. now rewrite E. Qed.

Lemma lift_run {A} (r : result A) (w : world) : lift r w = (r, w).
Proof. reflexivity. Qed.

Lemma try_raise {A} (body : M A) (h : exn -> M A) (w w' : world) (e : exn) :
  body w = (Raise e, w') -> try_except body h w = h e w'.
Proof. intro E. unfold try_except. now rewrite E. Qed.

Lemma lookup_order_found (w : world) (oid : string) (o : json) :
  dict_get (ORDERS_DB w) oid = Some o ->
  lookup_order (JStr oid) w = (Ok o, w).
Proof. intro E. unfold lookup_order, gets, lift. simpl. now rewrite E. Qed.

Lemma lookup_order_missing (w : world) (oid : string) :
  dict_get (ORDERS_DB w) oid = None ->
  lookup_order (JStr oid) w = (Ok JNull, w).
Proof. intro E. unfold lookup_order, gets, lift. simpl. now rewrite E. Qed.

Lemma get_bundles_stored_list (w : world) (oid : string) (l : list json) :
  dict_get (BUNDLES_STORAGE w) oid = Some (JList l) ->
  get_bundles (JStr oid) w = (Ok (JList l), w).
Proof. intro E. unfold get_bundles, gets, lift. simpl. now rewrite E. Qed.

Lemma get_bundles_missing (w : world) (oid : string) :
  dict_get (BUNDLES_STORAGE w) oid = None ->
  get_bundles (JStr oid) w = (Ok (JList []), w).
Proof. intro E. unfold get_bundles, gets, lift. simpl. now rewrite E. Qed.

(** C7: an order in the store whose bundle set is absent or empty comes
    back from the decrypted lookup as its stored fields plus the note
    "Bundles not found for decryption"; the world is left as it was, so no
    request went to the Cryptor service. *)
Theorem get_order_decrypted_without_bundles
        (w : world) (oid : string) (fields : list (string * json)) :
  dict_get (ORDERS_DB w) oid = Some (JDict fields) ->
  fields <> [] ->
  dict_get (BUNDLES_STORAGE w) oid = None
  \/ dict_get (BUNDLES_STORAGE w) oid = Some (JList []) ->
  get_order_decrypted (JStr oid) w
    = (Ok (JDict (dict_update fields
                    [("order_id", JStr oid);
                     ("note", JStr "Bundles not found for decryption")])),
       w)
  /\ http_log (snd (get_order_decrypted (JStr oid) w)) = http_log w.
Proof.
  intros Ho Hne Hb.
  assert (E : get_order_decrypted (JStr oid) w
              = (Ok (JDict (dict_update fields
                    [("order_id", JStr oid);
                     ("note", JStr "Bundles not found for decryption")])),
                 w)).
  { unfold get_order_decrypted.
    rewrite (bind_ok _ _ _ (lookup_order_found _ _ Ho)).
    assert (T : truthy (JDict fields) = true) by (now destruct fields).
    rewrite T. cbn [negb].
    destruct Hb as [Hb|Hb].
    - now rewrite (bind_ok _ _ _ (get_bundles_missing _ _ Hb)).
    - now rewrite (bind_ok _ _ _ (get_bundles_stored_list _ _ Hb)). }
  split; [exact E | now rewrite E].
Qed.

Lemma dict_get_update_other {V} (d : pydict string V) items k :
  ~ In k (map fst items) -> dict_get (dict_update d items) k = dict_get d k.
Proof.
  intro N. rewrite dict_get_update.
  now rewrite (proj2 (last_item_in k items) N).
Qed.

(** C8: an order in the store with a non-empty bundle set, and a decrypt
    attempt that fails anywhere (the request raises, the status is an
    error, the body is not JSON, has no [text], or [text] does not decode
    to a record): the lookup still returns, with the stored fields of the
    order untouched and a [decrypt_error] entry telling why. *)
Theorem get_order_decrypted_decrypt_failure
        (w : world) (oid : string) (fields : list (string * json))
        (b : json) (bl : list json) (e : exn) :
  let url := (CRYPTOR_SERVICE_URL ++ "/v1/decrypt")%string in
  let payload :=
    JDict [("tenant_id", JStr TENANT);
           ("text_with_placeholders", JStr (json_dumps (JDict fields)));
           ("bundles", JList (b :: bl))] in
  let annotated :=
    dict_update fields
      [("order_id", JStr oid);
       ("decrypt_error", JStr ("Cryptor service error: " ++ str_exn e))] in
  dict_get (ORDERS_DB w) oid = Some (JDict fields) ->
  fields <> [] ->
  dict_get (BUNDLES_STORAGE w) oid = Some (JList (b :: bl)) ->
  (resp <- requests_post url payload ;;
   raise_for_status resp ;;;
   data <- resp_json resp ;;
   decrypted_text <- py_getitem data "text" ;;
   decrypted_order <- py_json_loads decrypted_text ;;
   py_spread decrypted_order [("order_id", JStr oid)]) = Raise e ->
  get_order_decrypted (JStr oid) w
    = (Ok (JDict annotated), log_request w url payload)
  /\ (forall k, k <> "order_id" -> k <> "decrypt_error" ->
                dict_get annotated k = dict_get fields k)
  /\ dict_get annotated "decrypt_error"
     = Some (JStr ("Cryptor service error: " ++ str_exn e)).
Proof.
  intros url payload annotated Ho Hne Hb Hfail. split; [|split].
  - unfold get_order_decrypted.
    rewrite (bind_ok _ _ _ (lookup_order_found _ _ Ho)).
    assert (T : truthy (JDict fields) = true) by (now destruct fields).
    rewrite T. cbn [negb].
    rewrite (bind_ok _ _ _ (get_bundles_stored_list _ _ Hb)).
    cbn [truthy negb]. fold url. fold payload.
    erewrite try_raise; [reflexivity|].
    unfold post, lift. cbn [bind Monad_M]. cbn [bind Monad_result] in Hfail.
    destruct (requests_post url payload) as [resp|e0]; [|congruence].
    destruct (raise_for_status resp); [|congruence].
    destruct (resp_json resp) as [data|e0]; [|congruence].
    destruct (py_getitem data "text") as [t|e0]; [|congruence].
    destruct (py_json_loads t) as [o|e0]; [|congruence].
    destruct (py_spread o [("order_id", JStr oid)]); congruence.
  - intros k N1 N2. unfold annotated. apply dict_get_update_other.
    simpl. intros [E|[E|[]]]; congruence.
  - unfold annotated. rewrite dict_get_update. reflexivity.
Qed.

Lemma bind_inv_ok {A B} (c : M A) (k : A -> M B) (w w' : world) (b : B) :
  (x <- c ;; k x) w = (Ok b, w') ->
  exists a w1, c w = (Ok a, w1) /\ k a w1 = (Ok b, w').
Proof.
  cbn [bind Monad_M]. destruct (c w) as [[a|e] w1]; intro E.
  - now exists a, w1.
  - discriminate.
Qed.

Lemma try_raising_inv_ok {A} (body : M A) (f : exn -> exn)
      (w w' : world) (a : A) :
  try_except body (fun e => raise (f e)) w = (Ok a, w') ->
  body w = (Ok a, w').
Proof.
  unfold try_except, raise. destruct (body w) as [[x|e] w1]; intro E.
  - exact E.
  - discriminate.
Qed.

(** A state that leaves [execute_action] carries a list of bundles. *)
Lemma execute_action_bundles (state s3 : ServiceState) (w w3 : world) :
  execute_action state w = (Ok s3, w3) -> exists l, bundles s3 = JList l.
Proof.
  unfold execute_action. intro E.
  apply bind_inv_ok in E as (action_data & w1 & _ & E).
  apply bind_inv_ok in E as (action_type & w2 & _ & E).
  apply try_raising_inv_ok in E.
  apply bind_inv_ok in E as (outcome & w4 & _ & E).
  apply bind_inv_ok in E as (final_bundles & w5 & _ & E).
  injection E as <- _. now exists final_bundles.
Qed.

(** What the final decrypt call does: one request is logged, and the call
    returns or raises as the response decides. *)
Lemma final_decrypt_run (state : ServiceState) (agent_text : string)
      (w : world) :
  let url := (CRYPTOR_SERVICE_URL ++ "/v1/decrypt")%string in
  let payload :=
    JDict [("tenant_id", tenant_id state);
           ("text_with_placeholders", JStr agent_text);
           ("bundles", bundles state)] in
  snd (final_decrypt state agent_text w) = log_request w url payload
  /\ forall e,
      (resp <- requests_post url payload ;;
       raise_for_status resp ;;;
       data <- resp_json resp ;;
       py_getitem data "text") = Raise e ->
      fst (final_decrypt state agent_text w) = Raise e.
Proof.
  intros url payload. unfold final_decrypt, post, lift.
  fold url. fold payload. cbn [bind Monad_M Monad_result].
  destruct (requests_post url payload) as [resp|e0]; simpl;
    [|split; [reflexivity | congruence]].
  destruct (raise_for_status resp); simpl;
    [|split; [reflexivity | congruence]].
  destruct (resp_json resp) as [data|e0]; simpl;
    [|split; [reflexivity | congruence]].
  destruct (py_getitem data "text") as [t|e0]; simpl;
    split; try reflexivity; congruence.
Qed.

(** The final decrypt failing inside [format_response]. *)
Lemma format_response_decrypt_failure
      (state : ServiceState) (w : world) (agent_text : string)
      (n : Z) (e : exn) :
  generate_content (ReplyPrompt (encrypted_input state) (tool_result state))
    = Ok agent_text ->
  py_len (bundles state) = Ok n ->
  fst (final_decrypt state agent_text w) = Raise e ->
  format_response state w
    = (Raise (RuntimeError
                ("Response generation failed: "
                 ++ "Final response decrypt failed: " ++ str_exn e)),
       snd (final_decrypt state agent_text w)).
Proof.
  intros G L F. unfold format_response.
  destruct (final_decrypt state agent_text w) as [r w'] eqn:D.
  simpl in F. subst r.
  unfold try_except, lift, raise. cbn [bind Monad_M].
  rewrite G, L, D. reflexivity.
Qed.

(** C2: a run that reaches the final decrypt call and sees it fail (the
    request raises, the status is an error, the body does not decode or has
    no [text]) ends in a [RuntimeError]: no state, so no final reply of any
    kind, is returned. *)
Theorem final_decrypt_failure_is_fatal
        (text : string) (w w1 w2 w3 : world) (s1 s2 s3 : ServiceState)
        (agent_text : string) (e : exn) :
  let url := (CRYPTOR_SERVICE_URL ++ "/v1/decrypt")%string in
  let payload :=
    JDict [("tenant_id", tenant_id s3);
           ("text_with_placeholders", JStr agent_text);
           ("bundles", bundles s3)] in
  process_input (initial_state text) w = (Ok s1, w1) ->
  determine_action s1 w1 = (Ok s2, w2) ->
  execute_action s2 w2 = (Ok s3, w3) ->
  generate_content (ReplyPrompt (encrypted_input s3) (tool_result s3))
    = Ok agent_text ->
  (resp <- requests_post url payload ;;
   raise_for_status resp ;;;
   data <- resp_json resp ;;
   py_getitem data "text") = Raise e ->
  invoke text w
    = (Raise (RuntimeError
                ("Response generation failed: "
                 ++ "Final response decrypt failed: " ++ str_exn e)),
       log_request w3 url payload).
Proof.
  intros url payload P1 P2 P3 G F. unfold invoke.
  rewrite (bind_ok _ _ _ P1), (bind_ok _ _ _ P2), (bind_ok _ _ _ P3).
  destruct (execute_action_bundles _ _ P3) as [l Hl].
  destruct (final_decrypt_run s3 agent_text w3) as [Hw Hr].
  fold url in Hw, Hr. fold payload in Hw, Hr.
  rewrite <- Hw.
  apply format_response_decrypt_failure with (n := Z.of_nat (List.length l)).
  - exact G.
  - now rewrite Hl.
  - apply Hr. exact F.
Qed.

Lemma py_getitem_get (data a : json) (k : string) (default : json) :
  py_getitem data k = Ok a -> py_get data k default = Ok a.
Proof.
  destruct data; simpl; try discriminate.
  destruct (dict_get d k); [trivial | discriminate].
Qed.

(** What [execute_action] does once the action has been parsed and the
    operation has run. *)
Lemma execute_action_run
      (state : ServiceState) (w w' : world) (s : string)
      (action_data action_type result : json)
      (l new_bundles : list json) :
  action state = JStr s ->
  json_loads s = Ok action_data ->
  py_get action_data "action" JNull = Ok action_type ->
  run_action state action_data action_type w = (Ok (result, new_bundles), w') ->
  bundles state = JList l ->
  execute_action state w
    = (match merge_bundles l new_bundles with
       | Ok final_bundles =>
           Ok (with_result state (JStr (json_dumps result))
                           (JList final_bundles))
       | Raise e =>
           Raise (RuntimeError ("Business logic failure: " ++ str_exn e))
       end, w').
Proof.
  intros Ha Hl Ht Hr Hb. unfold execute_action, try_except, lift, raise.
  cbn [bind Monad_M]. rewrite Ha. cbn [py_json_loads]. rewrite Hl, Ht, Hr.
  cbn [snd fst]. rewrite Hb. cbn [merge_step].
  now destruct (merge_bundles l new_bundles).
Qed.

(** C3, as the code has it: output whose span does not parse, or parses to
    something without an [action] entry, makes the classification stage
    raise the pipeline error; an [action] value of any kind, recognised or
    not, passes the stage unchanged, and for a value outside the three
    kinds the execution stage runs no operation: it leaves the world as it
    was and returns the result "Unknown action: ...". *)
Theorem classification_failure_modes
        (state : ServiceState) (w : world) (text : string) :
  generate_content (ActionPrompt (encrypted_input state)) = Ok text ->
  let span := json_span (strip text) in
  (forall e, json_loads span = Raise e ->
     determine_action state w
     = (Raise (RuntimeError ("Language model action failure: " ++ str_exn e)),
        w))
  /\ (forall data e,
        json_loads span = Ok data -> py_getitem data "action" = Raise e ->
        determine_action state w
        = (Raise (RuntimeError
                    ("Language model action failure: " ++ str_exn e)), w))
  /\ (forall data a,
        json_loads span = Ok data -> py_getitem data "action" = Ok a ->
        let classified := with_action state (JStr (json_dumps data)) in
        determine_action state w = (Ok classified, w)
        /\ (forall l,
              json_loads (json_dumps data) = Ok data ->
              is_str a "get_order" = false ->
              is_str a "get_all_orders" = false ->
              is_str a "create_order" = false ->
              bundles state = JList l ->
              let result :=
                JDict [("error", JStr ("Unknown action: " ++ py_str a))] in
              execute_action classified w
              = (match merge_bundles l [] with
                 | Ok final_bundles =>
                     Ok (with_result classified (JStr (json_dumps result))
                                     (JList final_bundles))
                 | Raise e =>
                     Raise (RuntimeError
                              ("Business logic failure: " ++ str_exn e))
                 end, w))).
Proof.
  intros G span. split; [|split].
  - intros e L. unfold determine_action, try_except, lift, raise.
    cbn [bind Monad_M]. rewrite G. fold span. now rewrite L.
  - intros data e L K. unfold determine_action, try_except, lift, raise.
    cbn [bind Monad_M]. rewrite G. fold span. now rewrite L, K.
  - intros data a L K classified. split.
    + unfold determine_action, try_except, lift, raise.
      cbn [bind Monad_M]. rewrite G. fold span. rewrite L, K. reflexivity.
    + intros l RT N1 N2 N3 Hb result.
      apply execute_action_run with (s := json_dumps data)
                                    (action_data := data) (action_type := a).
      * reflexivity.
      * exact RT.
      * now apply py_getitem_get.
      * unfold run_action. rewrite N1, N2, N3. reflexivity.
      * exact Hb.
Qed.

(** C4, as the code has it: a [get_order] for an identifier that is in
    neither the order store nor the bundle store (or has an empty stored
    set) returns the not-found result and contributes no bundle, so the
    bundles after step 3 are the merge of the incoming bundles with the
    empty collection. *)
Theorem get_order_miss
        (state : ServiceState) (w : world) (s oid : string)
        (action_data : list (string * json)) (l : list json) :
  action state = JStr s ->
  json_loads s = Ok (JDict action_data) ->
  dict_get action_data "action" = Some (JStr "get_order") ->
  dict_get action_data "order_id" = Some (JStr oid) ->
  dict_get (ORDERS_DB w) oid = None ->
  dict_get (BUNDLES_STORAGE w) oid = None
  \/ dict_get (BUNDLES_STORAGE w) oid = Some (JList []) ->
  bundles state = JList l ->
  let not_found := JDict [("error", JStr "Order not found")] in
  get_order (JStr oid) w = (Ok not_found, w)
  /\ execute_action state w
     = (match merge_bundles l [] with
        | Ok final_bundles =>
            Ok (with_result state (JStr (json_dumps not_found))
                            (JList final_bundles))
        | Raise e =>
            Raise (RuntimeError ("Business logic failure: " ++ str_exn e))
        end, w).
Proof.
  intros Ha Hl Hk Hid Ho Hb Hs not_found.
  assert (G : get_order (JStr oid) w = (Ok not_found, w)).
  { unfold get_order.
    now rewrite (bind_ok _ _ _ (lookup_order_missing _ _ Ho)). }
  assert (B : get_bundles (JStr oid) w = (Ok (JList []), w)).
  { destruct Hb as [Hb|Hb];
      [now apply get_bundles_missing | now apply get_bundles_stored_list]. }
  split; [exact G|].
  apply execute_action_run with (s := s) (action_data := JDict action_data)
                                (action_type := JStr "get_order");
    try assumption.
  - simpl. now rewrite Hk.
  - unfold run_action. cbn [is_str String.eqb Ascii.eqb Bool.eqb].
    cbn [py_get]. rewrite Hid.
    rewrite (bind_ok _ _ _ (lift_run _ _)).
    rewrite (bind_ok _ _ _ G), (bind_ok _ _ _ B). reflexivity.
Qed.

(** ** Order identifiers *)

Lemma of_uint_zero_pad (width : nat) (d : uint) :
  N.of_uint (zero_pad width d) = N.of_uint d.
Proof.
  unfold zero_pad. induction (width - nb_digits d)%nat as [|k IH];
    [reflexivity | exact IH].
Qed.

(** Reading the digits of [f"{n:03d}"] back gives [n]. *)
Lemma format_03d_decode (n : Z) :
  0 <= n ->
  option_map N.of_uint (NilEmpty.uint_of_string (format_03d n))
  = Some (Z.to_N n).
Proof.
  intro Hn. assert (E : format_03d n
    = NilEmpty.string_of_uint (zero_pad 3 (N.to_uint (Z.to_N n)))).
  { destruct n; [reflexivity | reflexivity | lia]. }
  rewrite E, NilEmpty.usu. simpl. f_equal.
  rewrite of_uint_zero_pad. apply DecimalN.Unsigned.of_to.
Qed.

Lemma order_id_of_inj (i j : Z) :
  0 <= i -> 0 <= j -> order_id_of i = order_id_of j -> i = j.
Proof.
  intros Hi Hj E. unfold order_id_of in E. simpl in E.
  injection E as E.
  pose proof (format_03d_decode Hi) as Di.
  pose proof (format_03d_decode Hj) as Dj.
  rewrite E in Di. rewrite Di in Dj. injection Dj as Dj. lia.
Qed.

(** ** Creating orders *)

Lemma create_order_run (w : world) (r : order_request) :
  create_order (req_customer r) (req_email r) (req_phone r)
               (req_address r) (req_items r) (req_bundles r) w
  = (Ok (JDict [("order_id", JStr (order_id_of (ORDER_COUNTER w)));
                ("status", JStr "created")]),
     created_world w r).
Proof. reflexivity. Qed.

Lemma create_orders_run (requests : list order_request) :
  forall w : world,
    0 <= ORDER_COUNTER w ->
    let c := ORDER_COUNTER w in
    let run := create_orders requests w in
    fst run = Ok (map (fun i => created (c + Z.of_nat i))
                      (seq 0 (List.length requests)))
    /\ ORDER_COUNTER (snd run) = c + Z.of_nat (List.length requests)
    /\ (forall i r,
          nth_error requests i = Some r ->
          dict_get (ORDERS_DB (snd run)) (order_id_of (c + Z.of_nat i))
          = Some (order_record (req_customer r) (req_email r) (req_phone r)
                               (req_address r) (req_items r)
                               (datetime_now (clock_reads w + i)))
          /\ dict_get (BUNDLES_STORAGE (snd run))
                      (order_id_of (c + Z.of_nat i))
             = Some (req_bundles r))
    /\ (forall k,
          (forall i, (i < List.length requests)%nat ->
                     k <> order_id_of (c + Z.of_nat i)) ->
          dict_get (ORDERS_DB (snd run)) k = dict_get (ORDERS_DB w) k
          /\ dict_get (BUNDLES_STORAGE (snd run)) k
             = dict_get (BUNDLES_STORAGE w) k).
Proof.
  induction requests as [|r rest IH]; intros w Hc c run.
  - subst run. simpl. split; [reflexivity|]. split; [lia|]. split.
    + intros [|i] r E; discriminate.
    + intros k _. split; reflexivity.
  - subst run. cbn [create_orders].
    rewrite (bind_ok _ _ _ (create_order_run w r)).
    set (w1 := created_world w r).
    assert (Hc1 : 0 <= ORDER_COUNTER w1) by (simpl; lia).
    destruct (IH w1 Hc1) as (Hres & Hcount & Hget & Hframe).
    change (ORDER_COUNTER w1) with (c + 1) in Hres, Hcount, Hget, Hframe.
    change (clock_reads w1) with (S (clock_reads w)) in Hget.
    cbn [bind Monad_M ret].
    destruct (create_orders rest w1) as [[others|e] w2] eqn:R;
      simpl in Hres; [|discriminate].
    injection Hres as ->. cbn [fst snd] in *.
    assert (Hfirst : forall i : nat,
               (i < List.length rest)%nat ->
               order_id_of (c + Z.of_nat 0) <> order_id_of (c + 1 + Z.of_nat i)).
    { intros i _ E. apply order_id_of_inj in E; lia. }
    split; [|split; [|split]].
    + cbn [List.length seq map]. apply f_equal. f_equal.
      * unfold created. now rewrite Z.add_0_r.
      * rewrite <- seq_shift, map_map. apply map_ext.
        intro i. f_equal. lia.
    + cbn [List.length]. lia.
    + intros [|i] r0 E; cbn [nth_error] in E.
      * injection E as <-.
        destruct (Hframe _ Hfirst) as [Fo Fb]. rewrite Fo, Fb.
        rewrite Z.add_0_r, Nat.add_0_r.
        split; apply dict_get_set_same.
      * destruct (Hget i r0 E) as [Go Gb].
        replace (c + Z.of_nat (S i)) with (c + 1 + Z.of_nat i) by lia.
        replace (clock_reads w + S i)%nat with (S (clock_reads w) + i)%nat
          by lia.
        split; assumption.
    + intros k Hk.
      destruct (Hframe k) as [Fo Fb].
      { intros i Hi. replace (c + 1 + Z.of_nat i) with (c + Z.of_nat (S i))
          by lia. apply Hk. cbn [List.length]. lia. }
      rewrite Fo, Fb.
      assert (N : order_id_of c <> k).
      { intro E. apply (Hk 0%nat); [cbn [List.length]; lia|].
        now rewrite Z.add_0_r. }
      split; apply dict_get_set_other; exact N.
Qed.

(** Stores built by [create_order] alone hold bundles only under
    identifiers that have an order. *)
Lemma created_stores_aligned (requests : list order_request) (k : string) :
  let w := snd (create_orders requests fresh_world) in
  dict_get (ORDERS_DB w) k = None -> dict_get (BUNDLES_STORAGE w) k = None.
Proof.
  intros w Ho.
  assert (H0 : 0 <= ORDER_COUNTER fresh_world) by (simpl; lia).
  destruct (create_orders_run requests fresh_world H0)
    as (_ & _ & Hget & Hframe).
  fold w in Hget, Hframe.
  change (ORDER_COUNTER fresh_world) with 1 in Hget, Hframe.
  destruct (in_dec string_dec k
              (map (fun i => order_id_of (1 + Z.of_nat i))
                   (seq 0 (List.length requests)))) as [Hin|Hout].
  - apply in_map_iff in Hin as (i & <- & Hi). apply in_seq in Hi.
    destruct (nth_error requests i) as [r|] eqn:E.
    + destruct (Hget i r E) as [Go _]. congruence.
    + apply nth_error_None in E. lia.
  - destruct (Hframe k) as [_ Fb]; [|exact Fb].
    intros i Hi ->. apply Hout. apply in_map_iff. exists i.
    split; [reflexivity | apply in_seq; lia].
Qed.

Lemma string_of_uint_length (d : uint) :
  String.length (NilEmpty.string_of_uint d) = nb_digits d.
Proof. induction d; simpl; congruence. Qed.

Lemma format_03d_length (n : Z) :
  0 <= n ->
  String.length (format_03d n)
  = Nat.max 3 (nb_digits (N.to_uint (Z.to_N n))).
Proof.
  intro Hn. assert (E : format_03d n
    = NilEmpty.string_of_uint (zero_pad 3 (N.to_uint (Z.to_N n)))).
  { destruct n; [reflexivity | reflexivity | lia]. }
  rewrite E, string_of_uint_length. unfold zero_pad.
  rewrite nb_digits_iter_D0. lia.
Qed.

(** The [create_order] branch of [execute_action] stores the bundles the
    state carries. *)
Lemma execute_action_create_order
      (state : ServiceState) (w : world) (s : string)
      (action_data : list (string * json)) :
  action state = JStr s ->
  json_loads s = Ok (JDict action_data) ->
  dict_get action_data "action" = Some (JStr "create_order") ->
  let field k := match dict_get action_data k with
                 | Some v => v
                 | None => JStr ""
                 end in
  let r := {| req_customer := field "customer"; req_email := field "email";
              req_phone := field "phone"; req_address := field "address";
              req_items := field "items"; req_bundles := bundles state |} in
  snd (execute_action state w) = created_world w r.
Proof.
  intros Ha Hl Hk field r.
  assert (F : forall k, py_get (JDict action_data) k (JStr "") = Ok (field k)).
  { intro k. unfold field. simpl. now destruct (dict_get action_data k). }
  unfold execute_action, try_except, lift, raise.
  cbn [bind Monad_M]. rewrite Ha. cbn [py_json_loads]. rewrite Hl.
  cbn [py_get]. rewrite Hk.
  unfold run_action. cbn [is_str String.eqb Ascii.eqb Bool.eqb].
  rewrite !F. unfold lift. cbn [bind Monad_M].
  pose proof (create_order_run w r) as C.
  cbn [r req_customer req_email req_phone req_address req_items
         req_bundles] in C.
  rewrite C. cbn [ret Monad_M snd fst].
  destruct (merge_step (bundles state) []); reflexivity.
Qed.

(** C9: from a fresh store the k-th [create_order] returns the identifier
    "ORD-" followed by k written in decimal and zero-filled to three
    digits, so the identifiers run ORD-001, ORD-002, ORD-003, ... without
    gap or reuse; each call stores its order with status "processing" and
    stores the bundles it was given as that order's bundle set, which in
    the pipeline are the bundles of the current state. *)
Theorem order_ids_sequential (requests : list order_request) :
  let n := List.length requests in
  let run := create_orders requests fresh_world in
  fst run = Ok (map (fun k => created (Z.of_nat k)) (seq 1 n))
  /\ ORDER_COUNTER (snd run) = 1 + Z.of_nat n
  /\ (forall i r,
        nth_error requests i = Some r ->
        dict_get (ORDERS_DB (snd run)) (order_id_of (Z.of_nat (S i)))
        = Some (order_record (req_customer r) (req_email r) (req_phone r)
                             (req_address r) (req_items r) (datetime_now i))
        /\ dict_get (BUNDLES_STORAGE (snd run)) (order_id_of (Z.of_nat (S i)))
           = Some (req_bundles r))
  /\ (forall c e p a i t,
        py_getitem (order_record c e p a i t) "status"
        = Ok (JStr "processing"))
  /\ (forall i j, 0 <= i -> 0 <= j -> order_id_of i = order_id_of j -> i = j)
  /\ (forall k, 0 <= k ->
        order_id_of k = ("ORD-" ++ format_03d k)%string
        /\ option_map N.of_uint (NilEmpty.uint_of_string (format_03d k))
           = Some (Z.to_N k)
        /\ String.length (format_03d k)
           = Nat.max 3 (nb_digits (N.to_uint (Z.to_N k))))
  /\ (order_id_of 1 = "ORD-001" /\ order_id_of 2 = "ORD-002"
      /\ order_id_of 3 = "ORD-003" /\ order_id_of 47 = "ORD-047"
      /\ order_id_of 999 = "ORD-999" /\ order_id_of 1000 = "ORD-1000")
  /\ (forall (state : ServiceState) (w : world) (s : string)
             (action_data : list (string * json)),
        action state = JStr s ->
        json_loads s = Ok (JDict action_data) ->
        dict_get action_data "action" = Some (JStr "create_order") ->
        dict_get (BUNDLES_STORAGE (snd (execute_action state w)))
                 (order_id_of (ORDER_COUNTER w))
        = Some (bundles state)).
Proof.
  intros n run.
  assert (H0 : 0 <= ORDER_COUNTER fresh_world) by (simpl; lia).
  destruct (create_orders_run requests fresh_world H0)
    as (Hres & Hcount & Hget & _).
  fold run in Hres, Hcount, Hget. fold n in Hres, Hcount.
  change (ORDER_COUNTER fresh_world) with 1 in Hres, Hcount, Hget.
  change (clock_reads fresh_world) with 0%nat in Hget.
  split; [|split; [|split; [|split; [|split; [|split; [|split]]]]]].
  - rewrite Hres. f_equal. rewrite <- seq_shift, map_map.
    apply map_ext. intro i. f_equal. lia.
  - exact Hcount.
  - intros i r E. destruct (Hget i r E) as [Go Gb].
    replace (Z.of_nat (S i)) with (1 + Z.of_nat i) by lia.
    split; assumption.
  - reflexivity.
  - exact order_id_of_inj.
  - intros k Hk. split; [reflexivity|].
    split; [now apply format_03d_decode | now apply format_03d_length].
  - repeat split.
  - intros state w s action_data Ha Hl Hk.
    rewrite (execute_action_create_order state w Ha Hl Hk).
    apply dict_get_set_same.
Qed.

(* ================================================================== *)
(** * Further properties of the merge *)

Lemma keyed_result (l : list json) :
  (forallb key_usable l = true /\ keyed l = Ok (keyed_pairs l))
  \/ (forallb key_usable l = false /\ exists msg, keyed l = Raise (TypeError msg)).
Proof.
  induction l as [|b l IH]; [left; split; reflexivity|].
  cbn [forallb keyed]. unfold key_usable at 1 3.
  assert (P : keyed_pairs (b :: l)
              = match identity_key b with
                | Some k => [(k, b)] | None => []
                end ++ keyed_pairs l) by reflexivity.
  rewrite P. unfold identity_key.
  destruct (truthy (bundle_key b)); cbn [negb orb andb app].
  - destruct (bundle_key b); cbn [py_hash bind Monad_result andb app];
      try (destruct IH as [[U E]|[U [msg E]]]; rewrite E;
           [left | right; split; [exact U | now exists msg]];
           split; [exact U | reflexivity]).
    + right. split; [reflexivity | eexists; reflexivity].
    + right. split; [reflexivity | eexists; reflexivity].
  - exact IH.
Qed.

Lemma dict_keys_from_nil {K V} `{EqKey K} (items : list (K * V)) :
  dict_keys (dict_update [] items) = firsts (map fst items).
Proof.
  rewrite dict_keys_update. simpl.
  apply forallb_filter_id, forallb_forall. reflexivity.
Qed.

Lemma last_item_In {K V} `{EqKey K} (k : K) (v : V) (items : list (K * V)) :
  last_item k items = Some v -> In (k, v) items.
Proof.
  induction items as [|[k0 v0] items IH]; simpl; [discriminate|].
  destruct (last_item k items) as [v'|].
  - intros [= ->]. right. now apply IH.
  - destruct (keqb k0 k) eqn:E; [|discriminate].
    intros [= ->]. apply keqb_eq in E. subst. now left.
Qed.

Lemma dict_get_In {K V} `{EqKey K} (d : pydict K V) (k : K) (v : V) :
  dict_get d k = Some v -> In (k, v) d.
Proof.
  induction d as [|[k0 v0] d IH]; simpl; [discriminate|].
  destruct (keqb k0 k) eqn:E.
  - intros [= ->]. apply keqb_eq in E. subst. now left.
  - intro G. right. now apply IH.
Qed.

Lemma In_dict_get {K V} `{EqKey K} (d : pydict K V) (k : K) (v : V) :
  NoDup (dict_keys d) -> In (k, v) d -> dict_get d k = Some v.
Proof.
  unfold dict_keys. induction d as [|[k0 v0] d IH]; simpl; [contradiction|].
  intros ND [E|Hin]; inversion ND as [|? ? Hnot ND']; subst.
  - injection E as -> ->. now rewrite keqb_refl.
  - rewrite keqb_neq; [now apply IH|].
    intros ->. apply Hnot. apply in_map_iff. now exists (k, v).
Qed.

Lemma firsts_NoDup {K} `{EqKey K} (ks : list K) : NoDup ks -> firsts ks = ks.
Proof.
  induction 1 as [|k ks Hk ND IH]; simpl; [reflexivity|].
  rewrite IH. f_equal. apply forallb_filter_id, forallb_forall.
  intros x Hx. apply negb_true_iff, keqb_neq. intros ->. contradiction.
Qed.

Lemma dict_get_absent {K V} `{EqKey K} (d : pydict K V) (k : K) :
  ~ In k (dict_keys d) -> dict_get d k = None.
Proof.
  unfold dict_keys. induction d as [|[k0 v0] d IH]; simpl; intro N;
    [reflexivity|].
  destruct (keqb k0 k) eqn:E.
  - apply keqb_eq in E. exfalso. apply N. now left.
  - apply IH. intro I. apply N. now right.
Qed.

Lemma dict_same {K V} `{EqKey K} (d1 d2 : pydict K V) :
  NoDup (dict_keys d1) ->
  dict_keys d1 = dict_keys d2 ->
  (forall k, dict_get d1 k = dict_get d2 k) ->
  d1 = d2.
Proof.
  unfold dict_keys. revert d2.
  induction d1 as [|[k1 v1] d1 IH]; intros [|[k2 v2] d2] ND EK EG;
    simpl in *; try discriminate; [reflexivity|].
  injection EK as -> EK. inversion ND as [|? ? Hnotin ND']; subst.
  pose proof (EG k2) as E2. simpl in E2. rewrite keqb_refl in E2.
  injection E2 as ->. f_equal. apply IH; [assumption | assumption |].
  intro k. specialize (EG k). simpl in EG.
  destruct (keqb k2 k) eqn:E; [|exact EG].
  apply keqb_eq in E. subst k.
  rewrite (dict_get_absent d1), (dict_get_absent d2);
    [reflexivity | unfold dict_keys; now rewrite <- EK | assumption].
Qed.

Lemma last_item_NoDup {K V} `{EqKey K} (d : pydict K V) (k : K) :
  NoDup (dict_keys d) -> last_item k d = dict_get d k.
Proof.
  unfold dict_keys. induction d as [|[k0 v0] d IH]; simpl; [reflexivity|].
  intro ND. inversion ND as [|? ? Hnot ND']; subst. rewrite (IH ND').
  destruct (keqb k0 k) eqn:E; [|now destruct (dict_get d k)].
  apply keqb_eq in E. subst. now rewrite dict_get_absent by exact Hnot.
Qed.

Lemma dict_update_app {K V} `{EqKey K} (d : pydict K V) (a b : list (K * V)) :
  dict_update d (a ++ b) = dict_update (dict_update d a) b.
Proof. unfold dict_update. apply fold_left_app. Qed.

(** Assigning the items of a dictionary to an empty one rebuilds it. *)
Lemma dict_update_self {K V} `{EqKey K} (d : pydict K V) :
  NoDup (dict_keys d) -> dict_update [] d = d.
Proof.
  intro ND.
  assert (KD : dict_keys (dict_update [] d) = dict_keys d).
  { rewrite dict_keys_from_nil. now apply firsts_NoDup. }
  apply dict_same.
  - now rewrite KD.
  - exact KD.
  - intro k. rewrite dict_get_update, last_item_NoDup by exact ND. simpl.
    now destruct (dict_get d k).
Qed.

(** The dictionary the loop builds: distinct keys, each bundle under its own
    identity key. *)
Lemma merged_dict (l : list json) (items : list (hkey * json)) :
  keyed l = Ok items ->
  let D := dict_update [] items in
  NoDup (dict_keys D)
  /\ (forall k b, In (k, b) D -> In b l /\ identity_key b = Some k)
  /\ (forall k, dict_get D k = last_item k items).
Proof.
  intros E D. assert (ND : NoDup (dict_keys D)).
  { unfold D. rewrite dict_keys_from_nil. apply NoDup_firsts. }
  assert (G : forall k, dict_get D k = last_item k items).
  { intro k. unfold D. rewrite dict_get_update. simpl.
    now destruct (last_item k items). }
  split; [exact ND|]. split; [|exact G].
  intros k b Hin. apply In_dict_get in Hin; [|exact ND]. rewrite G in Hin.
  apply last_item_In in Hin. exact (keyed_items _ E _ _ Hin).
Qed.

Lemma keyed_of_values (D : pydict hkey json) :
  (forall k b, In (k, b) D -> identity_key b = Some k) ->
  keyed (dict_values D) = Ok D.
Proof.
  unfold dict_values. induction D as [|[k b] D IH]; intro I; [reflexivity|].
  cbn [map snd keyed].
  pose proof (I k b (or_introl eq_refl)) as Ik. unfold identity_key in Ik.
  destruct (truthy (bundle_key b)); [|discriminate]. cbn [negb].
  destruct (py_hash (bundle_key b)) as [k'|]; [|discriminate].
  injection Ik as ->. cbn [bind Monad_result].
  rewrite IH; [reflexivity|]. intros k0 b0 Hin. apply I. now right.
Qed.

Lemma merge_bundles_dict (s n out : list json) :
  merge_bundles s n = Ok out ->
  exists items,
    keyed (s ++ n) = Ok items /\ out = dict_values (dict_update [] items).
Proof.
  unfold merge_bundles. rewrite unique_bundles_loop_keyed.
  destruct (keyed (s ++ n)) as [items|e]; simpl; [|discriminate].
  intros [= <-]. now exists items.
Qed.

Lemma NoDup_map_Some {A} (l : list A) : NoDup l -> NoDup (map Some l).
Proof.
  induction 1 as [|x l Hx ND IH]; simpl; constructor; [|exact IH].
  intro Hin. apply in_map_iff in Hin as (y & [= ->] & Hy). contradiction.
Qed.

(** X1: the merged bundles carry pairwise distinct identity keys: at most
    one bundle per key is left. *)
Theorem merge_output_keys_distinct (state_bundles new_bundles out : list json) :
  merge_bundles state_bundles new_bundles = Ok out ->
  NoDup (map identity_key out).
Proof.
  intro E. destruct (merge_bundles_dict _ _ E) as (items & K & ->).
  destruct (merged_dict _ K) as (ND & I & _).
  set (D := dict_update [] items) in *.
  assert (M : map identity_key (dict_values D) = map Some (dict_keys D)).
  { unfold dict_values, dict_keys. rewrite !map_map.
    apply map_ext_in. intros [k b] Hin. simpl. now destruct (I k b Hin). }
  rewrite M. now apply NoDup_map_Some.
Qed.

Lemma last_item_some {K V} `{EqKey K} (k : K) (v : V) (items : list (K * V)) :
  In (k, v) items -> last_item k items <> None.
Proof.
  induction items as [|[k0 v0] items IH]; simpl; intros Hin N; [exact Hin|].
  destruct (last_item k items) as [x|]; [discriminate|].
  destruct Hin as [E|Hin]; [|now apply IH].
  injection E as -> ->. now rewrite keqb_refl in N.
Qed.

Lemma keyed_complete (l : list json) (items : list (hkey * json)) :
  keyed l = Ok items ->
  forall b k, In b l -> identity_key b = Some k -> In (k, b) items.
Proof.
  revert items. induction l as [|b0 l IH]; intros items E b k Hin Ik;
    [contradiction|].
  cbn [keyed] in E. destruct Hin as [->|Hin].
  - unfold identity_key in Ik.
    destruct (truthy (bundle_key b)); [|discriminate]. cbn [negb] in E.
    destruct (py_hash (bundle_key b)) as [k'|]; [|discriminate].
    injection Ik as ->. cbn [bind Monad_result] in E.
    destruct (keyed l); [|discriminate]. injection E as <-. now left.
  - destruct (truthy (bundle_key b0)); cbn [negb] in E.
    + destruct (py_hash (bundle_key b0)) as [k'|]; [|discriminate].
      cbn [bind Monad_result] in E.
      destruct (keyed l) as [items'|]; [|discriminate].
      injection E as <-. right. now apply (IH items').
    + now apply (IH items).
Qed.

(** X2: the merge never loses coverage: every identity key that occurs in
    the input still has a bundle in the output, namely one of the input
    bundles with that key. *)
Theorem merge_keeps_every_key
        (state_bundles new_bundles out : list json) (b : json) (k : hkey) :
  merge_bundles state_bundles new_bundles = Ok out ->
  In b (state_bundles ++ new_bundles) ->
  identity_key b = Some k ->
  exists b', In b' out
             /\ In b' (state_bundles ++ new_bundles)
             /\ identity_key b' = Some k.
Proof.
  intros E Hin Ik. destruct (merge_bundles_dict _ _ E) as (items & K & ->).
  destruct (merged_dict _ K) as (ND & I & G).
  pose proof (keyed_complete _ K _ Hin Ik) as Hitem.
  destruct (last_item k items) as [b'|] eqn:L;
    [|now apply last_item_some in Hitem].
  rewrite <- G in L. apply dict_get_In in L.
  exists b'. destruct (I _ _ L) as [Hl Hk]. repeat split; try assumption.
  unfold dict_values. apply in_map_iff. now exists (k, b').
Qed.

(** X3: merging in two steps is merging at once: the outcome of a merge,
    merged with further bundles, is the merge of everything; in particular a
    merged collection merged with nothing is itself. *)
Theorem merge_in_two_steps (state_bundles new_bundles out more : list json) :
  merge_bundles state_bundles new_bundles = Ok out ->
  merge_bundles out more = merge_bundles state_bundles (new_bundles ++ more)
  /\ merge_bundles out [] = Ok out.
Proof.
  intro E. destruct (merge_bundles_dict _ _ E) as (items & K & Hout).
  destruct (merged_dict _ K) as (ND & I & _).
  set (D := dict_update [] items) in *.
  assert (KD : keyed out = Ok D).
  { rewrite Hout. apply keyed_of_values. intros k b Hin. now destruct (I k b Hin). }
  assert (Step : forall m,
             merge_bundles out m = merge_bundles state_bundles (new_bundles ++ m)).
  { intro m. unfold merge_bundles.
    rewrite !unique_bundles_loop_keyed, List.app_assoc.
    rewrite (keyed_app out m), (keyed_app (state_bundles ++ new_bundles) m).
    rewrite K, KD.
    cbn [bind Monad_result]. destruct (keyed m) as [items2|e]; [|reflexivity].
    cbn [bind ret Monad_result]. do 2 f_equal.
    rewrite !dict_update_app. fold D.
    now rewrite dict_update_self by exact ND. }
  split; [apply Step|].
  rewrite Step, List.app_nil_r. exact E.
Qed.

(** X4: the merge returns exactly when no bundle has a truthy key that
    cannot be hashed (a non-empty list or object); otherwise it raises a
    [TypeError], and returns nothing. *)
Theorem merge_returns_iff_keys_hashable (state_bundles new_bundles : list json) :
  (forallb key_usable (state_bundles ++ new_bundles) = true
   /\ exists out, merge_bundles state_bundles new_bundles = Ok out)
  \/ (forallb key_usable (state_bundles ++ new_bundles) = false
      /\ exists msg, merge_bundles state_bundles new_bundles
                     = Raise (TypeError msg)).
Proof.
  unfold merge_bundles. rewrite unique_bundles_loop_keyed.
  destruct (keyed_result (state_bundles ++ new_bundles))
    as [[U E]|[U [msg E]]]; rewrite E; cbn [bind ret Monad_result].
  - left. split; [exact U | eexists; reflexivity].
  - right. split; [exact U | now exists msg].
Qed.

Lemma identity_key_usable (b : json) (k : hkey) :
  identity_key b = Some k -> key_usable b = true.
Proof.
  unfold identity_key, key_usable.
  destruct (truthy (bundle_key b)); [|discriminate].
  now destruct (py_hash (bundle_key b)).
Qed.

Lemma keyed_pairs_all_keyed (l : list json) :
  (forall b, In b l -> identity_key b <> None) ->
  map snd (keyed_pairs l) = l
  /\ map Some (map fst (keyed_pairs l)) = map identity_key l
  /\ forallb key_usable l = true.
Proof.
  unfold keyed_pairs. induction l as [|b l IH]; intro Hk; [repeat split|].
  destruct IH as (I1 & I2 & I3); [intros x Hx; apply Hk; now right|].
  pose proof (Hk b (or_introl eq_refl)) as Hb.
  destruct (identity_key b) as [k|] eqn:E; [|contradiction].
  split; [|split].
  - simpl. rewrite E. simpl. now rewrite I1.
  - simpl. rewrite E. simpl. now rewrite I2.
  - cbn [forallb]. now rewrite (identity_key_usable _ E), I3.
Qed.

(** X5: when every bundle has an identity key and no two share one, the
    merge changes nothing: it returns the two collections concatenated. *)
Theorem merge_of_distinct_keys (state_bundles new_bundles : list json) :
  (forall b, In b (state_bundles ++ new_bundles) -> identity_key b <> None) ->
  NoDup (map identity_key (state_bundles ++ new_bundles)) ->
  merge_bundles state_bundles new_bundles = Ok (state_bundles ++ new_bundles).
Proof.
  set (l := state_bundles ++ new_bundles). intros Hk ND.
  destruct (keyed_pairs_all_keyed l Hk) as (P1 & P2 & U).
  unfold merge_bundles. fold l.
  rewrite unique_bundles_loop_keyed, (keyed_usable _ U).
  cbn [bind ret Monad_result]. f_equal.
  rewrite dict_update_self; [exact P1|].
  unfold dict_keys. rewrite <- P2 in ND.
  now apply NoDup_map_inv in ND.
Qed.

(* ================================================================== *)
(** * What the helpers and nodes leave alone *)

Section Keeps.
Variable R : world -> world -> Prop.
Hypothesis R_refl : forall w, R w w.
Hypothesis R_trans : forall w1 w2 w3, R w1 w2 -> R w2 w3 -> R w1 w3.

Lemma keeps_ret {A} (a : A) : keeps R (ret a).
Proof. intro w. apply R_refl. Qed.

Lemma keeps_lift {A} (r : result A) : keeps R (lift r).
Proof. intro w. apply R_refl. Qed.

Lemma keeps_raise {A} (e : exn) : keeps R (@raise A e).
Proof. intro w. apply R_refl. Qed.

Lemma keeps_gets {A} (f : world -> A) : keeps R (gets f).
Proof. intro w. apply R_refl. Qed.

Lemma keeps_bind {A B} (c : M A) (k : A -> M B) :
  keeps R c -> (forall a, keeps R (k a)) -> keeps R (x <- c ;; k x).
Proof.
  intros Hc Hk w. cbn [bind Monad_M]. specialize (Hc w).
  destruct (c w) as [[a|e] w1]; cbn [snd] in *; [|exact Hc].
  eapply R_trans; [exact Hc | apply Hk].
Qed.

Lemma keeps_try {A} (body : M A) (handler : exn -> M A) :
  keeps R body -> (forall e, keeps R (handler e)) ->
  keeps R (try_except body handler).
Proof.
  intros Hb Hh w. unfold try_except. specialize (Hb w).
  destruct (body w) as [[a|e] w1]; cbn [snd] in *; [exact Hb|].
  eapply R_trans; [exact Hb | apply Hh].
Qed.

Lemma keeps_for_each {A B} (l : list A) (body : B -> A -> M B) :
  (forall acc x, keeps R (body acc x)) ->
  forall acc, keeps R (for_each l acc body).
Proof.
  intro Hb. induction l as [|x l IH]; intro acc; cbn [for_each].
  - apply keeps_ret.
  - apply keeps_bind; [apply Hb | intro a; apply IH].
Qed.

Lemma keeps_if {A} (b : bool) (c1 c2 : M A) :
  keeps R c1 -> keeps R c2 -> keeps R (if b then c1 else c2).
Proof. now destruct b. Qed.

Lemma keeps_get_bundles (order_id : json) : keeps R (get_bundles order_id).
Proof.
  unfold get_bundles.
  repeat (first [apply keeps_bind | apply keeps_gets | apply keeps_lift
                | apply keeps_ret | intro]).
Qed.

Lemma keeps_lookup_order (order_id : json) : keeps R (lookup_order order_id).
Proof.
  unfold lookup_order.
  repeat (first [apply keeps_bind | apply keeps_gets | apply keeps_lift
                | apply keeps_ret | intro]).
Qed.

Lemma keeps_get_order (order_id : json) : keeps R (get_order order_id).
Proof.
  unfold get_order. apply keeps_bind; [apply keeps_lookup_order|].
  intro order. apply keeps_if; [apply keeps_ret | apply keeps_lift].
Qed.

Lemma keeps_get_all_orders : keeps R get_all_orders.
Proof.
  unfold get_all_orders.
  repeat (first [apply keeps_bind | apply keeps_gets | apply keeps_lift
                | apply keeps_ret | intro]).
Qed.

(** The two lookup branches and the fallback of [run_action]. *)
Lemma keeps_run_action (state : ServiceState) (action_data action_type : json) :
  is_str action_type "create_order" = false ->
  keeps R (run_action state action_data action_type).
Proof.
  intro N. unfold run_action. rewrite N.
  apply keeps_if; [|apply keeps_if].
  - apply keeps_bind; [apply keeps_lift | intro order_id].
    apply keeps_bind; [apply keeps_get_order | intro result].
    apply keeps_bind; [apply keeps_get_bundles | intro order_bundles].
    apply keeps_bind; [apply keeps_lift | intro; apply keeps_ret].
  - apply keeps_bind; [apply keeps_get_all_orders | intro result].
    apply keeps_bind; [apply keeps_lift | intro order_list].
    apply keeps_bind; [apply keeps_lift | intro orders].
    apply keeps_bind; [|intro; apply keeps_ret].
    apply keeps_for_each. intros acc order.
    apply keeps_bind; [apply keeps_lift | intro order_id].
    apply keeps_if; [|apply keeps_ret].
    apply keeps_bind; [apply keeps_get_bundles | intro order_bundles].
    apply keeps_bind; [apply keeps_lift | intro; apply keeps_ret].
  - apply keeps_ret.
Qed.
End Keeps.

Lemma same_store_refl (w : world) : same_store w w.
Proof. repeat split. Qed.

Lemma same_store_trans (w1 w2 w3 : world) :
  same_store w1 w2 -> same_store w2 w3 -> same_store w1 w3.
Proof.
  unfold same_store. intros (A1 & A2 & A3 & A4 & A5) (B1 & B2 & B3 & B4 & B5).
  repeat split; congruence.
Qed.

Lemma same_log_trans (w1 w2 w3 : world) :
  same_log w1 w2 -> same_log w2 w3 -> same_log w1 w3.
Proof. unfold same_log. congruence. Qed.

Lemma keeps_store_post (url : string) (payload : json) :
  keeps same_store (post url payload).
Proof. intro w. repeat split. Qed.

Lemma is_str_false (a : json) (s : string) :
  a <> JStr s -> is_str a s = false.
Proof.
  destruct a; try reflexivity. intro N. simpl.
  destruct (String.eqb s0 s) eqn:E; [|reflexivity].
  apply String.eqb_eq in E. now subst.
Qed.

(** X6: [execute_action] changes nothing in the world unless the action it
    reads is [create_order]: lookups, listings, unknown actions and every
    failure leave the store, the files and the request log as they were. *)
Theorem execute_action_writes_only_on_create
        (state : ServiceState) (w : world) :
  requested_action state <> Ok (JStr "create_order") ->
  snd (execute_action state w) = w.
Proof.
  unfold requested_action, execute_action. intro N.
  cbn [bind Monad_M Monad_result] in *. unfold lift at 1.
  destruct (py_json_loads (action state)) as [action_data|e]; [|reflexivity].
  unfold lift at 1.
  destruct (py_get action_data "action" JNull) as [action_type|e];
    [|reflexivity].
  assert (K : keeps eq
                (try_except
                   (outcome <- run_action state action_data action_type ;;
                    final_bundles <- lift (merge_step (bundles state)
                                                      (snd outcome)) ;;
                    ret (with_result state (JStr (json_dumps (fst outcome)))
                                     (JList final_bundles)))
                   (fun e =>
                      raise (RuntimeError
                               ("Business logic failure: " ++ str_exn e))))).
  { apply keeps_try; try congruence; [|intro; now apply keeps_raise].
    apply keeps_bind; try congruence.
    - apply keeps_run_action; try congruence.
      apply is_str_false. congruence.
    - intro outcome. apply keeps_bind; try congruence.
      + now apply keeps_lift.
      + intro. now apply keeps_ret. }
  symmetry. apply K.
Qed.

(** X7: steps 1, 2 and 4 and the decrypted lookup never write to the store:
    orders, bundle sets, counter and both files are the same afterwards,
    whatever the collaborators answer. *)
Theorem only_execute_action_writes_the_store
        (state : ServiceState) (order_id : json) :
  keeps same_store (process_input state)
  /\ keeps same_store (determine_action state)
  /\ keeps same_store (format_response state)
  /\ keeps same_store (get_order_decrypted order_id).
Proof.
  pose proof same_store_refl as Rf. pose proof same_store_trans as Rt.
  assert (L : forall A (r : result A), keeps same_store (lift r))
    by (intros; now apply keeps_lift).
  assert (Rs : forall A (e : exn), keeps same_store (@raise A e))
    by (intros; now apply keeps_raise).
  assert (Rr : forall A (a : A), keeps same_store (ret a))
    by (intros; now apply keeps_ret).
  assert (B : forall A B (c : M A) (k : A -> M B),
             keeps same_store c -> (forall a, keeps same_store (k a)) ->
             keeps same_store (x <- c ;; k x))
    by (intros; now apply keeps_bind).
  assert (T : forall A (b : M A) (h : exn -> M A),
             keeps same_store b -> (forall e, keeps same_store (h e)) ->
             keeps same_store (try_except b h))
    by (intros; now apply keeps_try).
  pose proof keeps_store_post as P.
  split; [|split; [|split]].
  - unfold process_input. apply T; [|intro; apply Rs].
    repeat (apply B; [first [apply P | apply L] | intro]). apply Rr.
  - unfold determine_action. apply T; [|intro; apply Rs].
    repeat (apply B; [apply L | intro]). apply Rr.
  - unfold format_response. apply T; [|intro; apply Rs].
    apply B; [apply L | intro agent_text].
    apply B; [apply L | intro].
    apply T; [|intro; apply Rs].
    unfold final_decrypt.
    repeat (apply B; [first [apply P | apply L] | intro]). apply Rr.
  - unfold get_order_decrypted.
    apply B; [now apply keeps_lookup_order | intro order].
    apply keeps_if; [apply Rr|].
    apply B; [now apply keeps_get_bundles | intro stored].
    apply keeps_if; [apply L|].
    apply T; [|intro; apply L].
    repeat (apply B; [first [apply P | apply L] | intro]). apply L.
Qed.

(* ================================================================== *)
(** * What leaves the nodes: errors, states, requests *)

Lemma try_raising_inv_raise {A} (body : M A) (f : exn -> exn)
      (w w' : world) (e : exn) :
  try_except body (fun c => raise (f c)) w = (Raise e, w') ->
  exists cause, body w = (Raise cause, w') /\ e = f cause.
Proof.
  unfold try_except, raise. destruct (body w) as [[a|c] w1]; intro E.
  - discriminate.
  - injection E as <- <-. now exists c.
Qed.

Lemma lift_inv_ok {A B} (r : result A) (k : A -> M B) (w w' : world) (b : B) :
  (x <- lift r ;; k x) w = (Ok b, w') ->
  exists a, r = Ok a /\ k a w = (Ok b, w').
Proof.
  intro E. apply bind_inv_ok in E as (a & w1 & L & E).
  unfold lift in L. injection L as -> <-. now exists a.
Qed.

(** X8: steps 1, 2 and 4 raise nothing but the pipeline error, each under
    its own prefix, whatever goes wrong inside. *)
Theorem nodes_raise_only_runtime_error
        (state : ServiceState) (w : world) (e : exn) :
  (fst (process_input state w) = Raise e ->
   exists cause,
     e = RuntimeError ("Cryptor detect-encrypt failure: " ++ str_exn cause))
  /\ (fst (determine_action state w) = Raise e ->
      exists cause,
        e = RuntimeError ("Language model action failure: " ++ str_exn cause))
  /\ (fst (format_response state w) = Raise e ->
      exists cause,
        e = RuntimeError ("Response generation failed: " ++ str_exn cause)).
Proof.
  split; [|split]; intro E.
  - destruct (process_input state w) as [r w'] eqn:P. simpl in E. subst r.
    apply try_raising_inv_raise in P as (c & _ & ->). now exists c.
  - destruct (determine_action state w) as [r w'] eqn:P. simpl in E. subst r.
    apply try_raising_inv_raise in P as (c & _ & ->). now exists c.
  - destruct (format_response state w) as [r w'] eqn:P. simpl in E. subst r.
    apply try_raising_inv_raise in P as (c & _ & ->). now exists c.
Qed.

(** X9: [execute_action] wraps what goes wrong inside its [try] as the
    pipeline error "Business logic failure: ..."; what goes wrong while it
    reads the action (an unset action, text that does not parse, a value that
    is no object) leaves it unwrapped, with the world untouched. *)
Theorem execute_action_error_kinds
        (state : ServiceState) (w : world) (e : exn) :
  (forall a, requested_action state = Ok a ->
             fst (execute_action state w) = Raise e ->
             exists cause,
               e = RuntimeError ("Business logic failure: " ++ str_exn cause))
  /\ (requested_action state = Raise e ->
      execute_action state w = (Raise e, w))
  /\ (action state = JNull ->
      exists msg, execute_action state w = (Raise (TypeError msg), w)).
Proof.
  unfold requested_action, execute_action.
  cbn [bind Monad_M Monad_result]. unfold lift at 1 3 5.
  split; [|split].
  - intros a Ha E.
    destruct (py_json_loads (action state)) as [data|]; [|discriminate].
    unfold lift at 1 in E. rewrite Ha in E.
    match type of E with fst (?c w) = _ =>
      destruct (c w) as [r w'] eqn:P end.
    simpl in E. subst r.
    apply try_raising_inv_raise in P as (c & _ & ->). now exists c.
  - intro Ha.
    destruct (py_json_loads (action state)) as [data|e0];
      [|now injection Ha as ->].
    unfold lift at 1. now rewrite Ha.
  - intros ->. cbn [py_json_loads]. eexists. reflexivity.
Qed.

(** X10: a state that leaves [process_input] was built from a response with
    a success status whose body is an object holding the redacted text, the
    bundles and the tenant; the bundles have a length, and every other field
    of the state is as it came in. *)
Theorem process_input_returns_decoded_response
        (state s' : ServiceState) (w w' : world) :
  process_input state w = (Ok s', w') ->
  exists resp data,
    requests_post (CRYPTOR_SERVICE_URL ++ "/v1/detect-encrypt")%string
                  (detect_payload (user_input state)) = Ok resp
    /\ raise_for_status resp = Ok tt
    /\ resp_json resp = Ok data
    /\ py_getitem data "text_with_placeholders" = Ok (encrypted_input s')
    /\ py_getitem data "bundles" = Ok (bundles s')
    /\ py_getitem data "tenant_id" = Ok (tenant_id s')
    /\ (exists n, py_len (bundles s') = Ok n)
    /\ s' = with_detected state (encrypted_input s') (bundles s') (tenant_id s').
Proof.
  unfold process_input. intro E. apply try_raising_inv_ok in E.
  apply bind_inv_ok in E as (resp & w1 & P & E).
  unfold post in P. injection P as P <-.
  apply lift_inv_ok in E as ([] & S & E).
  apply lift_inv_ok in E as (data & J & E).
  apply lift_inv_ok in E as (logged & B1 & E).
  apply lift_inv_ok in E as (n & Ln & E).
  apply lift_inv_ok in E as (t & Tx & E).
  apply lift_inv_ok in E as (b & B2 & E).
  apply lift_inv_ok in E as (tn & Tn & E).
  injection E as <- _. exists resp, data. cbn [with_detected encrypted_input
    bundles tenant_id]. repeat split; try assumption.
  exists n. congruence.
Qed.

(** X11: [determine_action] never touches the world, and a state that leaves
    it carries, as its action, the serialisation of a parsed object that has
    an [action] entry. *)
Theorem determine_action_returns_parsed_object
        (state : ServiceState) (w : world) :
  snd (determine_action state w) = w
  /\ (forall s', fst (determine_action state w) = Ok s' ->
        exists text data a,
          generate_content (ActionPrompt (encrypted_input state)) = Ok text
          /\ json_loads (json_span (strip text)) = Ok data
          /\ py_getitem data "action" = Ok a
          /\ s' = with_action state (JStr (json_dumps data))).
Proof.
  split.
  - unfold determine_action, try_except, lift, raise. cbn [bind Monad_M].
    destruct (generate_content _) as [text|]; [|reflexivity].
    destruct (json_loads _) as [data|]; [|reflexivity].
    now destruct (py_getitem data "action").
  - intros s' E. destruct (determine_action state w) as [r w'] eqn:P.
    simpl in E. subst r. unfold determine_action in P.
    apply try_raising_inv_ok in P.
    apply lift_inv_ok in P as (text & G & P).
    apply lift_inv_ok in P as (data & L & P).
    apply lift_inv_ok in P as (a & K & P).
    injection P as <- _. now exists text, data, a.
Qed.


Lemma process_input_world (state : ServiceState) (w : world) :
  snd (process_input state w)
  = log_request w (CRYPTOR_SERVICE_URL ++ "/v1/detect-encrypt")%string
                (detect_payload (user_input state)).
Proof.
  unfold process_input, try_except, post, lift, raise, detect_payload.
  cbn [bind Monad_M].
  destruct (requests_post _ _) as [resp|]; [|reflexivity].
  destruct (raise_for_status resp); [|reflexivity].
  destruct (resp_json resp) as [data|]; [|reflexivity].
  destruct (py_getitem data "bundles") as [b|]; [|reflexivity].
  destruct (py_len b); [|reflexivity].
  destruct (py_getitem data "text_with_placeholders"); [|reflexivity].
  destruct (py_getitem data "tenant_id"); reflexivity.
Qed.

Lemma determine_action_world (state : ServiceState) (w : world) :
  snd (determine_action state w) = w.
Proof.
  unfold determine_action, try_except, lift, raise. cbn [bind Monad_M].
  destruct (generate_content _) as [text|]; [|reflexivity].
  destruct (json_loads _) as [data|]; [|reflexivity].
  now destruct (py_getitem data "action").
Qed.

Lemma create_order_log (customer email phone address items stored : json) :
  keeps same_log (create_order customer email phone address items stored).
Proof. intro w. reflexivity. Qed.

Ltac keeps_log :=
  repeat first
    [ assumption
    | apply create_order_log
    | apply keeps_get_order | apply keeps_get_bundles
    | apply keeps_get_all_orders
    | apply keeps_ret | apply keeps_lift | apply keeps_raise
    | apply keeps_if | apply keeps_for_each | apply keeps_try
    | apply keeps_bind
    | match goal with |- forall _, _ => intro end ].

Lemma execute_action_log (state : ServiceState) :
  keeps same_log (execute_action state).
Proof.
  assert (Rf : forall w, same_log w w) by reflexivity.
  pose proof same_log_trans as Rt.
  unfold execute_action, run_action. keeps_log.
Qed.

Lemma format_response_world (state : ServiceState) (w : world) :
  snd (format_response state w) = w
  \/ exists agent_text,
       snd (format_response state w)
       = log_request w (CRYPTOR_SERVICE_URL ++ "/v1/decrypt")%string
                     (reveal_payload state agent_text).
Proof.
  unfold format_response, final_decrypt, try_except, post, lift, raise,
    reveal_payload.
  cbn [bind Monad_M].
  destruct (generate_content _) as [agent_text|]; [|now left].
  destruct (py_len (bundles state)); [|now left].
  right. exists agent_text.
  destruct (requests_post _ _) as [resp|]; [|reflexivity].
  destruct (raise_for_status resp); [|reflexivity].
  destruct (resp_json resp) as [data|]; [|reflexivity].
  destruct (py_getitem data "text"); reflexivity.
Qed.

(** X13: whatever happens, one run sends the customer text to the
    detect-encrypt endpoint first and then at most one more request, the
    decrypt of the draft; steps 2 and 3 send nothing. *)
Theorem run_sends_at_most_two_requests (text : string) (w : world) :
  exists rest,
    http_log (snd (invoke text w))
    = http_log w
      ++ ((CRYPTOR_SERVICE_URL ++ "/v1/detect-encrypt")%string,
          detect_payload text) :: rest
    /\ (rest = []
        \/ exists s3 agent_text,
             rest = [((CRYPTOR_SERVICE_URL ++ "/v1/decrypt")%string,
                      reveal_payload s3 agent_text)]).
Proof.
  unfold invoke. cbn [bind Monad_M].
  pose proof (process_input_world (initial_state text) w) as P1.
  destruct (process_input (initial_state text) w) as [[s1|e] w1];
    cbn [snd] in P1; subst w1; cbn [snd];
    [|exists []; split; [reflexivity | now left]].
  pose proof (determine_action_world s1
                (log_request w (CRYPTOR_SERVICE_URL ++ "/v1/detect-encrypt")
                             (detect_payload (user_input (initial_state text)))))
    as P2.
  destruct (determine_action s1 _) as [[s2|e] w2]; cbn [snd] in P2; subst w2;
    cbn [snd]; [|exists []; split; [reflexivity | now left]].
  pose proof (execute_action_log s2
                (log_request w (CRYPTOR_SERVICE_URL ++ "/v1/detect-encrypt")
                             (detect_payload (user_input (initial_state text)))))
    as P3.
  destruct (execute_action s2 _) as [[s3|e] w3]; cbn [snd] in P3;
    unfold same_log in P3; cbn [snd];
    [|exists []; split; [exact P3 | now left]].
  destruct (format_response_world s3 w3) as [F|[agent_text F]]; rewrite F.
  - exists []. split; [exact P3 | now left].
  - exists [((CRYPTOR_SERVICE_URL ++ "/v1/decrypt")%string,
             reveal_payload s3 agent_text)].
    split; [|right; now exists s3, agent_text].
    cbn [log_request http_log]. rewrite P3. cbn [log_request http_log].
    now rewrite <- List.app_assoc.
Qed.

(* ================================================================== *)
(** * The branches of [execute_action] *)

(** X14: a [get_order] for an order that is in the store returns its fields
    with [order_id] added and contributes its stored bundle set, so the
    bundles after step 3 are the incoming bundles merged with the stored
    ones; the world is left as it was. *)
Theorem get_order_hit
        (state : ServiceState) (w : world) (s oid : string)
        (action_data fields : list (string * json)) (stored l : list json) :
  action state = JStr s ->
  json_loads s = Ok (JDict action_data) ->
  dict_get action_data "action" = Some (JStr "get_order") ->
  dict_get action_data "order_id" = Some (JStr oid) ->
  dict_get (ORDERS_DB w) oid = Some (JDict fields) ->
  fields <> [] ->
  dict_get (BUNDLES_STORAGE w) oid = Some (JList stored) ->
  bundles state = JList l ->
  let found := JDict (dict_update fields [("order_id", JStr oid)]) in
  get_order (JStr oid) w = (Ok found, w)
  /\ execute_action state w
     = (match merge_bundles l stored with
        | Ok final_bundles =>
            Ok (with_result state (JStr (json_dumps found))
                            (JList final_bundles))
        | Raise e =>
            Raise (RuntimeError ("Business logic failure: " ++ str_exn e))
        end, w).
Proof.
  intros Ha Hl Hk Hid Ho Hne Hb Hs found.
  assert (G : get_order (JStr oid) w = (Ok found, w)).
  { unfold get_order.
    rewrite (bind_ok _ _ _ (lookup_order_found _ _ Ho)).
    assert (T : truthy (JDict fields) = true) by (now destruct fields).
    now rewrite T. }
  split; [exact G|].
  apply execute_action_run with (s := s) (action_data := JDict action_data)
                                (action_type := JStr "get_order");
    try assumption.
  - simpl. now rewrite Hk.
  - unfold run_action. cbn [is_str String.eqb Ascii.eqb Bool.eqb].
    cbn [py_get]. rewrite Hid.
    rewrite (bind_ok _ _ _ (lift_run _ _)).
    rewrite (bind_ok _ _ _ G).
    rewrite (bind_ok _ _ _ (get_bundles_stored_list _ _ Hb)). reflexivity.
Qed.

Lemma list_orders_loop (db : list (string * json)) :
  (forall entry, In entry db -> exists fields, snd entry = JDict fields) ->
  forall acc : list json,
    for_each db acc
      (fun acc entry =>
         o <- py_spread (snd entry) [("order_id", JStr (fst entry))] ;;
         ret (acc ++ [o]))
    = Ok (acc ++ map listed_order db).
Proof.
  induction db as [|[oid o] db IH]; intros Hd acc; cbn [for_each map].
  - cbn [ret Monad_result]. now rewrite List.app_nil_r.
  - destruct (Hd (oid, o) (or_introl eq_refl)) as [fields E].
    cbn [snd fst] in *. subst o. unfold listed_order at 1.
    cbn [py_spread bind Monad_result ret snd fst].
    rewrite IH by (intros entry Hin; apply Hd; now right).
    now rewrite <- List.app_assoc.
Qed.

Lemma get_all_orders_run (w : world) :
  (forall entry, In entry (ORDERS_DB w) -> exists fields, snd entry = JDict fields) ->
  get_all_orders w
  = (Ok (JDict [("orders", JList (map listed_order (ORDERS_DB w)));
                ("total", JInt (Z.of_nat (List.length (ORDERS_DB w))))]), w).
Proof.
  intro Hd. unfold get_all_orders, gets, lift. cbn [bind Monad_M].
  rewrite (list_orders_loop _ Hd). cbn [ret Monad_M].
  change ([] ++ map listed_order (ORDERS_DB w))
    with (map listed_order (ORDERS_DB w)).
  now rewrite length_map.
Qed.

Lemma collect_loop (w : world) (db : list (string * json)) :
  (forall entry, In entry db -> exists fields, snd entry = JDict fields) ->
  (forall oid v, dict_get (BUNDLES_STORAGE w) oid = Some v ->
                 exists l, v = JList l) ->
  forall acc : list json,
    for_each (map listed_order db) acc
      (fun new_bundles order =>
         order_id <- lift (py_get order "order_id" JNull) ;;
         if truthy order_id then
           order_bundles <- get_bundles order_id ;;
           extended <- lift (py_iter order_bundles) ;;
           ret (new_bundles ++ extended)
         else ret new_bundles) w
    = (Ok (acc ++ flat_map (collected_for w) db), w).
Proof.
  intros Hd Hb. induction db as [|[oid o] db IH]; intro acc;
    cbn [map for_each flat_map].
  - cbn [ret Monad_M]. now rewrite List.app_nil_r.
  - destruct (Hd (oid, o) (or_introl eq_refl)) as [fields E].
    cbn [snd] in E. subst o.
    assert (G : py_get (listed_order (oid, JDict fields)) "order_id" JNull
                = Ok (JStr oid)).
    { unfold listed_order. cbn [snd fst py_get dict_update fold_left].
      now rewrite dict_get_set_same. }
    assert (Step :
      (order_id <- lift (py_get (listed_order (oid, JDict fields))
                                "order_id" JNull) ;;
       if truthy order_id then
         order_bundles <- get_bundles order_id ;;
         extended <- lift (py_iter order_bundles) ;;
         ret (acc ++ extended)
       else ret acc) w
      = (Ok (acc ++ collected_for w (oid, JDict fields)), w)).
    { rewrite G. rewrite (bind_ok _ _ _ (lift_run _ _)).
      unfold collected_for. cbn [truthy fst].
      destruct (String.eqb oid "") eqn:Eo; cbn [negb].
      - cbn [ret Monad_M]. now rewrite List.app_nil_r.
      - destruct (dict_get (BUNDLES_STORAGE w) oid) as [v|] eqn:Ev.
        + destruct (Hb _ _ Ev) as [l ->].
          now rewrite (bind_ok _ _ _ (get_bundles_stored_list _ _ Ev)).
        + rewrite (bind_ok _ _ _ (get_bundles_missing _ _ Ev)).
          reflexivity. }
    rewrite (bind_ok _ _ _ Step).
    rewrite IH by (intros entry Hin; apply Hd; now right).
    now rewrite <- List.app_assoc.
Qed.

(** X15: a [get_all_orders] over a store of order records lists every order
    with its identifier, in store order, with their number as [total], and
    contributes the stored bundle sets of all of them, in that order; the
    world is left as it was. *)
Theorem get_all_orders_collects_every_bundle_set
        (state : ServiceState) (w : world) (s : string)
        (action_data : list (string * json)) (l : list json) :
  action state = JStr s ->
  json_loads s = Ok (JDict action_data) ->
  dict_get action_data "action" = Some (JStr "get_all_orders") ->
  (forall entry, In entry (ORDERS_DB w) -> exists fields, snd entry = JDict fields) ->
  (forall oid v, dict_get (BUNDLES_STORAGE w) oid = Some v ->
                 exists stored, v = JList stored) ->
  bundles state = JList l ->
  let listing :=
    JDict [("orders", JList (map listed_order (ORDERS_DB w)));
           ("total", JInt (Z.of_nat (List.length (ORDERS_DB w))))] in
  get_all_orders w = (Ok listing, w)
  /\ execute_action state w
     = (match merge_bundles l (flat_map (collected_for w) (ORDERS_DB w)) with
        | Ok final_bundles =>
            Ok (with_result state (JStr (json_dumps listing))
                            (JList final_bundles))
        | Raise e =>
            Raise (RuntimeError ("Business logic failure: " ++ str_exn e))
        end, w).
Proof.
  intros Ha Hl Hk Hd Hb Hs listing.
  pose proof (get_all_orders_run w Hd) as G. fold listing in G.
  split; [exact G|].
  apply execute_action_run with (s := s) (action_data := JDict action_data)
                                (action_type := JStr "get_all_orders");
    try assumption.
  - simpl. now rewrite Hk.
  - unfold run_action. cbn [is_str String.eqb Ascii.eqb Bool.eqb].
    rewrite (bind_ok _ _ _ G). unfold listing at 1.
    cbn [py_get dict_get keqb EqKey_string String.eqb Ascii.eqb Bool.eqb].
    rewrite (bind_ok _ _ _ (lift_run _ _)). cbn [py_iter].
    rewrite (bind_ok _ _ _ (lift_run _ _)).
    rewrite (bind_ok _ _ _ (collect_loop w _ Hd Hb [])). reflexivity.
Qed.

(** X16: a [create_order] is not undone when the merge that follows it
    fails: the node raises the pipeline error, and the new order, its bundle
    set, the advanced counter and both files stay written. *)
Theorem create_order_is_not_rolled_back
        (state : ServiceState) (w : world) (s : string)
        (action_data : list (string * json)) (e : exn) :
  action state = JStr s ->
  json_loads s = Ok (JDict action_data) ->
  dict_get action_data "action" = Some (JStr "create_order") ->
  merge_step (bundles state) [] = Raise e ->
  let field k := match dict_get action_data k with
                 | Some v => v
                 | None => JStr ""
                 end in
  let r := {| req_customer := field "customer"; req_email := field "email";
              req_phone := field "phone"; req_address := field "address";
              req_items := field "items"; req_bundles := bundles state |} in
  execute_action state w
  = (Raise (RuntimeError ("Business logic failure: " ++ str_exn e)),
     created_world w r).
Proof.
  intros Ha Hl Hk Hm field r.
  assert (F : forall k, py_get (JDict action_data) k (JStr "") = Ok (field k)).
  { intro k. unfold field. simpl. now destruct (dict_get action_data k). }
  unfold execute_action, try_except, lift, raise.
  cbn [bind Monad_M]. rewrite Ha. cbn [py_json_loads]. rewrite Hl.
  cbn [py_get]. rewrite Hk.
  unfold run_action. cbn [is_str String.eqb Ascii.eqb Bool.eqb].
  rewrite !F. unfold lift. cbn [bind Monad_M].
  pose proof (create_order_run w r) as C.
  cbn [r req_customer req_email req_phone req_address req_items
         req_bundles] in C.
  rewrite C. cbn [ret Monad_M snd fst]. now rewrite Hm.
Qed.

(* ================================================================== *)
(** * The decrypted lookup *)

(** X17: the decrypted lookup of an identifier with no order (none, or an
    empty record) answers "Order not found" and sends nothing; for an order
    with a non-empty bundle list and a decrypt response that decodes to a
    record, it returns that record with [order_id] added, after exactly one
    request carrying the tenant, the serialised order and the stored
    bundles. *)
Theorem get_order_decrypted_outcomes (w : world) (oid : string) :
  (dict_get (ORDERS_DB w) oid = None
   \/ dict_get (ORDERS_DB w) oid = Some (JDict []) ->
   get_order_decrypted (JStr oid) w
   = (Ok (JDict [("error", JStr "Order not found")]), w))
  /\ (forall fields b bl resp data text decrypted,
        dict_get (ORDERS_DB w) oid = Some (JDict fields) ->
        fields <> [] ->
        dict_get (BUNDLES_STORAGE w) oid = Some (JList (b :: bl)) ->
        let url := (CRYPTOR_SERVICE_URL ++ "/v1/decrypt")%string in
        let payload :=
          JDict [("tenant_id", JStr TENANT);
                 ("text_with_placeholders", JStr (json_dumps (JDict fields)));
                 ("bundles", JList (b :: bl))] in
        requests_post url payload = Ok resp ->
        raise_for_status resp = Ok tt ->
        resp_json resp = Ok data ->
        py_getitem data "text" = Ok (JStr text) ->
        json_loads text = Ok (JDict decrypted) ->
        get_order_decrypted (JStr oid) w
        = (Ok (JDict (dict_update decrypted [("order_id", JStr oid)])),
           log_request w url payload)).
Proof.
  split.
  - intros [Ho|Ho]; unfold get_order_decrypted.
    + now rewrite (bind_ok _ _ _ (lookup_order_missing _ _ Ho)).
    + now rewrite (bind_ok _ _ _ (lookup_order_found _ _ Ho)).
  - intros fields b bl resp data text decrypted Ho Hne Hb url payload
           P S J Tx L.
    unfold get_order_decrypted.
    rewrite (bind_ok _ _ _ (lookup_order_found _ _ Ho)).
    assert (T : truthy (JDict fields) = true) by (now destruct fields).
    rewrite T. cbn [negb].
    rewrite (bind_ok _ _ _ (get_bundles_stored_list _ _ Hb)).
    cbn [truthy negb]. fold url. fold payload.
    unfold try_except, post, lift. cbn [bind Monad_M].
    rewrite P, S, J, Tx. cbn [py_json_loads]. rewrite L. reflexivity.
Qed.

(* ================================================================== *)
(** * The store over time *)

Lemma snd_bind_ret {A B} (c : M A) (f : A -> B) (w : world) :
  snd ((x <- c ;; ret (f x)) w) = snd (c w).
Proof. cbn [bind ret Monad_M]. now destruct (c w) as [[a|e] w']. Qed.

Lemma created_world_in_step (w : world) (r : order_request) :
  files_in_step (created_world w r).
Proof. split; reflexivity. Qed.

Lemma create_orders_in_step (requests : list order_request) :
  forall w, files_in_step w -> files_in_step (snd (create_orders requests w)).
Proof.
  induction requests as [|r rest IH]; intros w Hw; [exact Hw|].
  cbn [create_orders]. rewrite (bind_ok _ _ _ (create_order_run w r)).
  rewrite snd_bind_ret. apply IH, created_world_in_step.
Qed.

Lemma dict_keys_set_new {K V} `{EqKey K} (d : pydict K V) (k : K) (v : V) :
  ~ In k (dict_keys d) -> dict_keys (dict_set d k v) = dict_keys d ++ [k].
Proof.
  intro N. rewrite dict_keys_set.
  destruct (key_in (dict_keys d) k) eqn:E; [|reflexivity].
  apply key_in_spec in E. contradiction.
Qed.

Lemma dict_keys_set_old {K V} `{EqKey K} (d : pydict K V) (k : K) (v : V) :
  In k (dict_keys d) -> dict_keys (dict_set d k v) = dict_keys d.
Proof.
  intro N. rewrite dict_keys_set.
  apply key_in_spec in N. now rewrite N.
Qed.

Lemma create_orders_keys (requests : list order_request) :
  forall w : world,
    0 <= ORDER_COUNTER w ->
    let c := ORDER_COUNTER w in
    let ids := map (fun i => order_id_of (c + Z.of_nat i))
                   (seq 0 (List.length requests)) in
    (forall k i, In k (dict_keys (ORDERS_DB w)) ->
                 k <> order_id_of (c + Z.of_nat i)) ->
    (forall k i, In k (dict_keys (BUNDLES_STORAGE w)) ->
                 k <> order_id_of (c + Z.of_nat i)) ->
    dict_keys (ORDERS_DB (snd (create_orders requests w)))
    = dict_keys (ORDERS_DB w) ++ ids
    /\ dict_keys (BUNDLES_STORAGE (snd (create_orders requests w)))
       = dict_keys (BUNDLES_STORAGE w) ++ ids.
Proof.
  induction requests as [|r rest IH]; intros w Hc c ids Ho Hb.
  - subst ids. simpl. now rewrite !List.app_nil_r.
  - cbn [create_orders]. rewrite (bind_ok _ _ _ (create_order_run w r)).
    set (w1 := created_world w r).
    assert (No : ~ In (order_id_of c) (dict_keys (ORDERS_DB w))).
    { intro Hin. apply (Ho _ 0%nat Hin). now rewrite Z.add_0_r. }
    assert (Nb : ~ In (order_id_of c) (dict_keys (BUNDLES_STORAGE w))).
    { intro Hin. apply (Hb _ 0%nat Hin). now rewrite Z.add_0_r. }
    assert (Ko : dict_keys (ORDERS_DB w1)
                 = dict_keys (ORDERS_DB w) ++ [order_id_of c])
      by (apply dict_keys_set_new; exact No).
    assert (Kb : dict_keys (BUNDLES_STORAGE w1)
                 = dict_keys (BUNDLES_STORAGE w) ++ [order_id_of c])
      by (apply dict_keys_set_new; exact Nb).
    assert (Hc1 : 0 <= ORDER_COUNTER w1) by (simpl; lia).
    destruct (IH w1 Hc1) as [Io Ib].
    + intros k i Hin. rewrite Ko in Hin.
      change (ORDER_COUNTER w1) with (c + 1).
      apply in_app_or in Hin as [Hin|[<-|[]]].
      * replace (c + 1 + Z.of_nat i) with (c + Z.of_nat (S i)) by lia.
        now apply Ho.
      * intro E. apply order_id_of_inj in E; lia.
    + intros k i Hin. rewrite Kb in Hin.
      change (ORDER_COUNTER w1) with (c + 1).
      apply in_app_or in Hin as [Hin|[<-|[]]].
      * replace (c + 1 + Z.of_nat i) with (c + Z.of_nat (S i)) by lia.
        now apply Hb.
      * intro E. apply order_id_of_inj in E; lia.
    + change (ORDER_COUNTER w1) with (c + 1) in Io, Ib.
      rewrite snd_bind_ret, Io, Ib, Ko, Kb. subst ids.
      cbn [List.length seq map].
      rewrite <- !List.app_assoc, Z.add_0_r, <- seq_shift, map_map.
      split; f_equal; simpl; f_equal; apply map_ext; intro i; f_equal; lia.
Qed.

(** X18: after any number of creations from a fresh store, the order store
    and the bundle store list the same identifiers, ORD-001 onwards in
    creation order, and once an order was created both files hold exactly
    what is in memory. *)
Theorem created_stores_list_the_same_ids (requests : list order_request) :
  let w := snd (create_orders requests fresh_world) in
  let ids := map (fun k => order_id_of (Z.of_nat k))
                 (seq 1 (List.length requests)) in
  dict_keys (ORDERS_DB w) = ids
  /\ dict_keys (BUNDLES_STORAGE w) = ids
  /\ (requests <> [] -> files_in_step w).
Proof.
  intros w ids.
  assert (H0 : 0 <= ORDER_COUNTER fresh_world) by (simpl; lia).
  destruct (create_orders_keys requests fresh_world H0) as [Ko Kb];
    try (intros k i []).
  fold w in Ko, Kb. cbn [fresh_world ORDERS_DB BUNDLES_STORAGE dict_keys map
                           app ORDER_COUNTER] in Ko, Kb.
  assert (E : map (fun i => order_id_of (1 + Z.of_nat i))
                  (seq 0 (List.length requests)) = ids).
  { subst ids. rewrite <- seq_shift, map_map. apply map_ext.
    intro i. f_equal. lia. }
  rewrite E in Ko, Kb. split; [exact Ko|]. split; [exact Kb|].
  intro Hne. subst w. destruct requests as [|r rest]; [contradiction|].
  cbn [create_orders].
  rewrite (bind_ok _ _ _ (create_order_run fresh_world r)).
  rewrite snd_bind_ret. apply create_orders_in_step, created_world_in_step.
Qed.

(** X19: what [create_order] saved, a new process loads back: after a
    creation in any world, restarting over the same files restores the order
    store, the bundle store and the counter, so numbering goes on where it
    stopped. *)
Theorem created_order_survives_restart (w : world) (r : order_request) :
  let w1 := snd (create_order (req_customer r) (req_email r) (req_phone r)
                              (req_address r) (req_items r) (req_bundles r) w) in
  exists w2,
    load_db (restart w1) = Some w2
    /\ ORDERS_DB w2 = ORDERS_DB w1
    /\ BUNDLES_STORAGE w2 = BUNDLES_STORAGE w1
    /\ ORDER_COUNTER w2 = ORDER_COUNTER w1
    /\ dict_get (ORDERS_DB w2) (order_id_of (ORDER_COUNTER w))
       = Some (order_record (req_customer r) (req_email r) (req_phone r)
                            (req_address r) (req_items r)
                            (datetime_now (clock_reads w)))
    /\ dict_get (BUNDLES_STORAGE w2) (order_id_of (ORDER_COUNTER w))
       = Some (req_bundles r).
Proof.
  intro w1. subst w1. rewrite create_order_run. cbn [snd].
  eexists. split; [reflexivity|].
  cbn [ORDERS_DB BUNDLES_STORAGE ORDER_COUNTER created_world].
  repeat split; apply dict_get_set_same.
Qed.

(** X20: start-up on missing or partial files.  With neither file the
    globals keep their initial values; an orders file whose top level is no
    object is ignored; an orders file with no [counter] entry sets the counter
    to 1, and the next creation then reuses ORD-001, replacing the order
    already stored under it without adding one. *)
Theorem load_db_on_partial_files (w : world) :
  (db_file w = None -> bundles_file w = None -> load_db w = Some w)
  /\ (forall v,
        db_file w = Some v -> (forall data, v <> JDict data) ->
        bundles_file w = None ->
        load_db w = Some w)
  /\ (forall orders old r,
        db_file w = Some (JDict [("orders", JDict orders)]) ->
        bundles_file w = None ->
        dict_get orders (order_id_of 1) = Some old ->
        exists w1,
          load_db w = Some w1
          /\ ORDERS_DB w1 = orders
          /\ ORDER_COUNTER w1 = 1
          /\ let run := create_order (req_customer r) (req_email r)
                          (req_phone r) (req_address r) (req_items r)
                          (req_bundles r) w1 in
             fst run = Ok (created 1)
             /\ dict_keys (ORDERS_DB (snd run)) = dict_keys orders
             /\ dict_get (ORDERS_DB (snd run)) (order_id_of 1)
                = Some (order_record (req_customer r) (req_email r)
                                     (req_phone r) (req_address r)
                                     (req_items r)
                                     (datetime_now (clock_reads w)))).
Proof.
  split; [|split].
  - intros Hd Hb. unfold load_db. destruct w; simpl in *. now subst.
  - intros v Hd Hv Hb. unfold load_db. destruct w; simpl in *. subst.
    destruct v; try reflexivity. now destruct (Hv d).
  - intros orders old r Hd Hb Ho. unfold load_db. rewrite Hd, Hb.
    cbn [dict_get keqb EqKey_string String.eqb Ascii.eqb Bool.eqb].
    eexists. split; [reflexivity|]. cbn [ORDERS_DB ORDER_COUNTER].
    split; [reflexivity|]. split; [reflexivity|].
    rewrite create_order_run. cbn [fst snd created_world ORDERS_DB
                                     ORDER_COUNTER clock_reads].
    split; [reflexivity|]. split.
    + apply dict_keys_set_old. apply dict_get_In in Ho.
      unfold dict_keys. apply in_map_iff. now exists (order_id_of 1, old).
    + apply dict_get_set_same.
Qed.

(* ================================================================== *)
(** * The span [determine_action] parses *)

Lemma str_app_assoc (a b c : string) :
  ((a ++ b) ++ c)%string = (a ++ (b ++ c))%string.
Proof. induction a as [|x a IH]; simpl; [reflexivity | now rewrite IH]. Qed.

Lemma str_length_app (a b : string) :
  String.length (a ++ b) = (String.length a + String.length b)%nat.
Proof. induction a as [|x a IH]; simpl; [reflexivity | now rewrite IH]. Qed.

Lemma find_from_app (c : ascii) (pre rest : string) :
  occurs c pre = false ->
  forall i, find_from c (pre ++ String c rest) i
            = i + Z.of_nat (String.length pre).
Proof.
  induction pre as [|x pre IH]; simpl; intros N i.
  - rewrite Ascii.eqb_refl. lia.
  - apply orb_false_iff in N as [Nx Np]. rewrite Nx, (IH Np). lia.
Qed.

Lemma rfind_from_absent (c : ascii) (s : string) :
  occurs c s = false -> forall i last, rfind_from c s i last = last.
Proof.
  induction s as [|x s IH]; simpl; intros N i last; [reflexivity|].
  apply orb_false_iff in N as [Nx Ns]. now rewrite Nx, (IH Ns).
Qed.

Lemma rfind_from_app (c : ascii) (a post : string) :
  occurs c post = false ->
  forall i last, rfind_from c (a ++ String c post) i last
                 = i + Z.of_nat (String.length a).
Proof.
  intro N. induction a as [|x a IH]; simpl; intros i last.
  - rewrite Ascii.eqb_refl, (rfind_from_absent _ _ N). lia.
  - rewrite IH. lia.
Qed.

Lemma substring_middle (a b c : string) :
  String.substring (String.length a) (String.length b) (a ++ b ++ c) = b.
Proof.
  induction a as [|x a IH]; simpl; [|exact IH].
  induction b as [|y b IHb]; simpl.
  - now destruct c.
  - now rewrite IHb.
Qed.

Lemma lstrip_app (pre rest : string) (c : ascii) :
  is_space c = false ->
  exists pre',
    lstrip (pre ++ String c rest) = (pre' ++ String c rest)%string
    /\ forall x, occurs x pre = false -> occurs x pre' = false.
Proof.
  intro N. induction pre as [|x pre IH].
  - exists EmptyString. simpl. rewrite N. split; [reflexivity | trivial].
  - destruct IH as (pre' & E & O). cbn [append lstrip].
    destruct (is_space x).
    + exists pre'. split; [exact E|].
      intros y Hy. simpl in Hy. apply orb_false_iff in Hy as [_ Hy].
      now apply O.
    + exists (String x pre). split; [reflexivity | trivial].
Qed.

Lemma rstrip_occurs (x : ascii) (s : string) :
  occurs x s = false -> occurs x (rstrip s) = false.
Proof.
  induction s as [|y s IH]; simpl; [trivial|].
  intro N. apply orb_false_iff in N as [Ny Ns]. specialize (IH Ns).
  destruct (rstrip s) as [|z kept].
  - destruct (is_space y); simpl; [reflexivity | now rewrite Ny].
  - simpl. rewrite Ny. exact IH.
Qed.

Lemma rstrip_app (a post : string) (c : ascii) :
  is_space c = false ->
  rstrip (a ++ String c post) = (a ++ String c (rstrip post))%string.
Proof.
  intro N. induction a as [|x a IH].
  - simpl. rewrite N. now destruct (rstrip post).
  - cbn [append rstrip]. rewrite IH. now destruct a.
Qed.

(** X21: prose around the object is discarded: when the model's text is an
    object wrapped in text that has no opening brace before the object and
    no closing brace after it, the span handed to [json.loads] is exactly the
    object, from its first [{] to its last [}]. *)
Theorem json_span_discards_prose (pre mid post : string) :
  occurs "{"%char pre = false ->
  occurs "}"%char post = false ->
  json_span (strip (pre ++ "{" ++ mid ++ "}" ++ post))
  = ("{" ++ mid ++ "}")%string.
Proof.
  intros Npre Npost. unfold strip.
  destruct (lstrip_app pre (mid ++ "}" ++ post) "{"%char eq_refl)
    as (pre' & E & O).
  change (pre ++ "{" ++ mid ++ "}" ++ post)%string
    with (pre ++ String "{" (mid ++ "}" ++ post))%string.
  rewrite E. specialize (O _ Npre).
  replace (pre' ++ String "{" (mid ++ "}" ++ post))%string
    with ((pre' ++ String "{" mid) ++ String "}" post)%string
    by (rewrite str_app_assoc; reflexivity).
  rewrite rstrip_app by reflexivity.
  pose proof (rstrip_occurs _ _ Npost) as O'.
  set (post' := rstrip post) in *.
  unfold json_span, str_find, str_rfind.
  rewrite rfind_from_app by exact O'.
  replace ((pre' ++ String "{" mid) ++ String "}" post')%string
    with (pre' ++ String "{" (mid ++ String "}" post'))%string
    by (rewrite str_app_assoc; reflexivity).
  rewrite find_from_app by exact O.
  unfold slice, slice_bound.
  rewrite !str_length_app. cbn [String.length].
  rewrite !str_length_app. cbn [String.length].
  set (p := String.length pre'). set (m := String.length mid).
  set (q := String.length post').
  replace (0 + Z.of_nat p <? 0) with false by (symmetry; apply Z.ltb_ge; lia).
  replace (0 + Z.of_nat (p + S m) + 1 <? 0) with false
    by (symmetry; apply Z.ltb_ge; lia).
  rewrite !Z.min_l by lia.
  replace (Z.to_nat (0 + Z.of_nat p)) with p by lia.
  replace (Z.to_nat (0 + Z.of_nat (p + S m) + 1 - (0 + Z.of_nat p)))
    with (String.length ("{" ++ mid ++ "}")%string)
    by (cbn [append String.length]; rewrite str_length_app;
        cbn [String.length]; fold m; lia).
  replace (pre' ++ String "{" (mid ++ String "}" post'))%string
    with (pre' ++ ("{" ++ mid ++ "}") ++ post')%string
    by (cbn [append]; rewrite str_app_assoc; reflexivity).
  apply substring_middle.
Qed.

Lemma lstrip_occurs (x : ascii) (s : string) :
  occurs x s = false -> occurs x (lstrip s) = false.
Proof.
  induction s as [|y s IH]; simpl; [trivial|].
  intro N. destruct (is_space y); [|exact N].
  apply orb_false_iff in N as [_ N]. now apply IH.
Qed.

Lemma find_from_absent (c : ascii) (s : string) :
  occurs c s = false -> forall i, find_from c s i = -1.
Proof.
  induction s as [|x s IH]; simpl; intros N i; [reflexivity|].
  apply orb_false_iff in N as [Nx Ns]. now rewrite Nx, (IH Ns).
Qed.

Lemma substring_none (n : nat) (s : string) : String.substring n 0 s = "".
Proof.
  revert s. induction n as [|n IH]; intros [|c s]; simpl; trivial.
Qed.

(** X22: an answer of the model that holds no brace at all leaves
    [json.loads] the empty text to parse, and when that is refused, as
    [json.loads] does, the step raises the pipeline error and the world is
    untouched. *)
Theorem reply_without_object_is_refused
        (state : ServiceState) (w : world) (text : string) (e : exn) :
  generate_content (ActionPrompt (encrypted_input state)) = Ok text ->
  occurs "{"%char text = false ->
  occurs "}"%char text = false ->
  json_loads "" = Raise e ->
  json_span (strip text) = ""
  /\ determine_action state w
     = (Raise (RuntimeError ("Language model action failure: " ++ str_exn e)),
        w).
Proof.
  intros G No Nc L.
  assert (S : json_span (strip text) = "").
  { unfold json_span, str_find, str_rfind, strip.
    rewrite find_from_absent
      by (apply rstrip_occurs, lstrip_occurs; exact No).
    rewrite rfind_from_absent
      by (apply rstrip_occurs, lstrip_occurs; exact Nc).
    unfold slice, slice_bound. cbn [Z.ltb Z.compare Z.add Z.opp Z.pos_sub].
    set (len := Z.of_nat (String.length (rstrip (lstrip text)))).
    replace (Z.to_nat (Z.min 0 len - Z.max 0 (len + -1))) with 0%nat by lia.
    apply substring_none. }
  split; [exact S|].
  unfold determine_action, try_except, lift, raise. cbn [bind Monad_M].
  now rewrite G, S, L.
Qed.

(* ================================================================== *)
(** * The command line *)

(** ** What the steps hand on *)

Lemma process_input_bundles (state s1 : ServiceState) (w w1 : world) :
  process_input state w = (Ok s1, w1) ->
  exists n, py_len (bundles s1) = Ok n.
Proof.
  unfold process_input. intro E. apply try_raising_inv_ok in E.
  apply bind_inv_ok in E as (resp & w0 & _ & E).
  apply lift_inv_ok in E as ([] & _ & E).
  apply lift_inv_ok in E as (data & _ & E).
  apply lift_inv_ok in E as (logged & B1 & E).
  apply lift_inv_ok in E as (n & Ln & E).
  apply lift_inv_ok in E as (t & _ & E).
  apply lift_inv_ok in E as (b & B2 & E).
  apply lift_inv_ok in E as (tn & _ & E).
  injection E as <- _. exists n. cbn [with_detected bundles]. congruence.
Qed.

Lemma determine_action_parsed (state s2 : ServiceState) (w w2 : world) :
  determine_action state w = (Ok s2, w2) ->
  exists data a,
    (exists text, json_loads text = Ok data)
    /\ py_getitem data "action" = Ok a
    /\ s2 = with_action state (JStr (json_dumps data)).
Proof.
  unfold determine_action. intro E. apply try_raising_inv_ok in E.
  apply lift_inv_ok in E as (text & _ & E).
  apply lift_inv_ok in E as (data & L & E).
  apply lift_inv_ok in E as (a & K & E).
  injection E as <- _. exists data, a.
  split; [exists (json_span (strip text)); exact L | now split].
Qed.

(** ** The store stays well formed *)

Lemma stays_well_formed_refl (w : world) : stays_well_formed w w.
Proof. intro F. exact F. Qed.

Lemma stays_well_formed_trans (w1 w2 w3 : world) :
  stays_well_formed w1 w2 -> stays_well_formed w2 w3 ->
  stays_well_formed w1 w3.
Proof. unfold stays_well_formed. auto. Qed.

Lemma Forall_dict_set {K V} `{EqKey K} (Q : V -> Prop)
      (d : pydict K V) (k : K) (v : V) :
  Forall (fun entry => Q (snd entry)) d -> Q v ->
  Forall (fun entry => Q (snd entry)) (dict_set d k v).
Proof.
  induction d as [|[k' v'] d IH]; simpl; intros F q.
  - constructor; [exact q | constructor].
  - inversion F; subst. destruct (keqb k' k); constructor; auto.
Qed.

Lemma Forall_dict_get {K V} `{EqKey K} (Q : V -> Prop)
      (d : pydict K V) (k : K) (v : V) :
  Forall (fun entry => Q (snd entry)) d -> dict_get d k = Some v -> Q v.
Proof.
  induction d as [|[k' v'] d IH]; simpl; intros F E; [discriminate|].
  inversion F; subst. destruct (keqb k' k); [|now apply IH].
  injection E as <-. assumption.
Qed.

Lemma well_formed_log_request (w : world) (url : string) (payload : json) :
  well_formed_store w -> well_formed_store (log_request w url payload).
Proof. intro F. exact F. Qed.

Lemma create_order_well_formed
      (customer email phone address items stored : json) :
  (exists n, py_len stored = Ok n) ->
  keeps stays_well_formed
        (create_order customer email phone address items stored).
Proof.
  intros L w [O B].
  pose proof (create_order_run w
                {| req_customer := customer; req_email := email;
                   req_phone := phone; req_address := address;
                   req_items := items; req_bundles := stored |}) as E.
  cbn [req_customer req_email req_phone req_address req_items req_bundles]
    in E.
  rewrite E. cbn [snd]. unfold created_world, well_formed_store.
  cbn [ORDERS_DB BUNDLES_STORAGE req_customer req_email req_phone req_address
       req_items req_bundles].
  split.
  - apply (Forall_dict_set (fun v => exists fields, v = JDict fields));
      [exact O | unfold order_record; now eexists].
  - apply (Forall_dict_set (fun v => exists n, py_len v = Ok n));
      [exact B | exact L].
Qed.

Ltac keeps_created C :=
  repeat first
    [ assumption
    | apply C
    | apply keeps_get_order | apply keeps_get_bundles
    | apply keeps_get_all_orders
    | apply keeps_ret | apply keeps_lift | apply keeps_raise
    | apply keeps_if | apply keeps_for_each | apply keeps_try
    | apply keeps_bind
    | match goal with |- forall _, _ => intro end ].

Lemma execute_action_well_formed (state : ServiceState) :
  (exists n, py_len (bundles state) = Ok n) ->
  keeps stays_well_formed (execute_action state).
Proof.
  intro L.
  pose proof stays_well_formed_refl as Rf.
  pose proof stays_well_formed_trans as Rt.
  assert (C : forall c e p a i,
             keeps stays_well_formed
                   (create_order c e p a i (bundles state)))
    by (intros; now apply create_order_well_formed).
  unfold execute_action, run_action. keeps_created C.
Qed.

Lemma invoke_well_formed (text : string) (w : world) :
  well_formed_store w -> well_formed_store (snd (invoke text w)).
Proof.
  intro F. unfold invoke. cbn [bind Monad_M].
  pose proof (process_input_world (initial_state text) w) as P1.
  destruct (process_input (initial_state text) w) as [[s1|e] w1] eqn:E1;
    cbn [snd] in *.
  2: { subst w1. exact F. }
  assert (F1 : well_formed_store w1) by (subst w1; exact F).
  clear P1. apply process_input_bundles in E1 as B1.
  pose proof (determine_action_world s1 w1) as P2.
  destruct (determine_action s1 w1) as [[s2|e] w2] eqn:E2;
    cbn [snd] in *; subst w2; [|exact F1].
  apply determine_action_parsed in E2 as (data & a & _ & _ & ->).
  pose proof (@execute_action_well_formed
                (with_action s1 (JStr (json_dumps data))) B1 w1 F1) as P3.
  destruct (execute_action (with_action s1 (JStr (json_dumps data))) w1)
    as [[s3|e] w3]; cbn [snd] in *; [|exact P3].
  destruct (format_response_world s3 w3) as [-> | (agent_text & ->)];
    exact P3.
Qed.

(** ** The views *)

Lemma get_order_decrypted_world (order_id : json) (w : world) :
  snd (get_order_decrypted order_id w) = w
  \/ exists payload,
       snd (get_order_decrypted order_id w)
       = log_request w (CRYPTOR_SERVICE_URL ++ "/v1/decrypt")%string payload.
Proof.
  assert (L : keeps eq (lookup_order order_id))
    by (apply keeps_lookup_order; intros; congruence).
  assert (G : keeps eq (get_bundles order_id))
    by (apply keeps_get_bundles; intros; congruence).
  unfold get_order_decrypted. cbn [bind Monad_M].
  specialize (L w).
  destruct (lookup_order order_id w) as [[order|e] w1]; cbn [snd] in L;
    subst w1; [|now left].
  destruct (negb (truthy order)); [now left|].
  cbn [bind Monad_M]. specialize (G w).
  destruct (get_bundles order_id w) as [[stored|e] w1]; cbn [snd] in G;
    subst w1; [|now left].
  destruct (negb (truthy stored)); [now left|].
  right.
  exists (JDict [("tenant_id", JStr TENANT);
                 ("text_with_placeholders", JStr (json_dumps order));
                 ("bundles", stored)]).
  unfold try_except, post, lift. cbn [bind Monad_M].
  destruct (requests_post _ _) as [resp|]; [|reflexivity].
  destruct (raise_for_status resp); [|reflexivity].
  destruct (resp_json resp) as [data|]; [|reflexivity].
  destruct (py_getitem data "text") as [t|]; [|reflexivity].
  destruct (py_json_loads t) as [o|]; [|reflexivity].
  destruct (py_spread o _); reflexivity.
Qed.

Lemma show_all_orders_run (s : session) (w : world) :
  snd (show_all_orders s w) = w
  /\ forall s', fst (show_all_orders s w) = Ok s' -> history s' = history s.
Proof.
  unfold show_all_orders, gets, lift. cbn [bind Monad_M].
  destruct (ORDERS_DB w) as [|entry db].
  - split; [reflexivity|]. intros s' E. now injection E as <-.
  - cbn [bind Monad_M].
    destruct (for_each (entry :: db) [] _) as [body|e]; cbn [fst snd].
    + split; [reflexivity|]. intros s' E. now injection E as <-.
    + split; [reflexivity | discriminate].
Qed.

Lemma show_order_decrypted_cli_run (order_id : string) (s : session)
      (w : world) :
  snd (show_order_decrypted_cli order_id s w)
  = snd (get_order_decrypted (JStr order_id) w)
  /\ forall s', fst (show_order_decrypted_cli order_id s w) = Ok s' ->
                history s' = history s.
Proof.
  unfold show_order_decrypted_cli, lift. cbn [bind Monad_M].
  destruct (get_order_decrypted (JStr order_id) w) as [[order|e] w1];
    cbn [fst snd]; [|split; [reflexivity | discriminate]].
  destruct (order_view order) as [body|e]; cbn [fst snd].
  - split; [reflexivity|]. intros s' E. now injection E as <-.
  - split; [reflexivity | discriminate].
Qed.

Lemma workflow_turn_run (user_input : string) (s : session) (w : world) :
  exists s',
    workflow_turn user_input s w = (Ok s', snd (invoke user_input w)).
Proof.
  unfold workflow_turn, try_except. cbn [bind Monad_M].
  destruct (invoke user_input w) as [[result|e] w1]; cbn [snd].
  - eexists. reflexivity.
  - destruct e; eexists; reflexivity.
Qed.

(** X23: a slash command or a blank line only reads: whatever it prints and
    whether or not it fails, the orders, the bundle sets, the counter and
    both files are as before, at most one request has gone out, to the
    decrypt endpoint, and the conversation history is unchanged. *)
Theorem commands_only_read (line : string) (s : session) (w : world) :
  is_command line = true ->
  let run := loop_body line s w in
  same_store w (snd run)
  /\ (http_log (snd run) = http_log w
      \/ exists payload,
           http_log (snd run)
           = http_log w
             ++ [((CRYPTOR_SERVICE_URL ++ "/v1/decrypt")%string, payload)])
  /\ forall n, fst run = Ok n -> history (session_of n) = history s.
Proof.
  unfold is_command, loop_body.
  destruct (String.eqb (lower (strip line)) "/exit").
  { intros _. cbn. split; [apply same_store_refl|]. split; [now left|].
    intros n E. now injection E as <-. }
  destruct (String.eqb (lower (strip line)) "/orders").
  { intros _. cbn [bind Monad_M].
    destruct (show_all_orders_run s w) as [W H].
    destruct (show_all_orders s w) as [[shown|e] w1]; cbn [fst snd] in *;
      subst w1.
    - split; [apply same_store_refl|]. split; [now left|].
      intros n E. injection E as <-. now apply H.
    - split; [apply same_store_refl|]. split; [now left | discriminate]. }
  destruct (startswith (lower (strip line)) "/decrypt").
  { intros _.
    assert (U : let run := (Ok (Continue (prints [usage] s)), w) in
                same_store w (snd run)
                /\ (http_log (snd run) = http_log w
                    \/ exists payload,
                         http_log (snd run)
                         = http_log w
                           ++ [((CRYPTOR_SERVICE_URL ++ "/v1/decrypt")%string,
                                payload)])
                /\ forall n, fst run = Ok n ->
                             history (session_of n) = history s).
    { cbn. split; [apply same_store_refl|]. split; [now left|].
      intros n E. now injection E as <-. }
    destruct (split (strip line)) as [|cmd [|order_id [|extra parts]]];
      try exact U.
    destruct (startswith order_id "ORD-"); [|exact U].
    cbn [bind Monad_M].
    destruct (show_order_decrypted_cli_run order_id s w) as [W H].
    destruct (show_order_decrypted_cli order_id s w) as [[shown|e] w1];
      cbn [fst snd] in *; subst w1.
    - destruct (get_order_decrypted_world (JStr order_id) w)
        as [-> | (payload & ->)].
      + split; [apply same_store_refl|]. split; [now left|].
        intros n E. injection E as <-. now apply H.
      + split; [repeat split|]. split; [right; now exists payload|].
        intros n E. injection E as <-. now apply H.
    - destruct (get_order_decrypted_world (JStr order_id) w)
        as [-> | (payload & ->)].
      + split; [apply same_store_refl|]. split; [now left | discriminate].
      + split; [repeat split|].
        split; [right; now exists payload | discriminate]. }
  destruct (String.eqb (lower (strip line)) "/db").
  { intros _. cbn. split; [apply same_store_refl|]. split; [now left|].
    intros n E. now injection E as <-. }
  destruct (String.eqb (lower (strip line)) "/history").
  { intros _. cbn. split; [apply same_store_refl|]. split; [now left|].
    intros n E. injection E as <-. cbn. unfold show_history.
    now destruct s as [[|entry entries] shown]. }
  destruct (String.eqb (lower (strip line)) "/help").
  { intros _. cbn. split; [apply same_store_refl|]. split; [now left|].
    intros n E. now injection E as <-. }
  cbn [orb]. intros ->. cbn. split; [apply same_store_refl|].
  split; [now left|]. intros n E. now injection E as <-.
Qed.

(** ** A turn of the workflow *)

Lemma bind_lift_ok {A B} (r : result A) (a : A) (k : A -> M B) (w : world) :
  r = Ok a -> (x <- lift r ;; k x) w = k a w.
Proof. intros ->. reflexivity. Qed.

Lemma invoke_raises (text : string) (w w' : world) (e : exn) :
  json_round_trip ->
  invoke text w = (Raise e, w') ->
  exists prefix cause,
    In prefix step_prefixes /\ e = RuntimeError (prefix ++ str_exn cause).
Proof.
  intros RT. unfold invoke, step_prefixes. cbn [bind Monad_M].
  destruct (process_input (initial_state text) w) as [[s1|e1] w1] eqn:E1.
  2: { intro E. injection E as <- <-.
       apply try_raising_inv_raise in E1 as (c & _ & ->).
       eexists _, c. split; [|reflexivity]. simpl. auto. }
  destruct (determine_action s1 w1) as [[s2|e2] w2] eqn:E2.
  2: { intro E. injection E as <- <-.
       apply try_raising_inv_raise in E2 as (c & _ & ->).
       eexists _, c. split; [|reflexivity]. simpl. auto. }
  apply determine_action_parsed in E2 as (data & a & (t & L) & K & ->).
  destruct (execute_action (with_action s1 (JStr (json_dumps data))) w2)
    as [[s3|e3] w3] eqn:E3.
  2: { intro E. injection E as <- <-.
       unfold execute_action in E3.
       rewrite (bind_lift_ok (a := data)) in E3
         by (cbn [action with_action py_json_loads]; exact (RT _ _ L)).
       rewrite (bind_lift_ok (a := a)) in E3
         by (now apply py_getitem_get).
       apply try_raising_inv_raise in E3 as (c & _ & ->).
       eexists _, c. split; [|reflexivity]. simpl. auto. }
  intro E. apply try_raising_inv_raise in E as (c & _ & ->).
  eexists _, c. split; [|reflexivity]. simpl. auto.
Qed.

(** X24: when the codec round-trips, a run of the workflow that fails
    fails with the pipeline error of one of the four steps, so the command
    line reports it as a processing error, never as a system error: it
    prints that one line, records nothing in the history, goes on, and
    keeps whatever the run did to the world. *)
Theorem failed_turn_is_a_processing_error
        (user_input : string) (s : session) (w w' : world) (e : exn) :
  json_round_trip ->
  invoke user_input w = (Raise e, w') ->
  exists prefix cause,
    In prefix step_prefixes
    /\ e = RuntimeError (prefix ++ str_exn cause)
    /\ workflow_turn user_input s w
       = (Ok (prints [("PROCESSING ERROR: " ++ (prefix ++ str_exn cause)
                       ++ newline)%string] s), w').
Proof.
  intros RT E.
  destruct (invoke_raises _ _ RT E) as (prefix & cause & I & ->).
  exists prefix, cause. split; [exact I|]. split; [reflexivity|].
  unfold workflow_turn, try_except. cbn [bind Monad_M]. rewrite E.
  cbn [str_exn]. reflexivity.
Qed.

(** X25: a turn of the workflow never ends the session: it returns whatever
    the run does, its effects on the world stay, and the history gets
    exactly one more entry, the stripped line with the final answer, when
    the run succeeded and none when it failed. *)
Theorem workflow_turn_always_returns
        (user_input : string) (s : session) (w : world) :
  exists s',
    workflow_turn user_input s w = (Ok s', snd (invoke user_input w))
    /\ history s'
       = match fst (invoke user_input w) with
         | Ok result =>
             history s ++ [(user_input, final_response result)]
         | Raise _ => history s
         end.
Proof.
  unfold workflow_turn, try_except. cbn [bind Monad_M].
  destruct (invoke user_input w) as [[result|e] w1]; cbn [fst snd].
  - eexists. split; reflexivity.
  - destruct e; eexists; split; reflexivity.
Qed.

(** ** The loop *)

(** X26: nothing is read after the exit command: the lines that follow it
    change neither the outcome nor the world. *)
Theorem lines_after_exit_are_not_read
        (before after : list string) (line : string)
        (s : session) (w : world) :
  lower (strip line) = "/exit" ->
  main_loop (before ++ line :: after) s w = main_loop (before ++ [line]) s w.
Proof.
  intro X. revert s w.
  induction before as [|first before IH]; intros s w;
    cbn [List.app main_loop bind Monad_M].
  - unfold loop_body. cbv zeta. rewrite X. reflexivity.
  - destruct (loop_body first s w) as [[[s1|s1]|e] w1];
      [apply IH | reflexivity | reflexivity].
Qed.

(** ** A session on a well-formed store *)

Lemma order_lines_ok (entry : string * json) :
  (exists fields, snd entry = JDict fields) ->
  exists lines, order_lines entry = Ok lines.
Proof.
  intros [fields E]. unfold order_lines. rewrite E. unfold py_get.
  destruct (dict_get fields "customer"), (dict_get fields "items"),
    (dict_get fields "status"); eexists; reflexivity.
Qed.

Lemma orders_listing_ok (db : list (string * json)) :
  Forall (fun entry => exists fields, snd entry = JDict fields) db ->
  forall shown, exists body,
    for_each db shown
      (fun shown entry => lines <- order_lines entry ;; ret (shown ++ lines))
    = Ok body.
Proof.
  induction 1 as [|entry db P F IH]; intro shown; cbn [for_each].
  - now exists shown.
  - destruct (order_lines_ok entry P) as [lines E].
    cbn [bind Monad_result]. rewrite E. apply IH.
Qed.

Lemma show_all_orders_ok (s : session) (w : world) :
  well_formed_store w -> exists s', show_all_orders s w = (Ok s', w).
Proof.
  intros [O _]. unfold show_all_orders, gets, lift. cbn [bind Monad_M].
  destruct (ORDERS_DB w) as [|entry db]; [eexists; reflexivity|].
  destruct (orders_listing_ok O []) as [body E].
  cbn [bind Monad_M]. rewrite E. eexists. reflexivity.
Qed.

Lemma get_bundles_ok (w : world) (oid : string) :
  well_formed_store w ->
  exists stored, get_bundles (JStr oid) w = (Ok stored, w).
Proof.
  intros [_ B]. unfold get_bundles, gets, lift. cbn [bind Monad_M store_get].
  destruct (dict_get (BUNDLES_STORAGE w) oid) as [b|] eqn:D.
  - destruct (@Forall_dict_get _ _ _ (fun v => exists n, py_len v = Ok n)
                                _ _ _ B D) as [n L].
    rewrite L. now exists b.
  - now exists (JList []).
Qed.

Lemma get_order_decrypted_ok (w : world) (oid : string) :
  well_formed_store w ->
  exists fields,
    fst (get_order_decrypted (JStr oid) w) = Ok (JDict fields).
Proof.
  intro F. pose proof F as [O _]. unfold get_order_decrypted.
  destruct (dict_get (ORDERS_DB w) oid) as [order|] eqn:D.
  2: { rewrite (bind_ok _ _ _ (lookup_order_missing _ _ D)). cbn.
       now eexists. }
  destruct (@Forall_dict_get _ _ _ (fun v => exists fields, v = JDict fields)
                              _ _ _ O D) as [fields E].
  subst order.
  rewrite (bind_ok _ _ _ (lookup_order_found _ _ D)).
  destruct (negb (truthy (JDict fields))); [cbn; now eexists|].
  destruct (get_bundles_ok oid F) as [stored G].
  rewrite (bind_ok _ _ _ G).
  destruct (negb (truthy stored)); [cbn; now eexists|].
  unfold try_except, post, lift. cbn [bind Monad_M].
  destruct (requests_post _ _) as [resp|]; [|cbn; now eexists].
  destruct (raise_for_status resp); [|cbn; now eexists].
  destruct (resp_json resp) as [data|]; [|cbn; now eexists].
  destruct (py_getitem data "text") as [t|]; [|cbn; now eexists].
  destruct (py_json_loads t) as [o|]; [|cbn; now eexists].
  destruct o; cbn; now eexists.
Qed.

Lemma order_view_ok (fields : list (string * json)) :
  exists lines, order_view (JDict fields) = Ok lines.
Proof.
  unfold order_view, py_in, py_getitem, py_items, dict_mem.
  cbn [bind Monad_result].
  destruct (dict_get fields "error"); [now eexists|].
  destruct (dict_get fields "decrypt_error"); now eexists.
Qed.

Lemma show_order_decrypted_cli_ok (order_id : string) (s : session)
      (w : world) :
  well_formed_store w ->
  exists s' w',
    show_order_decrypted_cli order_id s w = (Ok s', w')
    /\ well_formed_store w'.
Proof.
  intro F. destruct (get_order_decrypted_ok order_id F) as [fields G].
  pose proof (get_order_decrypted_world (JStr order_id) w) as W.
  unfold show_order_decrypted_cli, lift. cbn [bind Monad_M].
  destruct (get_order_decrypted (JStr order_id) w) as [r w1].
  cbn [fst snd] in *. subst r.
  destruct (order_view_ok fields) as [lines ->].
  eexists _, w1. split; [reflexivity|].
  destruct W as [-> | (payload & ->)]; exact F.
Qed.

Lemma loop_body_ok (line : string) (s : session) (w : world) :
  well_formed_store w ->
  exists n w', loop_body line s w = (Ok n, w') /\ well_formed_store w'.
Proof.
  intro F. unfold loop_body. cbv zeta.
  destruct (String.eqb (lower (strip line)) "/exit");
    [eexists _, w; split; [reflexivity | exact F]|].
  destruct (String.eqb (lower (strip line)) "/orders").
  { destruct (show_all_orders_ok s F) as [s' E].
    rewrite (bind_ok _ _ _ E). eexists _, w. split; [reflexivity | exact F]. }
  destruct (startswith (lower (strip line)) "/decrypt").
  { destruct (split (strip line)) as [|cmd [|order_id [|extra parts]]];
      try (eexists _, w; split; [reflexivity | exact F]).
    destruct (startswith order_id "ORD-");
      [|eexists _, w; split; [reflexivity | exact F]].
    destruct (show_order_decrypted_cli_ok order_id s F) as (s' & w' & E & F').
    rewrite (bind_ok _ _ _ E). eexists _, w'. split; [reflexivity | exact F']. }
  destruct (String.eqb (lower (strip line)) "/db");
    [eexists _, w; split; [reflexivity | exact F]|].
  destruct (String.eqb (lower (strip line)) "/history");
    [eexists _, w; split; [reflexivity | exact F]|].
  destruct (String.eqb (lower (strip line)) "/help");
    [eexists _, w; split; [reflexivity | exact F]|].
  destruct (String.eqb (strip line) "");
    [eexists _, w; split; [reflexivity | exact F]|].
  destruct (workflow_turn_run (strip line) s w) as [s' E].
  rewrite (bind_ok _ _ _ E). eexists _, _. split; [reflexivity|].
  now apply invoke_well_formed.
Qed.

(** X27: on a store as [create_order] fills it, with every order a
    dictionary and every bundle set a value that has a length, a session
    never ends with an uncaught exception: whatever lines come in and
    whatever the collaborators answer, the loop runs to the exit command or
    the end of the input, and it leaves the store well formed.  Writing the
    two files is taken to succeed, as in [save_db]. *)
Theorem session_never_crashes (lines : list string) (s : session) (w : world) :
  well_formed_store w ->
  exists s' w', main_loop lines s w = (Ok s', w') /\ well_formed_store w'.
Proof.
  revert s w. induction lines as [|line lines IH]; intros s w F.
  - exists s, w. now split.
  - cbn [main_loop].
    destruct (loop_body_ok line s F) as (n & w1 & E & F1).
    rewrite (bind_ok _ _ _ E). destruct n as [s1|s1].
    + now apply IH.
    + exists s1, w1. now split.
Qed.

(** ** The decrypt command *)

Lemma str_app_nil (s : string) : (s ++ "")%string = s.
Proof. induction s as [|c s IH]; simpl; [reflexivity | now rewrite IH]. Qed.

Lemma lower_app (a b : string) :
  lower (a ++ b) = (lower a ++ lower b)%string.
Proof. induction a as [|c a IH]; simpl; [reflexivity | now rewrite IH]. Qed.

Lemma prefix_split (p s : string) :
  String.prefix p s = true -> exists r, s = (p ++ r)%string.
Proof.
  revert s. induction p as [|c p IH]; intros [|c' s]; simpl; intro E;
    try discriminate.
  - now exists "".
  - now exists (String c' s).
  - destruct (ascii_dec c c') as [<-|]; [|discriminate].
    destruct (IH s E) as [r ->]. now exists r.
Qed.

Lemma prefix_append (p r : string) : String.prefix p (p ++ r) = true.
Proof.
  induction p as [|c p IH]; simpl; [now destruct r|].
  destruct (ascii_dec c c); [exact IH | contradiction].
Qed.

Lemma rstrip_spaceless (s : string) : spaceless s = true -> rstrip s = s.
Proof.
  induction s as [|c s IH]; simpl; [reflexivity|].
  intro E. apply andb_true_iff in E as [Ec Es]. rewrite (IH Es).
  apply negb_true_iff in Ec. rewrite Ec. now destruct s.
Qed.

Lemma split_from_word (a : string) :
  spaceless a = true ->
  forall rest word,
    split_from (a ++ rest) word = split_from rest (word ++ a).
Proof.
  induction a as [|c a IH]; simpl; intros E rest word.
  - now rewrite str_app_nil.
  - apply andb_true_iff in E as [Ec Es]. apply negb_true_iff in Ec.
    rewrite Ec, (IH Es), str_app_assoc. reflexivity.
Qed.

Lemma split_two_words (cmd id : string) :
  spaceless cmd = true -> spaceless id = true -> cmd <> "" -> id <> "" ->
  split (cmd ++ " " ++ id) = [cmd; id].
Proof.
  intros Sc Si Nc Ni. unfold split.
  rewrite (split_from_word _ Sc). cbn [append split_from].
  change (is_space " ") with true. cbv iota.
  destruct (String.eqb cmd "") eqn:E;
    [apply String.eqb_eq in E; contradiction|].
  f_equal. rewrite <- (str_app_nil id) at 1.
  rewrite (split_from_word _ Si). cbn [append split_from].
  destruct (String.eqb id "") eqn:E';
    [apply String.eqb_eq in E'; contradiction | reflexivity].
Qed.

(** X28: the decrypt command is recognised by its first eight characters,
    in any letter case: every word that begins with /decrypt, followed by
    one more word, runs the decrypted view of that word when the word begins
    with ORD- in capitals, and prints the usage line without touching the
    world when it does not. *)
Theorem decrypt_command_matches_by_prefix
        (cmd id : string) (s : session) (w : world) :
  startswith (lower cmd) "/decrypt" = true ->
  spaceless cmd = true -> spaceless id = true -> id <> "" ->
  loop_body (cmd ++ " " ++ id) s w
  = if startswith id "ORD-"
    then (shown <- show_order_decrypted_cli id s ;; ret (Continue shown)) w
    else (Ok (Continue (prints [usage] s)), w).
Proof.
  intros P Sc Si Ni.
  destruct (prefix_split _ _ P) as [r L].
  assert (Nc : cmd <> "") by (intros ->; discriminate).
  assert (St : strip (cmd ++ " " ++ id) = (cmd ++ " " ++ id)%string).
  { unfold strip.
    assert (Ls : lstrip (cmd ++ " " ++ id) = (cmd ++ " " ++ id)%string).
    { destruct cmd as [|c cmd]; [contradiction|]. simpl in Sc |- *.
      apply andb_true_iff in Sc as [Sc _]. apply negb_true_iff in Sc.
      now rewrite Sc. }
    rewrite Ls. destruct id as [|c post]; [contradiction|].
    simpl in Si. apply andb_true_iff in Si as [Ec Es].
    apply negb_true_iff in Ec.
    replace (cmd ++ " " ++ String c post)%string
      with ((cmd ++ " ") ++ String c post)%string
      by (rewrite str_app_assoc; reflexivity).
    rewrite rstrip_app by exact Ec. now rewrite (rstrip_spaceless _ Es). }
  unfold loop_body. cbv zeta. rewrite St, lower_app, L, str_app_assoc.
  change (String.eqb ("/decrypt" ++ r ++ lower (" " ++ id)) "/exit")
    with false.
  change (String.eqb ("/decrypt" ++ r ++ lower (" " ++ id)) "/orders")
    with false.
  unfold startswith at 1. rewrite prefix_append. rewrite (split_two_words Sc Si Nc Ni).
  now destruct (startswith id "ORD-").
Qed.

End Service.

(* ================================================================== *)
(** * The statements on the sample deployment *)

Local Abbreviation demo_determine_action :=
  (determine_action Demo.json_loads Demo.json_dumps Demo.generate_content).
Local Abbreviation demo_execute_action :=
  (execute_action Demo.json_loads Demo.json_dumps Demo.datetime_now
                  Demo.py_repr).
Local Abbreviation demo_get_order_decrypted :=
  (get_order_decrypted Demo.CRYPTOR_SERVICE_URL Demo.TENANT Demo.json_loads
                       Demo.json_dumps Demo.requests_post).
Local Abbreviation demo_invoke :=
  (invoke Demo.CRYPTOR_SERVICE_URL Demo.TENANT Demo.json_loads
          Demo.json_dumps Demo.requests_post Demo.generate_content
          Demo.datetime_now Demo.py_repr).

(** Two versions of [PERSON_1], a stored bundle and a keyless one. *)
Lemma merge_last_write_wins_demo :
  forallb key_usable
          ([Demo.person_v1; Demo.stored_email]
           ++ [Demo.person_v2; Demo.no_key]) = true
  /\ merge_bundles [Demo.person_v1; Demo.stored_email]
                   [Demo.person_v2; Demo.no_key]
     = Ok [Demo.person_v2; Demo.stored_email].
Proof.
  split; [reflexivity|].
  destruct (merge_last_write_wins [Demo.person_v1; Demo.stored_email]
                                  [Demo.person_v2; Demo.no_key] eq_refl)
    as [H _].
  rewrite H. reflexivity.
Defined.

Lemma unresolvable_bundles_dropped_demo :
  merge_bundles [Demo.no_key; Demo.person_v1] [JStr "stray"; Demo.no_key]
  = Ok [Demo.person_v1]
  /\ unresolvable Demo.no_key = true
  /\ unresolvable (JStr "stray") = true
  /\ ~ In Demo.no_key [Demo.person_v1]
  /\ ~ In (JStr "stray") [Demo.person_v1].
Proof.
  split; [reflexivity|]. split; [reflexivity|]. split; [reflexivity|].
  split.
  - apply (unresolvable_bundles_dropped
             [Demo.no_key; Demo.person_v1] [JStr "stray"; Demo.no_key]);
      reflexivity.
  - apply (unresolvable_bundles_dropped
             [Demo.no_key; Demo.person_v1] [JStr "stray"; Demo.no_key]);
      reflexivity.
Defined.

Lemma falsy_placeholder_dropped_demo :
  dict_get [("placeholder", JStr ""); ("id", JStr "[PHONE_1]")] "placeholder"
  = Some (JStr "")
  /\ truthy (JStr "") = false
  /\ merge_bundles [Demo.empty_placeholder] [Demo.person_v1]
     = Ok [Demo.person_v1]
  /\ bundle_key Demo.empty_placeholder = JStr ""
  /\ ~ In Demo.empty_placeholder [Demo.person_v1].
Proof.
  split; [reflexivity|]. split; [reflexivity|]. split; [reflexivity|].
  destruct (falsy_placeholder_dropped
              [Demo.empty_placeholder] [Demo.person_v1]
              [("placeholder", JStr ""); ("id", JStr "[PHONE_1]")]
              eq_refl eq_refl eq_refl) as (K & N & _).
  split; [exact K | exact N].
Defined.

(** "List my orders" with the decrypt endpoint down. *)
Lemma final_decrypt_failure_demo :
  fst (demo_invoke "List my orders" fresh_world)
  = Raise (RuntimeError
             "Response generation failed: Final response decrypt failed: HTTP error status").
Proof.
  let r1 := eval vm_compute in
        (process_input Demo.CRYPTOR_SERVICE_URL Demo.TENANT Demo.requests_post
                       (initial_state "List my orders") fresh_world) in
  lazymatch r1 with
  | (Ok ?s1, ?w1) =>
      let r2 := eval vm_compute in (demo_determine_action s1 w1) in
      lazymatch r2 with
      | (Ok ?s2, ?w2) =>
          let r3 := eval vm_compute in (demo_execute_action s2 w2) in
          lazymatch r3 with
          | (Ok ?s3, ?w3) =>
              rewrite (final_decrypt_failure_is_fatal
                         Demo.CRYPTOR_SERVICE_URL Demo.TENANT Demo.json_loads
                         Demo.json_dumps Demo.requests_post
                         Demo.generate_content Demo.datetime_now Demo.py_repr
                         "List my orders" fresh_world
                         (w1 := w1) (w2 := w2) (w3 := w3)
                         (s1 := s1) (s2 := s2) (s3 := s3)
                         (agent_text := "Here is what I found for [PERSON_1].")
                         (e := HTTPError "HTTP error status"))
          end
      end
  end.
  all: vm_compute; reflexivity.
Defined.

(** The model asks for [delete_order]: step 2 lets it through. *)
Lemma unknown_action_passes_classification :
  Demo.generate_content (ActionPrompt (JStr "Delete order ORD-001"))
  = Ok (Demo.json_dumps Demo.delete_action)
  /\ Demo.json_loads (json_span (strip (Demo.json_dumps Demo.delete_action)))
     = Ok (JDict [("action", JStr "delete_order")])
  /\ demo_determine_action (Demo.detected "Delete order ORD-001") fresh_world
     = (Ok (with_action (Demo.detected "Delete order ORD-001")
                        (JStr (Demo.json_dumps Demo.delete_action))),
        fresh_world).
Proof. repeat split. Qed.

Lemma classification_failure_modes_demo :
  demo_determine_action (Demo.detected "Hello") fresh_world
  = (Raise (RuntimeError
              "Language model action failure: Expecting value: line 1 column 1 (char 0)"),
     fresh_world)
  /\ demo_execute_action
       (with_action (Demo.detected "Delete order ORD-001")
                    (JStr (Demo.json_dumps Demo.delete_action)))
       fresh_world
     = (Ok (with_result
              (with_action (Demo.detected "Delete order ORD-001")
                           (JStr (Demo.json_dumps Demo.delete_action)))
              (JStr (Demo.json_dumps
                       (JDict [("error",
                                JStr "Unknown action: delete_order")])))
              (JList [Demo.person_v1])),
        fresh_world).
Proof.
  split.
  - destruct (classification_failure_modes
                Demo.json_loads Demo.json_dumps Demo.generate_content
                Demo.datetime_now Demo.py_repr
                (Demo.detected "Hello") fresh_world eq_refl) as [H _].
    exact (H _ eq_refl).
  - destruct (classification_failure_modes
                Demo.json_loads Demo.json_dumps Demo.generate_content
                Demo.datetime_now Demo.py_repr
                (Demo.detected "Delete order ORD-001") fresh_world eq_refl)
      as (_ & _ & H).
    destruct (H Demo.delete_action (JStr "delete_order") eq_refl eq_refl)
      as [_ X].
    exact (X [Demo.person_v1] eq_refl eq_refl eq_refl eq_refl eq_refl).
Defined.

(** ORD-999 is in no order record, yet bundles are stored under it. *)
Lemma orphan_bundles_are_contributed :
  dict_get (ORDERS_DB Demo.orphan_world) "ORD-999" = None
  /\ fst (demo_execute_action
            (Demo.classified "Show order ORD-999" Demo.lookup_action)
            Demo.orphan_world)
     = Ok (with_result
             (Demo.classified "Show order ORD-999" Demo.lookup_action)
             (JStr (Demo.json_dumps
                      (JDict [("error", JStr "Order not found")])))
             (JList [Demo.person_v1; Demo.stored_email]))
  /\ merge_bundles [Demo.person_v1] [] = Ok [Demo.person_v1].
Proof. repeat split. Qed.

Lemma get_order_miss_demo :
  get_order (JStr "ORD-999") fresh_world
  = (Ok (JDict [("error", JStr "Order not found")]), fresh_world)
  /\ demo_execute_action
       (Demo.classified "Show order ORD-999" Demo.lookup_action) fresh_world
     = (Ok (with_result
              (Demo.classified "Show order ORD-999" Demo.lookup_action)
              (JStr (Demo.json_dumps
                       (JDict [("error", JStr "Order not found")])))
              (JList [Demo.person_v1])),
        fresh_world).
Proof.
  apply get_order_miss
    with (s := Demo.json_dumps Demo.lookup_action) (oid := "ORD-999")
         (action_data := [("action", JStr "get_order");
                          ("order_id", JStr "ORD-999")])
         (l := [Demo.person_v1]);
    try reflexivity.
  left. reflexivity.
Defined.

Lemma get_order_decrypted_without_bundles_demo :
  demo_get_order_decrypted (JStr "ORD-001") Demo.degraded_world
  = (Ok (JDict (Demo.order_fields
                ++ [("order_id", JStr "ORD-001");
                    ("note", JStr "Bundles not found for decryption")])),
     Demo.degraded_world)
  /\ http_log (snd (demo_get_order_decrypted (JStr "ORD-001")
                                             Demo.degraded_world))
     = [].
Proof.
  apply get_order_decrypted_without_bundles with (fields := Demo.order_fields).
  - reflexivity.
  - discriminate.
  - left. reflexivity.
Defined.

Lemma get_order_decrypted_decrypt_failure_demo :
  fst (demo_get_order_decrypted (JStr "ORD-001") Demo.stocked_world)
  = Ok (JDict (Demo.order_fields
               ++ [("order_id", JStr "ORD-001");
                   ("decrypt_error",
                    JStr "Cryptor service error: HTTP error status")])).
Proof.
  destruct get_order_decrypted_decrypt_failure
    with (CRYPTOR_SERVICE_URL := Demo.CRYPTOR_SERVICE_URL)
         (TENANT := Demo.TENANT) (json_loads := Demo.json_loads)
         (json_dumps := Demo.json_dumps) (requests_post := Demo.requests_post)
         (w := Demo.stocked_world) (oid := "ORD-001")
         (fields := Demo.order_fields)
         (b := Demo.person_v1) (bl := [Demo.stored_email])
         (e := HTTPError "HTTP error status")
    as [H _].
  - reflexivity.
  - discriminate.
  - reflexivity.
  - reflexivity.
  - rewrite H. reflexivity.
Defined.

Lemma order_ids_sequential_demo :
  let roses :=
    {| req_customer := JStr "[PERSON_1]"; req_email := JStr "[EMAIL_1]";
       req_phone := JStr "[PHONE_1]"; req_address := JStr "[LOCATION_1]";
       req_items := JStr "20 roses";
       req_bundles := JList [Demo.person_v1] |} in
  let tulips :=
    {| req_customer := JStr "[PERSON_2]"; req_email := JStr "[EMAIL_2]";
       req_phone := JStr "[PHONE_2]"; req_address := JStr "[LOCATION_2]";
       req_items := JStr "7 tulips";
       req_bundles := JList [Demo.stored_email] |} in
  fst (create_orders Demo.datetime_now [roses; tulips] fresh_world)
  = Ok [JDict [("order_id", JStr "ORD-001"); ("status", JStr "created")];
        JDict [("order_id", JStr "ORD-002"); ("status", JStr "created")]]
  /\ dict_get
       (BUNDLES_STORAGE
          (snd (create_orders Demo.datetime_now [roses; tulips] fresh_world)))
       "ORD-002"
     = Some (JList [Demo.stored_email])
  /\ dict_get
       (BUNDLES_STORAGE
          (snd (demo_execute_action
                  (Demo.classified "Order 20 roses" Demo.create_action)
                  fresh_world)))
       "ORD-001"
     = Some (JList [Demo.person_v1]).
Proof.
  intros roses tulips.
  destruct (order_ids_sequential
              Demo.json_loads Demo.json_dumps Demo.datetime_now
              Demo.py_repr [roses; tulips])
    as (R & _ & G & _ & _ & _ & _ & X).
  split; [exact R|]. split.
  - exact (proj2 (G 1%nat tulips eq_refl)).
  - exact (X (Demo.classified "Order 20 roses" Demo.create_action)
             fresh_world _ _ eq_refl eq_refl eq_refl).
Defined.

(* ================================================================== *)
(** * Further statements on the sample deployment *)

(** The sample writes the indented dump as the plain one. *)
Local Abbreviation demo_loop_body :=
  (loop_body Demo.CRYPTOR_SERVICE_URL Demo.TENANT Demo.json_loads
             Demo.json_dumps Demo.requests_post Demo.generate_content
             Demo.datetime_now Demo.py_repr Demo.json_dumps).
Local Abbreviation demo_main_loop :=
  (main_loop Demo.CRYPTOR_SERVICE_URL Demo.TENANT Demo.json_loads
             Demo.json_dumps Demo.requests_post Demo.generate_content
             Demo.datetime_now Demo.py_repr Demo.json_dumps).
Local Abbreviation demo_workflow_turn :=
  (workflow_turn Demo.CRYPTOR_SERVICE_URL Demo.TENANT Demo.json_loads
                 Demo.json_dumps Demo.requests_post Demo.generate_content
                 Demo.datetime_now Demo.py_repr).
Local Abbreviation demo_process_input :=
  (process_input Demo.CRYPTOR_SERVICE_URL Demo.TENANT Demo.requests_post).
Local Abbreviation demo_format_response :=
  (format_response Demo.CRYPTOR_SERVICE_URL Demo.requests_post
                   Demo.generate_content).
Local Abbreviation nobody := {| history := []; printed := [] |}.

Lemma merge_output_keys_distinct_demo :
  NoDup (map identity_key [Demo.person_v2; Demo.stored_email]).
Proof.
  apply merge_output_keys_distinct
    with (state_bundles := [Demo.person_v1; Demo.stored_email])
         (new_bundles := [Demo.person_v2; Demo.no_key]).
  reflexivity.
Defined.

Lemma merge_keeps_every_key_demo :
  exists b',
    In b' [Demo.person_v2; Demo.stored_email]
    /\ In b' ([Demo.person_v1; Demo.stored_email]
              ++ [Demo.person_v2; Demo.no_key])
    /\ identity_key b' = identity_key Demo.person_v1.
Proof.
  apply merge_keeps_every_key with (b := Demo.person_v1).
  - reflexivity.
  - left. reflexivity.
  - reflexivity.
Defined.

Lemma merge_in_two_steps_demo :
  merge_bundles [Demo.person_v2; Demo.stored_email] [Demo.person_v1]
  = merge_bundles [Demo.person_v1; Demo.stored_email]
                  ([Demo.person_v2; Demo.no_key] ++ [Demo.person_v1])
  /\ merge_bundles [Demo.person_v2; Demo.stored_email] []
     = Ok [Demo.person_v2; Demo.stored_email].
Proof.
  apply merge_in_two_steps. reflexivity.
Defined.

Lemma merge_of_distinct_keys_demo :
  merge_bundles [Demo.person_v1] [Demo.stored_email]
  = Ok ([Demo.person_v1] ++ [Demo.stored_email]).
Proof.
  apply merge_of_distinct_keys.
  - intros b [<-|[<-|[]]]; discriminate.
  - repeat constructor; simpl; intuition discriminate.
Defined.

Lemma execute_action_writes_only_on_create_demo :
  snd (demo_execute_action
         (Demo.classified "List my orders" Demo.list_action)
         Demo.stocked_world)
  = Demo.stocked_world.
Proof.
  apply execute_action_writes_only_on_create. discriminate.
Defined.

Lemma nodes_raise_only_runtime_error_demo :
  exists cause,
    RuntimeError
      "Language model action failure: Expecting value: line 1 column 1 (char 0)"
    = RuntimeError ("Language model action failure: " ++ str_exn cause).
Proof.
  destruct nodes_raise_only_runtime_error
    with (CRYPTOR_SERVICE_URL := Demo.CRYPTOR_SERVICE_URL)
         (TENANT := Demo.TENANT) (json_loads := Demo.json_loads)
         (json_dumps := Demo.json_dumps) (requests_post := Demo.requests_post)
         (generate_content := Demo.generate_content)
         (state := Demo.detected "Hello") (w := fresh_world)
         (e := RuntimeError
                 "Language model action failure: Expecting value: line 1 column 1 (char 0)")
    as (_ & H & _).
  apply H. reflexivity.
Defined.

Lemma execute_action_error_kinds_demo :
  exists msg,
    demo_execute_action (Demo.detected "Hello") fresh_world
    = (Raise (TypeError msg), fresh_world).
Proof.
  destruct execute_action_error_kinds
    with (json_loads := Demo.json_loads) (json_dumps := Demo.json_dumps)
         (datetime_now := Demo.datetime_now) (py_repr := Demo.py_repr)
         (state := Demo.detected "Hello") (w := fresh_world)
         (e := TypeError "")
    as (_ & _ & H).
  apply H. reflexivity.
Defined.

Lemma process_input_returns_decoded_response_demo :
  exists resp data,
    Demo.requests_post
      (Demo.CRYPTOR_SERVICE_URL ++ "/v1/detect-encrypt")%string
      (detect_payload Demo.TENANT "List my orders") = Ok resp
    /\ raise_for_status resp = Ok tt
    /\ resp_json resp = Ok data
    /\ py_getitem data "bundles" = Ok (JList []).
Proof.
  let r := eval vm_compute in
        (demo_process_input (initial_state "List my orders") fresh_world) in
  lazymatch r with
  | (Ok ?s1, ?w1) =>
      destruct process_input_returns_decoded_response
        with (CRYPTOR_SERVICE_URL := Demo.CRYPTOR_SERVICE_URL)
             (TENANT := Demo.TENANT) (requests_post := Demo.requests_post)
             (state := initial_state "List my orders") (s' := s1)
             (w := fresh_world) (w' := w1)
        as (resp & data & P & S & J & _ & B & _)
  end.
  - vm_compute. reflexivity.
  - exists resp, data. repeat split; assumption.
Defined.

Lemma determine_action_returns_parsed_object_demo :
  exists text data a,
    Demo.generate_content (ActionPrompt (JStr "List my orders")) = Ok text
    /\ Demo.json_loads (json_span (strip text)) = Ok data
    /\ py_getitem data "action" = Ok a.
Proof.
  destruct determine_action_returns_parsed_object
    with (json_loads := Demo.json_loads) (json_dumps := Demo.json_dumps)
         (generate_content := Demo.generate_content)
         (state := Demo.detected "List my orders") (w := fresh_world)
    as [_ H].
  destruct (H (with_action (Demo.detected "List my orders")
                           (JStr (Demo.json_dumps Demo.list_action)))
              eq_refl)
    as (text & data & a & G & L & K & _).
  now exists text, data, a.
Defined.


Lemma get_order_hit_demo :
  let w := Demo.world_with [("ORD-999", JDict Demo.order_fields)]
                           [("ORD-999", JList [Demo.stored_email])] in
  let state := Demo.classified "Show order ORD-999" Demo.lookup_action in
  let found :=
    JDict (dict_update Demo.order_fields [("order_id", JStr "ORD-999")]) in
  get_order (JStr "ORD-999") w = (Ok found, w)
  /\ demo_execute_action state w
     = (Ok (with_result state (JStr (Demo.json_dumps found))
                        (JList [Demo.person_v1; Demo.stored_email])), w).
Proof.
  intros w state found.
  destruct get_order_hit
    with (json_loads := Demo.json_loads) (json_dumps := Demo.json_dumps)
         (datetime_now := Demo.datetime_now) (py_repr := Demo.py_repr)
         (state := state) (w := w)
         (s := Demo.json_dumps Demo.lookup_action) (oid := "ORD-999")
         (action_data := [("action", JStr "get_order");
                          ("order_id", JStr "ORD-999")])
         (fields := Demo.order_fields) (stored := [Demo.stored_email])
         (l := [Demo.person_v1])
    as [G X]; try reflexivity; try discriminate.
  split; [exact G | exact X].
Defined.

Lemma get_all_orders_collects_every_bundle_set_demo :
  let state := Demo.classified "List my orders" Demo.list_action in
  let listing :=
    JDict [("orders", JList (map listed_order (ORDERS_DB Demo.stocked_world)));
           ("total", JInt 1)] in
  get_all_orders Demo.stocked_world = (Ok listing, Demo.stocked_world)
  /\ demo_execute_action state Demo.stocked_world
     = (Ok (with_result state (JStr (Demo.json_dumps listing))
                        (JList [Demo.person_v1; Demo.stored_email])),
        Demo.stocked_world).
Proof.
  intros state listing.
  destruct get_all_orders_collects_every_bundle_set
    with (json_loads := Demo.json_loads) (json_dumps := Demo.json_dumps)
         (datetime_now := Demo.datetime_now) (py_repr := Demo.py_repr)
         (state := state) (w := Demo.stocked_world)
         (s := Demo.json_dumps Demo.list_action)
         (action_data := [("action", JStr "get_all_orders")])
         (l := [Demo.person_v1])
    as [G X]; try reflexivity.
  - intros entry [<-|[]]. now eexists.
  - intros oid v E. unfold Demo.stocked_world, Demo.world_with in E.
    cbn [BUNDLES_STORAGE dict_get] in E.
    destruct (keqb "ORD-001" oid); [|discriminate].
    injection E as <-. now eexists.
  - split; [exact G | exact X].
Defined.

Lemma create_order_is_not_rolled_back_demo :
  let state :=
    {| user_input := "Order 20 roses"; encrypted_input := JStr "Order 20 roses";
       bundles := JDict []; tenant_id := JStr Demo.TENANT;
       action := JStr (Demo.json_dumps Demo.create_action);
       tool_result := JNull; agent_response := JNull;
       final_response := JNull |} in
  let run := demo_execute_action state fresh_world in
  fst run
  = Raise (RuntimeError
             "Business logic failure: unsupported operand type(s) for +")
  /\ dict_keys (ORDERS_DB (snd run)) = ["ORD-001"]
  /\ dict_get (BUNDLES_STORAGE (snd run)) "ORD-001" = Some (JDict []).
Proof.
  intros state run. unfold run.
  rewrite create_order_is_not_rolled_back
    with (s := Demo.json_dumps Demo.create_action)
         (action_data := [("action", JStr "create_order");
                          ("customer", JStr "[PERSON_1]");
                          ("email", JStr "[EMAIL_1]");
                          ("phone", JStr "[PHONE_1]");
                          ("address", JStr "[LOCATION_1]");
                          ("items", JStr "20 roses")])
         (e := TypeError "unsupported operand type(s) for +");
    try reflexivity.
  repeat split.
Defined.

Lemma get_order_decrypted_outcomes_demo :
  demo_get_order_decrypted (JStr "ORD-404") Demo.stocked_world
  = (Ok (JDict [("error", JStr "Order not found")]), Demo.stocked_world).
Proof.
  destruct get_order_decrypted_outcomes
    with (CRYPTOR_SERVICE_URL := Demo.CRYPTOR_SERVICE_URL)
         (TENANT := Demo.TENANT) (json_loads := Demo.json_loads)
         (json_dumps := Demo.json_dumps) (requests_post := Demo.requests_post)
         (w := Demo.stocked_world) (oid := "ORD-404")
    as [H _].
  apply H. left. reflexivity.
Defined.

Lemma load_db_on_partial_files_demo :
  load_db Demo.stocked_world = Some Demo.stocked_world.
Proof.
  destruct load_db_on_partial_files
    with (datetime_now := Demo.datetime_now) (w := Demo.stocked_world)
    as [H _].
  apply H; reflexivity.
Defined.

Lemma json_span_discards_prose_demo :
  json_span (strip ("Sure. " ++ "{" ++ "a" ++ "}" ++ " Done."))
  = ("{" ++ "a" ++ "}")%string.
Proof. apply json_span_discards_prose; reflexivity. Defined.

Lemma reply_without_object_is_refused_demo :
  json_span (strip "I cannot help with that.") = ""
  /\ demo_determine_action (Demo.detected "Hello") fresh_world
     = (Raise (RuntimeError
                 ("Language model action failure: "
                  ++ str_exn (JSONDecodeError
                                "Expecting value: line 1 column 1 (char 0)"))),
        fresh_world).
Proof.
  apply reply_without_object_is_refused
    with (text := "I cannot help with that."); reflexivity.
Defined.

Lemma commands_only_read_demo :
  let run := demo_loop_body "/decrypt ORD-001" nobody Demo.stocked_world in
  same_store Demo.stocked_world (snd run)
  /\ (http_log (snd run) = http_log Demo.stocked_world
      \/ exists payload,
           http_log (snd run)
           = http_log Demo.stocked_world
             ++ [((Demo.CRYPTOR_SERVICE_URL ++ "/v1/decrypt")%string,
                  payload)])
  /\ forall n, fst run = Ok n -> history (session_of n) = history nobody.
Proof.
  apply commands_only_read
    with (CRYPTOR_SERVICE_URL := Demo.CRYPTOR_SERVICE_URL)
         (TENANT := Demo.TENANT) (json_loads := Demo.json_loads)
         (json_dumps := Demo.json_dumps) (requests_post := Demo.requests_post)
         (generate_content := Demo.generate_content)
         (datetime_now := Demo.datetime_now) (py_repr := Demo.py_repr)
         (json_dumps_indent := Demo.json_dumps)
         (line := "/decrypt ORD-001") (s := nobody) (w := Demo.stocked_world).
  reflexivity.
Defined.

(** The sample codec reads back what it writes. *)
Lemma demo_round_trip : json_round_trip Demo.json_loads Demo.json_dumps.
Proof.
  intros text data. unfold Demo.json_loads.
  repeat (destruct (String.eqb text _);
          [intro E; injection E as <-; reflexivity|]).
  discriminate.
Qed.

(** "List my orders" with the decrypt endpoint down. *)
Lemma failed_turn_is_a_processing_error_demo :
  exists prefix cause,
    In prefix step_prefixes
    /\ RuntimeError
         "Response generation failed: Final response decrypt failed: HTTP error status"
       = RuntimeError (prefix ++ str_exn cause)
    /\ demo_workflow_turn "List my orders" nobody fresh_world
       = (Ok (prints [("PROCESSING ERROR: " ++ (prefix ++ str_exn cause)
                       ++ newline)%string] nobody),
          snd (demo_invoke "List my orders" fresh_world)).
Proof.
  apply failed_turn_is_a_processing_error
    with (CRYPTOR_SERVICE_URL := Demo.CRYPTOR_SERVICE_URL)
         (TENANT := Demo.TENANT) (json_loads := Demo.json_loads)
         (json_dumps := Demo.json_dumps) (requests_post := Demo.requests_post)
         (generate_content := Demo.generate_content)
         (datetime_now := Demo.datetime_now) (py_repr := Demo.py_repr)
         (user_input := "List my orders") (s := nobody) (w := fresh_world)
         (w' := snd (demo_invoke "List my orders" fresh_world))
         (e := RuntimeError
                 "Response generation failed: Final response decrypt failed: HTTP error status").
  - exact demo_round_trip.
  - vm_compute. reflexivity.
Defined.

Lemma lines_after_exit_are_not_read_demo :
  demo_main_loop (["/help"] ++ " /EXIT " :: ["List my orders"]) nobody
                 fresh_world
  = demo_main_loop (["/help"] ++ [" /EXIT "]) nobody fresh_world.
Proof. apply lines_after_exit_are_not_read. reflexivity. Defined.

Lemma session_never_crashes_demo :
  exists s' w',
    demo_main_loop ["/orders"; "/decrypt ORD-001"; "List my orders"; "/db"]
                   nobody Demo.stocked_world
    = (Ok s', w')
    /\ well_formed_store w'.
Proof.
  apply session_never_crashes. split.
  - repeat constructor. now eexists.
  - repeat constructor. now eexists.
Defined.

Lemma decrypt_command_matches_by_prefix_demo :
  demo_loop_body ("/Decryption" ++ " " ++ "ord-001") nobody Demo.stocked_world
  = (Ok (Continue (prints [usage] nobody)), Demo.stocked_world).
Proof.
  rewrite decrypt_command_matches_by_prefix;
    [reflexivity | reflexivity | reflexivity | reflexivity | discriminate].
Defined.
